(** * Health-Monitor-Vision: the signal-to-alert pipeline

    A shallow embedding of [src/alert_system.py], [src/eye_tracker.py],
    [src/posture_analyzer.py], [src/screen_time_tracker.py] and of the frame
    loop of [src/health_monitor.py], with the properties the specification
    states about them.

    Conventions of the embedding.
    - Python floats (timestamps, ratios, angles, scores) are rationals [Q];
      the comparisons of the source are the boolean comparisons of [Q].
      Rounding of binary floating point and NaN are outside the model.
    - Every call of [time.time()] is one read of a clock: a method runs in the
      monad [Prog], which threads the object state and the stream of clock
      readings that the call will see.  [time.strftime("%Y-%m-%d")] and
      [datetime.now().date()] are reads of the same clock, through the
      calendar day of the reading.
    - Python truthiness is written out ([truthy], [or_else]).
    - [Alert] objects are shared between the active list, the history and
      the caller: they live in a store and are named by reference. *)

From Stdlib Require Import QArith Qround Qabs Qminmax Lqa ZArith Lia Bool.
From stdpp Require Import base option list gmap strings pretty.

Local Open Scope Q_scope.

(** ** Numbers, options and bounded queues *)

Definition Qlt_bool (x y : Q) : bool := negb (Qle_bool y x).

(** [bool(x)] for an [Optional[float]]: [None] and [0.0] are falsy. *)
Definition truthy (o : option Q) : bool :=
  match o with
  | Some q => negb (Qeq_bool q 0)
  | None => false
  end.

(** [x or d] for an [Optional[float]] [x]. *)
Definition or_else (o : option Q) (d : Q) : Q :=
  match o with
  | Some q => if Qeq_bool q 0 then d else q
  | None => d
  end.

(** [deque(maxlen=n).append(x)]: the oldest entries leave on the left. *)
Definition deque_append {A : Type} (maxlen : nat) (l : list A) (x : A) : list A :=
  let l' := l ++ [x] in drop (length l' - maxlen)%nat l'.

Definition Qsum (l : list Q) : Q := foldl Qplus 0 l.

(** [sum(l) / len(l)], also what [np.mean] computes. *)
Definition Qmean (l : list Q) : Q := Qsum l / inject_Z (Z.of_nat (length l)).

(** ** The clock and the monad of methods *)

(** One reading of the wall clock: the seconds [time.time()] returns and the
    local calendar day (as a day number) the date functions return. *)
Record Reading := mkReading { wall : Q; day : Z }.

(** The readings one call will see, in order. *)
Definition Clock := nat -> Reading.

Definition const_clock (t : Q) (d : Z) : Clock := fun _ => mkReading t d.

Definition Prog (St A : Type) : Type := Clock -> St -> A * St * Clock.

Global Instance Prog_ret {St} : MRet (Prog St) := fun A a c s => (a, s, c).

Global Instance Prog_bind {St} : MBind (Prog St) :=
  fun A B f m c s => let '(a, s', c') := m c s in f a c' s'.

Definition get {St} : Prog St St := fun c s => (s, s, c).
Definition put {St} (s : St) : Prog St unit := fun c _ => (tt, s, c).
Definition modify {St} (f : St -> St) : Prog St unit := fun c s => (tt, f s, c).

(** [time.time()] *)
Definition time_time {St} : Prog St Q :=
  fun c s => (wall (c 0%nat), s, fun n => c (S n)).

(** [time.strftime("%Y-%m-%d")], [datetime.now().date()] *)
Definition today {St} : Prog St Z :=
  fun c s => (day (c 0%nat), s, fun n => c (S n)).

(** [when b m]: [if b: m] *)
Definition when {St} (b : bool) (m : Prog St unit) : Prog St unit :=
  if b then m else mret tt.

(** A method of a component run on a field of the owner. *)
Definition zoom {St T A} (proj : St -> T) (upd : T -> St -> St) (m : Prog T A) : Prog St A :=
  fun c s => let '(a, t', c') := m c (proj s) in (a, upd t' s, c').

Definition result {St A} (r : A * St * Clock) : A := fst (fst r).
Definition state {St A} (r : A * St * Clock) : St := snd (fst r).

(** Running a call whose clock does not advance during the call. *)
Definition run_at {St A} (m : Prog St A) (t : Q) (d : Z) (s : St) : A * St :=
  fst (m (const_clock t d) s).

(** ** [alert_system.py] *)

Inductive AlertType := EYE_STRAIN | POSTURE | BREAK_NEEDED | DISTANCE | BLINK_REMINDER.

Inductive AlertSeverity := INFO | WARNING | CRITICAL.

Global Instance AlertType_eq_dec : EqDecision AlertType.
Proof. solve_decision. Defined.

Global Instance AlertSeverity_eq_dec : EqDecision AlertSeverity.
Proof. solve_decision. Defined.

Definition AlertType_index (t : AlertType) : nat :=
  match t with
  | EYE_STRAIN => 0 | POSTURE => 1 | BREAK_NEEDED => 2
  | DISTANCE => 3 | BLINK_REMINDER => 4
  end.

Definition AlertType_of_index (n : nat) : AlertType :=
  match n with
  | 0%nat => EYE_STRAIN | 1%nat => POSTURE | 2%nat => BREAK_NEEDED
  | 3%nat => DISTANCE | _ => BLINK_REMINDER
  end.

Global Instance AlertType_countable : Countable AlertType.
Proof.
  refine (inj_countable' AlertType_index AlertType_of_index _).
  intros []; reflexivity.
Defined.

(** [for t in AlertType] *)
Definition all_alert_types : list AlertType :=
  [EYE_STRAIN; POSTURE; BREAK_NEEDED; DISTANCE; BLINK_REMINDER].

Record Alert := mkAlert {
  alert_type : AlertType;
  severity : AlertSeverity;
  title : string;
  message : string;
  recommendation : string;
  timestamp : Q;
  acknowledged : bool;
  escalation_level : nat
}.

(** The [__eq__] the dataclass generates: field by field. *)
Definition Alert_eqb (a b : Alert) : bool :=
  bool_decide (alert_type a = alert_type b)
  && bool_decide (severity a = severity b)
  && bool_decide (title a = title b)
  && bool_decide (message a = message b)
  && bool_decide (recommendation a = recommendation b)
  && Qeq_bool (timestamp a) (timestamp b)
  && bool_decide (acknowledged a = acknowledged b)
  && bool_decide (escalation_level a = escalation_level b).

Definition set_acknowledged (a : Alert) : Alert :=
  mkAlert (alert_type a) (severity a) (title a) (message a) (recommendation a)
          (timestamp a) true (escalation_level a).

(** A reference to an [Alert] object: its index in the store. *)
Definition ref := nat.

(** A registered callback, by name; its calls are recorded in [notified]. *)
Definition callback := nat.

Record AlertSystem := mkAlertSystem {
  objects : list Alert;
  active_alerts : list ref;
  alert_history : list ref;
  last_alert_times : gmap AlertType Q;
  escalation_counts : gmap AlertType nat;
  pending_escalations : gmap AlertType Q;
  alert_callbacks : list callback;
  is_paused : bool;
  pause_until : option Q;
  alerts_today : nat;
  last_reset_date : Z;
  notified : list (callback * ref)
}.

Definition COOLDOWN_PERIODS : gmap AlertType Q :=
  list_to_map [(EYE_STRAIN, 120); (POSTURE, 60); (BREAK_NEEDED, 300);
               (DISTANCE, 30); (BLINK_REMINDER, 45)].

Definition MAX_ESCALATION : nat := 3.
Definition ESCALATION_INTERVAL : Q := 60.

Definition with_objects (f : list Alert -> list Alert) (s : AlertSystem) :=
  mkAlertSystem (f (objects s)) (active_alerts s) (alert_history s)
    (last_alert_times s) (escalation_counts s) (pending_escalations s)
    (alert_callbacks s) (is_paused s) (pause_until s) (alerts_today s)
    (last_reset_date s) (notified s).

Definition with_active_alerts (f : list ref -> list ref) (s : AlertSystem) :=
  mkAlertSystem (objects s) (f (active_alerts s)) (alert_history s)
    (last_alert_times s) (escalation_counts s) (pending_escalations s)
    (alert_callbacks s) (is_paused s) (pause_until s) (alerts_today s)
    (last_reset_date s) (notified s).

Definition with_alert_history (f : list ref -> list ref) (s : AlertSystem) :=
  mkAlertSystem (objects s) (active_alerts s) (f (alert_history s))
    (last_alert_times s) (escalation_counts s) (pending_escalations s)
    (alert_callbacks s) (is_paused s) (pause_until s) (alerts_today s)
    (last_reset_date s) (notified s).

Definition with_last_alert_times (f : gmap AlertType Q -> gmap AlertType Q)
    (s : AlertSystem) :=
  mkAlertSystem (objects s) (active_alerts s) (alert_history s)
    (f (last_alert_times s)) (escalation_counts s) (pending_escalations s)
    (alert_callbacks s) (is_paused s) (pause_until s) (alerts_today s)
    (last_reset_date s) (notified s).

Definition with_escalation_counts (f : gmap AlertType nat -> gmap AlertType nat)
    (s : AlertSystem) :=
  mkAlertSystem (objects s) (active_alerts s) (alert_history s)
    (last_alert_times s) (f (escalation_counts s)) (pending_escalations s)
    (alert_callbacks s) (is_paused s) (pause_until s) (alerts_today s)
    (last_reset_date s) (notified s).

Definition with_pending_escalations (f : gmap AlertType Q -> gmap AlertType Q)
    (s : AlertSystem) :=
  mkAlertSystem (objects s) (active_alerts s) (alert_history s)
    (last_alert_times s) (escalation_counts s) (f (pending_escalations s))
    (alert_callbacks s) (is_paused s) (pause_until s) (alerts_today s)
    (last_reset_date s) (notified s).

Definition with_alert_callbacks (f : list callback -> list callback)
    (s : AlertSystem) :=
  mkAlertSystem (objects s) (active_alerts s) (alert_history s)
    (last_alert_times s) (escalation_counts s) (pending_escalations s)
    (f (alert_callbacks s)) (is_paused s) (pause_until s) (alerts_today s)
    (last_reset_date s) (notified s).

Definition with_pause (p : bool) (u : option Q) (s : AlertSystem) :=
  mkAlertSystem (objects s) (active_alerts s) (alert_history s)
    (last_alert_times s) (escalation_counts s) (pending_escalations s)
    (alert_callbacks s) p u (alerts_today s)
    (last_reset_date s) (notified s).

Definition with_alerts_today (f : nat -> nat) (s : AlertSystem) :=
  mkAlertSystem (objects s) (active_alerts s) (alert_history s)
    (last_alert_times s) (escalation_counts s) (pending_escalations s)
    (alert_callbacks s) (is_paused s) (pause_until s) (f (alerts_today s))
    (last_reset_date s) (notified s).

Definition with_last_reset_date (d : Z) (s : AlertSystem) :=
  mkAlertSystem (objects s) (active_alerts s) (alert_history s)
    (last_alert_times s) (escalation_counts s) (pending_escalations s)
    (alert_callbacks s) (is_paused s) (pause_until s) (alerts_today s)
    d (notified s).

Definition with_notified (f : list (callback * ref) -> list (callback * ref))
    (s : AlertSystem) :=
  mkAlertSystem (objects s) (active_alerts s) (alert_history s)
    (last_alert_times s) (escalation_counts s) (pending_escalations s)
    (alert_callbacks s) (is_paused s) (pause_until s) (alerts_today s)
    (last_reset_date s) (f (notified s)).

Module AlertEngine.

(** [AlertSystem.__init__] *)
Definition init {St} : Prog St AlertSystem :=
  d ← today;
  mret (mkAlertSystem [] [] []
          (list_to_map ((fun t => (t, 0)) <$> all_alert_types))
          (list_to_map ((fun t => (t, 0%nat)) <$> all_alert_types))
          ∅ [] false None 0%nat d []).

Definition register_callback (cb : callback) : Prog AlertSystem unit :=
  modify (with_alert_callbacks (fun l => l ++ [cb])).

(** Every callback is called with the alert; what it raises is caught.  The
    callbacks are observers: they are recorded and do not touch the engine. *)
Definition _notify_callbacks (alert : ref) : Prog AlertSystem unit :=
  s ← get;
  modify (with_notified
            (fun l => l ++ ((fun cb => (cb, alert)) <$> alert_callbacks s))).

Definition can_send_alert (ty : AlertType) : Prog AlertSystem bool :=
  s ← get;
  held ← (if is_paused s then
            expired ← match pause_until s with
                      | Some p =>
                          if negb (Qeq_bool p 0)
                          then now ← time_time; mret (Qle_bool p now)
                          else mret false
                      | None => mret false
                      end;
            if (expired : bool)
            then modify (with_pause false None);; mret false
            else mret true
          else mret false);
  if (held : bool) then mret false
  else
    current_time ← time_time;
    s ← get;
    let last_time := default 0 (last_alert_times s !! ty) in
    let cooldown := default 60 (COOLDOWN_PERIODS !! ty) in
    mret (Qle_bool cooldown (current_time - last_time)).

Definition _schedule_escalation (ty : AlertType) : Prog AlertSystem unit :=
  s ← get;
  let current_count := default 0%nat (escalation_counts s !! ty) in
  if (current_count <? MAX_ESCALATION)%nat
  then t ← time_time;
       modify (with_pending_escalations (insert ty (t + ESCALATION_INTERVAL)))
  else mret tt.

Definition create_alert (ty : AlertType) (sev : AlertSeverity)
    (title message recommendation : string) : Prog AlertSystem (option ref) :=
  ok ← can_send_alert ty;
  if negb ok then mret None
  else
    current_date ← today;
    s ← get;
    when (negb (current_date =? last_reset_date s)%Z)
         (modify (with_alerts_today (fun _ => 0%nat));;
          modify (with_last_reset_date current_date));;
    s ← get;
    let level := default 0%nat (escalation_counts s !! ty) in
    stamp ← time_time;
    let alert := length (objects s) in
    modify (with_objects
              (fun h => h ++ [mkAlert ty sev title message recommendation
                                      stamp false level]));;
    modify (with_active_alerts (fun l => l ++ [alert]));;
    modify (with_alert_history (fun l => deque_append 100 l alert));;
    t ← time_time;
    modify (with_last_alert_times (insert ty t));;
    modify (with_alerts_today (fun n => n + 1)%nat);;
    _notify_callbacks alert;;
    when (bool_decide (sev = WARNING) || bool_decide (sev = CRITICAL))
         (_schedule_escalation ty);;
    mret (Some alert).

(** [a.alert_type == alert_type and not a.acknowledged] *)
Definition unacknowledged_of (s : AlertSystem) (ty : AlertType) (a : ref) : bool :=
  match objects s !! a with
  | Some o => bool_decide (alert_type o = ty) && negb (acknowledged o)
  | None => false
  end.

(** One round of the first loop of [check_escalations]. *)
Definition escalation_round (s : AlertSystem) (current_time : Q)
    (acc : list AlertType * gmap AlertType Q) (item : AlertType * Q)
    : list AlertType * gmap AlertType Q :=
  let '(ty, escalation_time) := item in
  if Qle_bool escalation_time current_time then
    let unacknowledged := List.filter (unacknowledged_of s ty) (active_alerts s) in
    ((if unacknowledged is [] then acc.1 else acc.1 ++ [ty]),
     delete ty acc.2)
  else acc.

Definition check_escalations : Prog AlertSystem unit :=
  current_time ← time_time;
  s ← get;
  let '(escalations_to_process, pending) :=
    foldl (escalation_round s current_time) ([], pending_escalations s)
          (map_to_list (pending_escalations s)) in
  modify (with_pending_escalations (fun _ => pending));;
  modify (with_escalation_counts (fun counts =>
    foldl (fun m ty => <[ty := (default 0%nat (m !! ty) + 1)%nat]> m)
          counts escalations_to_process)).

Definition acknowledge_alert (alert : ref) : Prog AlertSystem unit :=
  s ← get;
  match objects s !! alert with
  | None => mret tt
  | Some o =>
      modify (with_objects (fun h => <[alert := set_acknowledged o]> h));;
      modify (with_pending_escalations (delete (alert_type o)));;
      modify (with_escalation_counts (insert (alert_type o) 0%nat));;
      modify (fun s => with_active_alerts
        (List.filter (fun a => match objects s !! a with
                               | Some x => negb (Alert_eqb x (set_acknowledged o))
                               | None => false
                               end)) s)
  end.

Definition acknowledge_all : Prog AlertSystem unit :=
  s ← get;
  modify (with_objects (fun h =>
    foldl (fun h a => match h !! a with
                      | Some o => <[a := set_acknowledged o]> h
                      | None => h
                      end) h (active_alerts s)));;
  modify (with_active_alerts (fun _ => []));;
  modify (with_pending_escalations (fun _ => ∅));;
  modify (with_escalation_counts (fmap (fun _ => 0%nat))).

Definition pause_alerts (duration_seconds : Q) : Prog AlertSystem unit :=
  t ← time_time;
  modify (with_pause true (Some (t + duration_seconds))).

Definition resume_alerts : Prog AlertSystem unit :=
  modify (with_pause false None).

Definition get_active_alerts : Prog AlertSystem (list ref) :=
  s ← get;
  mret (List.filter (fun a => match objects s !! a with
                              | Some o => negb (acknowledged o)
                              | None => false
                              end) (active_alerts s)).

(** The dictionary [get_alert_summary] returns; ["by_type"] is keyed by the
    alert type. *)
Record AlertSummary := mkAlertSummary {
  total_today : nat;
  active_count : nat;
  summary_is_paused : bool;
  pause_remaining : Q;
  by_type : gmap AlertType nat
}.

Definition get_alert_summary : Prog AlertSystem AlertSummary :=
  s ← get;
  active ← get_active_alerts;
  remaining ← (if is_paused s
               then t ← time_time; mret (Qmax 0 (or_else (pause_until s) 0 - t))
               else mret 0);
  mret (mkAlertSummary (alerts_today s) (length active) (is_paused s) remaining
          (list_to_map ((fun t =>
             (t, length (List.filter
                           (fun a => match objects s !! a with
                                     | Some o => bool_decide (alert_type o = t)
                                     | None => false
                                     end) (alert_history s))))
             <$> all_alert_types))).

End AlertEngine.

(** ** [eye_tracker.py] *)

Inductive EyeHealthStatus := HEALTHY | EYE_WARNING | EYE_CRITICAL.

Global Instance EyeHealthStatus_eq_dec : EqDecision EyeHealthStatus.
Proof. solve_decision. Defined.

Record BlinkEvent := mkBlinkEvent { blink_timestamp : Q; blink_duration : Q }.

Record EyeHealthMetrics := mkEyeHealthMetrics {
  blink_rate : Q;
  avg_blink_duration : Q;
  eye_strain_score : Q;
  eye_status : EyeHealthStatus;
  time_since_last_blink : Q;
  current_ear : Q
}.

Record EyeTracker := mkEyeTracker {
  blink_history : list BlinkEvent;
  ear_history : list Q;
  is_eye_closed : bool;
  eye_close_start_time : option Q;
  last_blink_time : Q;
  baseline_blink_rate : option Q;
  calibration_blinks : list Q;
  eye_is_calibrating : bool;
  eye_calibration_start_time : Q;
  eye_calibration_duration : Q
}.

Definition HEALTHY_BLINK_RATE_MIN : Q := 12.
Definition HEALTHY_BLINK_RATE_MAX : Q := 20.
Definition WARNING_BLINK_RATE : Q := 8.
Definition CRITICAL_BLINK_RATE : Q := 5.
Definition EAR_BLINK_THRESHOLD : Q := 21 # 100.
Definition MIN_BLINK_DURATION : Q := 5 # 100.
Definition MAX_BLINK_DURATION : Q := 1 # 2.
Definition BLINK_HISTORY_WINDOW : Q := 60.

Definition with_blink_history (f : list BlinkEvent -> list BlinkEvent) (s : EyeTracker) :=
  mkEyeTracker (f (blink_history s)) (ear_history s) (is_eye_closed s)
    (eye_close_start_time s) (last_blink_time s) (baseline_blink_rate s)
    (calibration_blinks s) (eye_is_calibrating s)
    (eye_calibration_start_time s) (eye_calibration_duration s).

Definition with_ear_history (f : list Q -> list Q) (s : EyeTracker) :=
  mkEyeTracker (blink_history s) (f (ear_history s)) (is_eye_closed s)
    (eye_close_start_time s) (last_blink_time s) (baseline_blink_rate s)
    (calibration_blinks s) (eye_is_calibrating s)
    (eye_calibration_start_time s) (eye_calibration_duration s).

Definition with_eye_closed (b : bool) (t : option Q) (s : EyeTracker) :=
  mkEyeTracker (blink_history s) (ear_history s) b
    t (last_blink_time s) (baseline_blink_rate s)
    (calibration_blinks s) (eye_is_calibrating s)
    (eye_calibration_start_time s) (eye_calibration_duration s).

Definition with_last_blink_time (t : Q) (s : EyeTracker) :=
  mkEyeTracker (blink_history s) (ear_history s) (is_eye_closed s)
    (eye_close_start_time s) t (baseline_blink_rate s)
    (calibration_blinks s) (eye_is_calibrating s)
    (eye_calibration_start_time s) (eye_calibration_duration s).

Definition with_baseline_blink_rate (b : option Q) (s : EyeTracker) :=
  mkEyeTracker (blink_history s) (ear_history s) (is_eye_closed s)
    (eye_close_start_time s) (last_blink_time s) b
    (calibration_blinks s) (eye_is_calibrating s)
    (eye_calibration_start_time s) (eye_calibration_duration s).

Definition with_calibration_blinks (f : list Q -> list Q) (s : EyeTracker) :=
  mkEyeTracker (blink_history s) (ear_history s) (is_eye_closed s)
    (eye_close_start_time s) (last_blink_time s) (baseline_blink_rate s)
    (f (calibration_blinks s)) (eye_is_calibrating s)
    (eye_calibration_start_time s) (eye_calibration_duration s).

Definition with_eye_is_calibrating (b : bool) (s : EyeTracker) :=
  mkEyeTracker (blink_history s) (ear_history s) (is_eye_closed s)
    (eye_close_start_time s) (last_blink_time s) (baseline_blink_rate s)
    (calibration_blinks s) b
    (eye_calibration_start_time s) (eye_calibration_duration s).

Module EyeHealthTracker.

(** [EyeTracker.__init__] *)
Definition init {St} : Prog St EyeTracker :=
  t1 ← time_time;
  t2 ← time_time;
  mret (mkEyeTracker [] [] false None t1 None [] true t2 120).

Definition _complete_calibration : Prog EyeTracker unit :=
  s ← get;
  when (5 <=? length (calibration_blinks s))%nat
       (let duration_minutes := eye_calibration_duration s / 60 in
        modify (with_baseline_blink_rate
                  (Some (inject_Z (Z.of_nat (length (calibration_blinks s)))
                         / duration_minutes))));;
  modify (with_eye_is_calibrating false);;
  modify (with_calibration_blinks (fun _ => [])).

Definition update (left_ear right_ear : Q) : Prog EyeTracker (option BlinkEvent) :=
  current_time ← time_time;
  let avg_ear := (left_ear + right_ear) / 2 in
  modify (with_ear_history (fun h => deque_append 30 h avg_ear));;
  s ← get;
  blink_event ←
    (if Qlt_bool avg_ear EAR_BLINK_THRESHOLD then
       when (negb (is_eye_closed s))
            (modify (with_eye_closed true (Some current_time)));;
       mret None
     else
       if is_eye_closed s && truthy (eye_close_start_time s) then
         let blink_duration := current_time - or_else (eye_close_start_time s) 0 in
         ev ← (if Qle_bool MIN_BLINK_DURATION blink_duration
                  && Qle_bool blink_duration MAX_BLINK_DURATION
               then
                 let blink_event := mkBlinkEvent current_time blink_duration in
                 modify (with_blink_history (fun h => deque_append 100 h blink_event));;
                 modify (with_last_blink_time current_time);;
                 when (eye_is_calibrating s)
                      (modify (with_calibration_blinks (fun l => l ++ [current_time])));;
                 mret (Some blink_event)
               else mret None);
         modify (with_eye_closed false None);;
         mret ev
       else mret None);
  s ← get;
  when (eye_is_calibrating s)
       (when (Qle_bool (eye_calibration_duration s)
                       (current_time - eye_calibration_start_time s))
             _complete_calibration);;
  mret blink_event.

Definition get_current_blink_rate : Prog EyeTracker Q :=
  current_time ← time_time;
  s ← get;
  let window_start := current_time - BLINK_HISTORY_WINDOW in
  let recent_blinks :=
    List.filter (fun b => Qle_bool window_start (blink_timestamp b))
                (blink_history s) in
  if (length recent_blinks <? 2)%nat then mret 0
  else
    let duration_minutes := BLINK_HISTORY_WINDOW / 60 in
    mret (inject_Z (Z.of_nat (length recent_blinks)) / duration_minutes).

(** [sum(self.ear_history) / len(self.ear_history) if self.ear_history else 0.25] *)
Definition mean_ear (s : EyeTracker) : Q :=
  if ear_history s is [] then 1 # 4 else Qmean (ear_history s).

(** The body of [calculate_eye_strain_score] after its three reads. *)
Definition strain_score (blink_rate time_since_blink avg_ear : Q)
    (baseline : option Q) : Q :=
  let score := 0 in
  let score :=
    if Qlt_bool blink_rate CRITICAL_BLINK_RATE then score + 40
    else if Qlt_bool blink_rate WARNING_BLINK_RATE then score + 25
    else if Qlt_bool blink_rate HEALTHY_BLINK_RATE_MIN then score + 10
    else score in
  let score :=
    if Qlt_bool 30 time_since_blink then score + 30
    else if Qlt_bool 15 time_since_blink then score + 15
    else if Qlt_bool 10 time_since_blink then score + 5
    else score in
  let score :=
    if Qlt_bool avg_ear (22 # 100) then score + 20
    else if Qlt_bool avg_ear (24 # 100) then score + 10
    else score in
  let score :=
    if truthy baseline then
      let rate_deviation := (or_else baseline 0 - blink_rate) / or_else baseline 0 in
      if Qlt_bool (1 # 2) rate_deviation then score + 15
      else if Qlt_bool (3 # 10) rate_deviation then score + 8
      else score
    else score in
  Qmin 100 score.

Definition calculate_eye_strain_score : Prog EyeTracker Q :=
  blink_rate ← get_current_blink_rate;
  t ← time_time;
  s ← get;
  let time_since_blink := t - last_blink_time s in
  let avg_ear := mean_ear s in
  mret (strain_score blink_rate time_since_blink avg_ear (baseline_blink_rate s)).

Definition get_health_status : Prog EyeTracker EyeHealthStatus :=
  score ← calculate_eye_strain_score;
  if Qle_bool 60 score then mret EYE_CRITICAL
  else if Qle_bool 30 score then mret EYE_WARNING
  else mret HEALTHY.

Definition get_metrics : Prog EyeTracker EyeHealthMetrics :=
  blink_rate ← get_current_blink_rate;
  s ← get;
  let recent_blinks :=
    drop (length (blink_history s) - 20)%nat (blink_history s) in
  let avg_duration :=
    if recent_blinks is [] then 0
    else Qsum (blink_duration <$> recent_blinks)
         / inject_Z (Z.of_nat (length recent_blinks)) in
  let avg_ear := mean_ear s in
  score ← calculate_eye_strain_score;
  status ← get_health_status;
  t ← time_time;
  mret (mkEyeHealthMetrics blink_rate avg_duration score status
                           (t - last_blink_time s) avg_ear).

Definition get_recommendation : Prog EyeTracker (option string) :=
  metrics ← get_metrics;
  match eye_status metrics with
  | EYE_CRITICAL =>
      if Qlt_bool 20 (time_since_last_blink metrics)
      then mret (Some "You haven't blinked in a while. Please blink now and consider the 20-20-20 rule: look at something 20 feet away for 20 seconds."%string)
      else mret (Some "Your eyes are showing signs of strain. Take a short break and look away from the screen."%string)
  | EYE_WARNING =>
      if Qlt_bool (blink_rate metrics) WARNING_BLINK_RATE
      then mret (Some "Your blink rate is lower than normal. Try to blink more consciously."%string)
      else mret (Some "Your eyes may be getting tired. Consider resting them soon."%string)
  | HEALTHY => mret None
  end.

End EyeHealthTracker.

(** ** Helpers of the Python library the trackers use *)

(** Rounding to the nearest integer, ties to even: what [format] does. *)
Definition round_half_even (x : Q) : Z :=
  let f := Qfloor x in
  match Qcompare (x - inject_Z f) (1 # 2) with
  | Lt => f
  | Gt => (f + 1)%Z
  | Eq => if Z.even f then f else (f + 1)%Z
  end.

(** [f"{x:.0f}"] *)
Definition fmt_0f (x : Q) : string :=
  ((if Qlt_bool x 0 then "-" else "") ++ pretty (round_half_even (Qabs x)))%string.

(** [f"{x:.1f}"] *)
Definition fmt_1f (x : Q) : string :=
  let n := round_half_even (Qabs x * 10) in
  ((if Qlt_bool x 0 then "-" else "")
   ++ pretty (n / 10)%Z ++ "." ++ pretty (n mod 10)%Z)%string.

(** [needle in hay] *)
Definition contains (needle hay : string) : bool :=
  if String.index 0 needle hay is Some _ then true else false.

Fixpoint insert_sorted (x : Q) (l : list Q) : list Q :=
  match l with
  | [] => [x]
  | y :: l' => if Qle_bool x y then x :: l else y :: insert_sorted x l'
  end.

(** [np.median]: the middle of the sorted values, or the mean of the two
    middle ones. *)
Definition median (l : list Q) : Q :=
  let s := foldr insert_sorted [] l in
  let n := length s in
  if Nat.even n
  then (nth (n / 2 - 1) s 0 + nth (n / 2) s 0) / 2
  else nth (n / 2) s 0.

(** ** [posture_analyzer.py] *)

Inductive PostureStatus := POSTURE_GOOD | POSTURE_WARNING | POSTURE_POOR.

Global Instance PostureStatus_eq_dec : EqDecision PostureStatus.
Proof. solve_decision. Defined.

Record PostureMetrics := mkPostureMetrics {
  head_pitch : Q;
  head_yaw : Q;
  head_roll : Q;
  distance_from_screen : Q;
  posture_score : Q;
  posture_status : PostureStatus;
  issues : list string;
  bad_posture_duration : Q
}.

Record PostureAnalyzer := mkPostureAnalyzer {
  pitch_history : list Q;
  yaw_history : list Q;
  roll_history : list Q;
  distance_history : list Q;
  baseline_pitch : option Q;
  baseline_yaw : option Q;
  baseline_distance : option Q;
  calibration_data : list (Q * Q * Q * Q);
  posture_is_calibrating : bool;
  posture_calibration_start_time : Q;
  posture_calibration_duration : Q;
  bad_posture_start_time : option Q;
  current_bad_posture_duration : Q;
  total_bad_posture_time : Q
}.

Definition IDEAL_DISTANCE_MIN : Q := 30.
Definition IDEAL_DISTANCE_MAX : Q := 50.
Definition WARNING_DISTANCE_MIN : Q := 20.
Definition CRITICAL_DISTANCE_MIN : Q := 10.
Definition HEAD_TILT_WARNING : Q := 20.
Definition HEAD_TILT_CRITICAL : Q := 25.
Definition FORWARD_HEAD_WARNING : Q := 20.
Definition FORWARD_HEAD_CRITICAL : Q := 35.
Definition HEAD_ROLL_WARNING : Q := 15.
Definition HEAD_ROLL_CRITICAL : Q := 25.
Definition BAD_POSTURE_ALERT_THRESHOLD : Q := 30.

Definition with_histories (p y r d : Q) (s : PostureAnalyzer) :=
  mkPostureAnalyzer
    (deque_append 30 (pitch_history s) p) (deque_append 30 (yaw_history s) y)
    (deque_append 30 (roll_history s) r) (deque_append 30 (distance_history s) d)
    (baseline_pitch s) (baseline_yaw s) (baseline_distance s)
    (calibration_data s) (posture_is_calibrating s)
    (posture_calibration_start_time s) (posture_calibration_duration s)
    (bad_posture_start_time s) (current_bad_posture_duration s)
    (total_bad_posture_time s).

Definition with_baselines (p y d : option Q) (s : PostureAnalyzer) :=
  mkPostureAnalyzer
    (pitch_history s) (yaw_history s) (roll_history s) (distance_history s)
    p y d
    (calibration_data s) (posture_is_calibrating s)
    (posture_calibration_start_time s) (posture_calibration_duration s)
    (bad_posture_start_time s) (current_bad_posture_duration s)
    (total_bad_posture_time s).

Definition with_calibration (data : list (Q * Q * Q * Q)) (b : bool)
    (s : PostureAnalyzer) :=
  mkPostureAnalyzer
    (pitch_history s) (yaw_history s) (roll_history s) (distance_history s)
    (baseline_pitch s) (baseline_yaw s) (baseline_distance s)
    data b
    (posture_calibration_start_time s) (posture_calibration_duration s)
    (bad_posture_start_time s) (current_bad_posture_duration s)
    (total_bad_posture_time s).

Definition with_bad_posture (start : option Q) (current total : Q)
    (s : PostureAnalyzer) :=
  mkPostureAnalyzer
    (pitch_history s) (yaw_history s) (roll_history s) (distance_history s)
    (baseline_pitch s) (baseline_yaw s) (baseline_distance s)
    (calibration_data s) (posture_is_calibrating s)
    (posture_calibration_start_time s) (posture_calibration_duration s)
    start current total.

Module PostureTracker.

(** [PostureAnalyzer.__init__] *)
Definition init {St} : Prog St PostureAnalyzer :=
  t ← time_time;
  mret (mkPostureAnalyzer [] [] [] [] None None None [] true t 30 None 0 0).

Definition _complete_calibration : Prog PostureAnalyzer unit :=
  s ← get;
  when (10 <=? length (calibration_data s))%nat
       (let pitches := (fun d => d.1.1.1) <$> calibration_data s in
        let yaws := (fun d => d.1.1.2) <$> calibration_data s in
        let distances := (fun d => d.2) <$> calibration_data s in
        modify (with_baselines (Some (median pitches)) (Some (median yaws))
                               (Some (median distances))));;
  modify (with_calibration [] false).

Definition get_smoothed_values (s : PostureAnalyzer) : Q * Q * Q * Q :=
  let pitch := if pitch_history s is [] then 0 else Qmean (pitch_history s) in
  let yaw := if yaw_history s is [] then 0 else Qmean (yaw_history s) in
  let roll := if roll_history s is [] then 0 else Qmean (roll_history s) in
  let distance :=
    if distance_history s is [] then 50 else Qmean (distance_history s) in
  (pitch, yaw, roll, distance).

Definition calculate_posture_score (s : PostureAnalyzer) : Q :=
  let '(pitch, yaw, roll, distance) := get_smoothed_values s in
  let score := 100 in
  let pitch_deviation := Qabs (pitch - or_else (baseline_pitch s) 0) in
  let score :=
    if Qlt_bool FORWARD_HEAD_CRITICAL pitch_deviation then score - 30
    else if Qlt_bool FORWARD_HEAD_WARNING pitch_deviation then score - 15
    else score in
  let roll_deviation := Qabs roll in
  let score :=
    if Qlt_bool HEAD_ROLL_CRITICAL roll_deviation then score - 25
    else if Qlt_bool HEAD_ROLL_WARNING roll_deviation then score - 12
    else score in
  let yaw_deviation := Qabs (yaw - or_else (baseline_yaw s) 0) in
  let score :=
    if Qlt_bool HEAD_TILT_CRITICAL yaw_deviation then score - 20
    else if Qlt_bool HEAD_TILT_WARNING yaw_deviation then score - 10
    else score in
  let score :=
    if Qlt_bool distance CRITICAL_DISTANCE_MIN then score - 30
    else if Qlt_bool distance WARNING_DISTANCE_MIN then score - 15
    else if Qlt_bool distance IDEAL_DISTANCE_MIN then score - 5
    else if Qlt_bool (IDEAL_DISTANCE_MAX + 30) distance then score - 10
    else score in
  let score :=
    if Qlt_bool 120 (current_bad_posture_duration s) then score - 15
    else if Qlt_bool 60 (current_bad_posture_duration s) then score - 8
    else score in
  Qmax 0 score.

Definition get_issues (s : PostureAnalyzer) : list string :=
  let '(pitch, yaw, roll, distance) := get_smoothed_values s in
  let issues := [] in
  let pitch_deviation := pitch - or_else (baseline_pitch s) 0 in
  let issues :=
    if Qlt_bool FORWARD_HEAD_WARNING pitch_deviation
    then issues ++ ["Forward head posture detected"%string]
    else if Qlt_bool pitch_deviation (- FORWARD_HEAD_WARNING)
    then issues ++ ["Head tilted back too far"%string]
    else issues in
  let issues :=
    if Qlt_bool HEAD_ROLL_WARNING (Qabs roll) then
      let direction := if Qlt_bool 0 roll then "right" else "left" in
      issues ++ [("Head tilted to the " ++ direction)%string]
    else issues in
  let yaw_deviation := Qabs (yaw - or_else (baseline_yaw s) 0) in
  let issues :=
    if Qlt_bool HEAD_TILT_WARNING yaw_deviation then
      let direction := if Qlt_bool 0 yaw then "right" else "left" in
      issues ++ [("Head turned to the " ++ direction)%string]
    else issues in
  let issues :=
    if Qlt_bool distance WARNING_DISTANCE_MIN
    then issues ++ [("Too close to screen (" ++ fmt_0f distance ++ "cm)")%string]
    else if Qlt_bool distance IDEAL_DISTANCE_MIN
    then issues ++ [("Consider moving back slightly (" ++ fmt_0f distance ++ "cm)")%string]
    else issues in
  if Qlt_bool 60 (current_bad_posture_duration s)
  then issues ++ [("Poor posture for " ++ fmt_0f (current_bad_posture_duration s)
                   ++ " seconds")%string]
  else issues.

Definition get_status (s : PostureAnalyzer) : PostureStatus :=
  let score := calculate_posture_score s in
  if Qle_bool 70 score then POSTURE_GOOD
  else if Qle_bool 40 score then POSTURE_WARNING
  else POSTURE_POOR.

Definition update (head_pose : Q * Q * Q) (distance : Q) : Prog PostureAnalyzer unit :=
  let '(pitch, yaw, roll) := head_pose in
  current_time ← time_time;
  modify (with_histories pitch yaw roll distance);;
  s ← get;
  when (posture_is_calibrating s)
       (modify (fun s => with_calibration
                  (calibration_data s ++ [(pitch, yaw, roll, distance)])
                  (posture_is_calibrating s) s);;
        when (Qle_bool (posture_calibration_duration s)
                       (current_time - posture_calibration_start_time s))
             _complete_calibration);;
  s ← get;
  let status := get_status s in
  if negb (bool_decide (status = POSTURE_GOOD)) then
    let start := if bad_posture_start_time s is Some t then t else current_time in
    put (with_bad_posture (Some start) (current_time - start)
                          (total_bad_posture_time s) s)
  else
    let total :=
      if truthy (bad_posture_start_time s)
      then total_bad_posture_time s + current_bad_posture_duration s
      else total_bad_posture_time s in
    put (with_bad_posture None 0 total s).

Definition get_metrics (s : PostureAnalyzer) : PostureMetrics :=
  let '(pitch, yaw, roll, distance) := get_smoothed_values s in
  mkPostureMetrics pitch yaw roll distance
    (calculate_posture_score s) (get_status s) (get_issues s)
    (current_bad_posture_duration s).

Definition get_recommendation (s : PostureAnalyzer) : option string :=
  let metrics := get_metrics s in
  match posture_status metrics with
  | POSTURE_POOR =>
      if Qlt_bool (distance_from_screen metrics) WARNING_DISTANCE_MIN
      then Some "You're too close to the screen. Move back to at least 50cm for better eye and posture health."%string
      else if existsb (contains "Forward head posture") (issues metrics)
      then Some "Your head is leaning forward. Sit back and align your ears with your shoulders."%string
      else if Qlt_bool 60 (bad_posture_duration metrics)
      then Some "You've had poor posture for over a minute. Take a moment to sit up straight and reset your position."%string
      else Some "Your posture needs attention. Sit up straight with your back against the chair."%string
  | POSTURE_WARNING =>
      match issues metrics with
      | first :: _ =>
          Some ("Minor posture issue: " ++ first ++ ". Make a small adjustment.")%string
      | [] => None
      end
  | POSTURE_GOOD => None
  end.

Definition should_alert (s : PostureAnalyzer) : bool :=
  Qle_bool BAD_POSTURE_ALERT_THRESHOLD (current_bad_posture_duration s)
  && negb (bool_decide (get_status s = POSTURE_GOOD)).

End PostureTracker.

(** ** [screen_time_tracker.py] *)

Inductive BreakType := MICRO | SHORT | LONG.

Global Instance BreakType_eq_dec : EqDecision BreakType.
Proof. solve_decision. Defined.

Record WorkSession := mkWorkSession {
  start_time : Q;
  end_time : option Q;
  breaks_taken : nat
}.

Record BreakRecommendation := mkBreakRecommendation {
  break_type : BreakType;
  duration_seconds : Z;
  reason : string;
  exercises : list string
}.

(** An entry of [idle_periods]: ["start"] and ["duration"]. *)
Record IdlePeriod := mkIdlePeriod { idle_start : Q; idle_duration : Q }.

(** An entry of [break_compliance_history]. *)
Record BreakRecord := mkBreakRecord {
  record_type : BreakType;
  record_timestamp : Q;
  work_duration : Q
}.

Record ScreenTimeTracker := mkScreenTimeTracker {
  current_session : option WorkSession;
  sessions_today : list WorkSession;
  last_activity_time : Q;
  is_user_present : bool;
  continuous_work_time : Q;
  last_micro_break : Q;
  last_short_break : Q;
  last_long_break : Q;
  total_screen_time_today : Q;
  screen_last_reset_date : Z;
  idle_periods : list IdlePeriod;
  break_compliance_history : list BreakRecord
}.

(** The dictionary [get_statistics] returns. *)
Record ScreenStats := mkScreenStats {
  total_screen_time_today_minutes : Q;
  current_session_minutes : Q;
  continuous_work_minutes : Q;
  sessions_count : nat;
  average_session_minutes : Q;
  breaks_taken_today : nat;
  stats_is_user_present : bool;
  time_until_micro_break : Q;
  time_until_short_break : Q;
  time_until_long_break : Q
}.

Definition MICRO_BREAK_INTERVAL : Q := 20 * 60.
Definition SHORT_BREAK_INTERVAL : Q := 45 * 60.
Definition LONG_BREAK_INTERVAL : Q := 90 * 60.
Definition MICRO_BREAK_DURATION : Z := 20.
Definition SHORT_BREAK_DURATION : Z := 5 * 60.
Definition LONG_BREAK_DURATION : Z := 15 * 60.
Definition IDLE_THRESHOLD : Q := 30.

Definition with_current_session (w : option WorkSession) (s : ScreenTimeTracker) :=
  mkScreenTimeTracker w (sessions_today s) (last_activity_time s)
    (is_user_present s) (continuous_work_time s) (last_micro_break s)
    (last_short_break s) (last_long_break s) (total_screen_time_today s)
    (screen_last_reset_date s) (idle_periods s) (break_compliance_history s).

Definition with_today (l : list WorkSession) (total : Q) (s : ScreenTimeTracker) :=
  mkScreenTimeTracker (current_session s) l (last_activity_time s)
    (is_user_present s) (continuous_work_time s) (last_micro_break s)
    (last_short_break s) (last_long_break s) total
    (screen_last_reset_date s) (idle_periods s) (break_compliance_history s).

Definition with_last_activity_time (t : Q) (s : ScreenTimeTracker) :=
  mkScreenTimeTracker (current_session s) (sessions_today s) t
    (is_user_present s) (continuous_work_time s) (last_micro_break s)
    (last_short_break s) (last_long_break s) (total_screen_time_today s)
    (screen_last_reset_date s) (idle_periods s) (break_compliance_history s).

Definition with_is_user_present (b : bool) (s : ScreenTimeTracker) :=
  mkScreenTimeTracker (current_session s) (sessions_today s) (last_activity_time s)
    b (continuous_work_time s) (last_micro_break s)
    (last_short_break s) (last_long_break s) (total_screen_time_today s)
    (screen_last_reset_date s) (idle_periods s) (break_compliance_history s).

Definition with_continuous_work_time (t : Q) (s : ScreenTimeTracker) :=
  mkScreenTimeTracker (current_session s) (sessions_today s) (last_activity_time s)
    (is_user_present s) t (last_micro_break s)
    (last_short_break s) (last_long_break s) (total_screen_time_today s)
    (screen_last_reset_date s) (idle_periods s) (break_compliance_history s).

Definition with_breaks (micro short long : Q) (s : ScreenTimeTracker) :=
  mkScreenTimeTracker (current_session s) (sessions_today s) (last_activity_time s)
    (is_user_present s) (continuous_work_time s) micro short long
    (total_screen_time_today s)
    (screen_last_reset_date s) (idle_periods s) (break_compliance_history s).

Definition with_screen_last_reset_date (d : Z) (s : ScreenTimeTracker) :=
  mkScreenTimeTracker (current_session s) (sessions_today s) (last_activity_time s)
    (is_user_present s) (continuous_work_time s) (last_micro_break s)
    (last_short_break s) (last_long_break s) (total_screen_time_today s)
    d (idle_periods s) (break_compliance_history s).

Definition with_idle_periods (f : list IdlePeriod -> list IdlePeriod)
    (s : ScreenTimeTracker) :=
  mkScreenTimeTracker (current_session s) (sessions_today s) (last_activity_time s)
    (is_user_present s) (continuous_work_time s) (last_micro_break s)
    (last_short_break s) (last_long_break s) (total_screen_time_today s)
    (screen_last_reset_date s) (f (idle_periods s)) (break_compliance_history s).

Definition with_break_compliance_history (f : list BreakRecord -> list BreakRecord)
    (s : ScreenTimeTracker) :=
  mkScreenTimeTracker (current_session s) (sessions_today s) (last_activity_time s)
    (is_user_present s) (continuous_work_time s) (last_micro_break s)
    (last_short_break s) (last_long_break s) (total_screen_time_today s)
    (screen_last_reset_date s) (idle_periods s) (f (break_compliance_history s)).

(** [for x in l: f(x)], collecting the results. *)
Fixpoint for_each {St A B} (f : A -> Prog St B) (l : list A) : Prog St (list B) :=
  match l with
  | [] => mret []
  | x :: l' => y ← f x; ys ← for_each f l'; mret (y :: ys)
  end.

Module ScreenTime.

(** [WorkSession.duration]: [self.end_time or time.time()] reads the clock
    when the session is open. *)
Definition duration {St} (w : WorkSession) : Prog St Q :=
  e ← (if truthy (end_time w) then mret (or_else (end_time w) 0) else time_time);
  mret (e - start_time w).

Definition duration_minutes {St} (w : WorkSession) : Prog St Q :=
  d ← duration w; mret (d / 60).

(** [ScreenTimeTracker.__init__] *)
Definition init {St} : Prog St ScreenTimeTracker :=
  activity ← time_time;
  micro ← time_time;
  short ← time_time;
  long ← time_time;
  d ← today;
  mret (mkScreenTimeTracker None [] activity false 0 micro short long 0 d [] []).

Definition _check_daily_reset : Prog ScreenTimeTracker unit :=
  d ← today;
  s ← get;
  when (negb (d =? screen_last_reset_date s)%Z)
       (modify (with_today [] 0);;
        modify (with_screen_last_reset_date d)).

Definition _end_session : Prog ScreenTimeTracker unit :=
  s ← get;
  match current_session s with
  | Some w =>
      t ← time_time;
      let closed := mkWorkSession (start_time w) (Some t) (breaks_taken w) in
      modify (fun s => with_today (sessions_today s ++ [closed])
                                  (total_screen_time_today s) s);;
      d ← duration closed;
      modify (fun s => with_today (sessions_today s)
                                  (total_screen_time_today s + d) s);;
      modify (with_current_session None)
  | None => mret tt
  end.

Definition _start_session : Prog ScreenTimeTracker unit :=
  s ← get;
  when (bool_decide (is_Some (current_session s))) _end_session;;
  t ← time_time;
  modify (with_current_session (Some (mkWorkSession t None 0)));;
  modify (with_continuous_work_time 0).

Definition update (face_detected : bool) : Prog ScreenTimeTracker unit :=
  current_time ← time_time;
  _check_daily_reset;;
  if face_detected then
    s ← get;
    when (negb (is_user_present s)) _start_session;;
    modify (with_is_user_present true);;
    modify (with_last_activity_time current_time);;
    s ← get;
    match current_session s with
    | Some w =>
        let time_since_start := current_time - start_time w in
        modify (with_continuous_work_time time_since_start)
    | None => mret tt
    end
  else
    s ← get;
    let idle_time := current_time - last_activity_time s in
    when (Qle_bool IDLE_THRESHOLD idle_time)
         (when (is_user_present s)
               (_end_session;;
                modify (with_idle_periods (fun l =>
                  deque_append 50 l (mkIdlePeriod (last_activity_time s) idle_time))));;
          modify (with_is_user_present false)).

Definition record_break_taken (bt : BreakType) : Prog ScreenTimeTracker unit :=
  current_time ← time_time;
  modify (fun s =>
    match bt with
    | MICRO => with_breaks current_time (last_short_break s) (last_long_break s) s
    | SHORT => with_breaks current_time current_time (last_long_break s) s
    | LONG => with_breaks current_time current_time current_time s
    end);;
  modify (fun s =>
    match current_session s with
    | Some w => with_current_session
                  (Some (mkWorkSession (start_time w) (end_time w)
                                       (breaks_taken w + 1))) s
    | None => s
    end);;
  modify (fun s => with_break_compliance_history (fun l =>
    deque_append 20 l (mkBreakRecord bt current_time (continuous_work_time s))) s);;
  modify (with_continuous_work_time 0).

Definition long_exercises : list string :=
  ["Stand up and stretch your whole body"; "Take a short walk";
   "Do some light exercises or yoga"; "Get a healthy snack and water";
   "Look out a window at distant objects"]%string.

Definition short_exercises : list string :=
  ["Stand up and stretch your arms overhead";
   "Roll your shoulders backwards 10 times";
   "Tilt your head side to side gently"; "Take 5 deep breaths";
   "Walk around for a minute"]%string.

Definition micro_exercises : list string :=
  ["Look at a distant object for 20 seconds"; "Blink 20 times slowly";
   "Close your eyes and take 3 deep breaths"]%string.

Definition get_break_recommendation : Prog ScreenTimeTracker (option BreakRecommendation) :=
  current_time ← time_time;
  s ← get;
  let time_since_long := current_time - last_long_break s in
  if Qle_bool LONG_BREAK_INTERVAL time_since_long then
    mret (Some (mkBreakRecommendation LONG LONG_BREAK_DURATION
      ("You've been working for " ++ fmt_0f (time_since_long / 60)
       ++ " minutes. Time for a longer break.")%string
      long_exercises))
  else
    let time_since_short := current_time - last_short_break s in
    if Qle_bool SHORT_BREAK_INTERVAL time_since_short then
      mret (Some (mkBreakRecommendation SHORT SHORT_BREAK_DURATION
        ("You've been working for " ++ fmt_0f (time_since_short / 60)
         ++ " minutes. Take a short break.")%string
        short_exercises))
    else
      let time_since_micro := current_time - last_micro_break s in
      if Qle_bool MICRO_BREAK_INTERVAL time_since_micro then
        mret (Some (mkBreakRecommendation MICRO MICRO_BREAK_DURATION
          "Time for the 20-20-20 rule: Look at something 20 feet away for 20 seconds."%string
          micro_exercises))
      else mret None.

Definition get_statistics : Prog ScreenTimeTracker ScreenStats :=
  s ← get;
  current_session_time ←
    (if current_session s is Some w then duration w else mret 0);
  let total_today := total_screen_time_today s + current_session_time in
  closed_durations ← for_each duration_minutes (sessions_today s);
  session_durations ←
    (if current_session s is Some w
     then d ← duration_minutes w; mret (closed_durations ++ [d])
     else mret closed_durations);
  let avg_session :=
    if session_durations is [] then 0
    else Qsum session_durations / inject_Z (Z.of_nat (length session_durations)) in
  let total_breaks :=
    (foldl Nat.add 0 (breaks_taken <$> sessions_today s)
     + (if current_session s is Some w then breaks_taken w else 0))%nat in
  t1 ← time_time;
  t2 ← time_time;
  t3 ← time_time;
  mret (mkScreenStats (total_today / 60) (current_session_time / 60)
          (continuous_work_time s / 60)
          (length (sessions_today s)
           + (if current_session s is Some _ then 1 else 0))%nat
          avg_session total_breaks (is_user_present s)
          (Qmax 0 (MICRO_BREAK_INTERVAL - (t1 - last_micro_break s)))
          (Qmax 0 (SHORT_BREAK_INTERVAL - (t2 - last_short_break s)))
          (Qmax 0 (LONG_BREAK_INTERVAL - (t3 - last_long_break s)))).

(** The dictionary [get_daily_summary] returns. *)
Record DailySummary := mkDailySummary {
  summary_date : Z;
  total_hours : Q;
  summary_sessions : nat;
  summary_breaks_taken : nat;
  break_compliance_rate : Q;
  recommendations : list string
}.

Definition _generate_daily_recommendations (stats : ScreenStats) : list string :=
  let recommendations := [] in
  let recommendations :=
    if Qlt_bool 480 (total_screen_time_today_minutes stats)
    then recommendations ++ ["You've had a long screen day. Consider ending work soon and resting your eyes."%string]
    else recommendations in
  let recommendations :=
    if Qlt_bool 60 (average_session_minutes stats)
    then recommendations ++ ["Your average session length is quite long. Try taking more frequent breaks."%string]
    else recommendations in
  if Qlt_bool (inject_Z (Z.of_nat (breaks_taken_today stats)))
              (total_screen_time_today_minutes stats / 30)
  then recommendations ++ ["You could benefit from more frequent breaks throughout the day."%string]
  else recommendations.

Definition get_daily_summary : Prog ScreenTimeTracker DailySummary :=
  stats ← get_statistics;
  s ← get;
  let compliance_rate :=
    if break_compliance_history s is [] then 0
    else
      let recent := break_compliance_history s in
      let on_time :=
        length (List.filter
                  (fun b => Qlt_bool (work_duration b)
                                     (SHORT_BREAK_INTERVAL * (12 # 10)))
                  recent) in
      inject_Z (Z.of_nat on_time) / inject_Z (Z.of_nat (length recent)) * 100 in
  d ← today;
  mret (mkDailySummary d (total_screen_time_today_minutes stats / 60)
          (sessions_count stats) (breaks_taken_today stats) compliance_rate
          (_generate_daily_recommendations stats)).

End ScreenTime.

(** ** [health_monitor.py] *)

Inductive OverallHealthStatus := EXCELLENT | OVERALL_GOOD | FAIR | NEEDS_ATTENTION.

(** A camera frame, as the vision engine hands it over. *)
Definition Frame := nat.

(** What the vision engine computes from the landmarks of one frame:
    [calculate_eye_aspect_ratio] for both eyes, [calculate_head_pose] and
    [estimate_face_distance]. *)
Record FaceLandmarks := mkFaceLandmarks {
  left_eye_ear : Q;
  right_eye_ear : Q;
  head_pose : Q * Q * Q;
  face_distance : Q
}.

(** What the vision engine yields on one tick: [get_frame()] and, for that
    frame, [process_frame(frame)]. *)
Record Capture := mkCapture {
  capture_frame : option Frame;
  capture_landmarks : option FaceLandmarks
}.

(** The [eye_metrics] dictionary of a snapshot. *)
Record EyeMetricsView := mkEyeMetricsView {
  view_blink_rate : Q;
  view_eye_strain_score : Q;
  view_eye_status : EyeHealthStatus;
  view_time_since_blink : Q;
  view_current_ear : Q
}.

(** The [posture_metrics] dictionary of a snapshot. *)
Record PostureMetricsView := mkPostureMetricsView {
  view_posture_score : Q;
  view_posture_status : PostureStatus;
  view_distance : Q;
  view_head_pitch : Q;
  view_head_roll : Q;
  view_issues : list string;
  view_bad_posture_duration : Q
}.

(** An entry of [active_alerts] when the face is present. *)
Record AlertView := mkAlertView {
  view_type : AlertType;
  view_severity : AlertSeverity;
  view_title : string;
  view_message : string;
  view_recommendation : string
}.

(** [active_alerts] holds the alert objects on a tick without a face and
    dictionaries on a tick with one. *)
Inductive ActiveAlerts :=
  | AlertObjects (l : list ref)
  | AlertViews (l : list AlertView).

Record HealthState := mkHealthState {
  overall_status : OverallHealthStatus;
  overall_score : Q;
  eye_metrics : option EyeMetricsView;
  posture_metrics : option PostureMetricsView;
  screen_time_stats : ScreenStats;
  active_alerts_of : ActiveAlerts;
  is_calibrating : bool;
  state_is_user_present : bool
}.

(** The calls the frame loop makes on the alert system and on the data
    logger, in order: the record the properties about invocations read. *)
Inductive Call :=
  | create_alert_call (ty : AlertType) (sev : AlertSeverity)
  | check_escalations_call
  | log_snapshot_call (blink_rate eye_strain_score posture_score distance
                       head_pitch head_roll continuous_work_minutes : Q)
                      (is_present : bool).

Record HealthMonitor := mkHealthMonitor {
  eye_tracker : EyeTracker;
  posture_analyzer : PostureAnalyzer;
  alert_system : AlertSystem;
  screen_time_tracker : ScreenTimeTracker;
  is_running : bool;
  last_frame : option Frame;
  last_landmarks : option FaceLandmarks;
  frame_callback : option callback;
  alert_callback : option callback;
  calls : list Call
}.

Definition with_eye_tracker (e : EyeTracker) (m : HealthMonitor) :=
  mkHealthMonitor e (posture_analyzer m) (alert_system m) (screen_time_tracker m)
    (is_running m) (last_frame m) (last_landmarks m) (frame_callback m)
    (alert_callback m) (calls m).

Definition with_posture_analyzer (p : PostureAnalyzer) (m : HealthMonitor) :=
  mkHealthMonitor (eye_tracker m) p (alert_system m) (screen_time_tracker m)
    (is_running m) (last_frame m) (last_landmarks m) (frame_callback m)
    (alert_callback m) (calls m).

Definition with_alert_system (a : AlertSystem) (m : HealthMonitor) :=
  mkHealthMonitor (eye_tracker m) (posture_analyzer m) a (screen_time_tracker m)
    (is_running m) (last_frame m) (last_landmarks m) (frame_callback m)
    (alert_callback m) (calls m).

Definition with_screen_time_tracker (t : ScreenTimeTracker) (m : HealthMonitor) :=
  mkHealthMonitor (eye_tracker m) (posture_analyzer m) (alert_system m) t
    (is_running m) (last_frame m) (last_landmarks m) (frame_callback m)
    (alert_callback m) (calls m).

Definition with_is_running (b : bool) (m : HealthMonitor) :=
  mkHealthMonitor (eye_tracker m) (posture_analyzer m) (alert_system m)
    (screen_time_tracker m)
    b (last_frame m) (last_landmarks m) (frame_callback m)
    (alert_callback m) (calls m).

Definition with_last_frame (f : option Frame) (m : HealthMonitor) :=
  mkHealthMonitor (eye_tracker m) (posture_analyzer m) (alert_system m)
    (screen_time_tracker m)
    (is_running m) f (last_landmarks m) (frame_callback m)
    (alert_callback m) (calls m).

Definition with_last_landmarks (l : option FaceLandmarks) (m : HealthMonitor) :=
  mkHealthMonitor (eye_tracker m) (posture_analyzer m) (alert_system m)
    (screen_time_tracker m)
    (is_running m) (last_frame m) l (frame_callback m)
    (alert_callback m) (calls m).

Definition with_calls (f : list Call -> list Call) (m : HealthMonitor) :=
  mkHealthMonitor (eye_tracker m) (posture_analyzer m) (alert_system m)
    (screen_time_tracker m)
    (is_running m) (last_frame m) (last_landmarks m) (frame_callback m)
    (alert_callback m) (f (calls m)).

(** The arguments [create_*_alert] builds for [create_alert]. *)
Record AlertData := mkAlertData {
  data_alert_type : AlertType;
  data_severity : AlertSeverity;
  data_title : string;
  data_message : string;
  data_recommendation : string
}.

Definition create_eye_strain_alert (sev : AlertSeverity) (message recommendation : string)
    : AlertData :=
  mkAlertData EYE_STRAIN sev
    (match sev with
     | INFO => "Eye Care Reminder"
     | WARNING => "Eye Strain Detected"
     | CRITICAL => "High Eye Strain Warning"
     end)%string
    message recommendation.

Definition create_posture_alert (sev : AlertSeverity) (message recommendation : string)
    : AlertData :=
  mkAlertData POSTURE sev
    (match sev with
     | INFO => "Posture Tip"
     | WARNING => "Posture Check"
     | CRITICAL => "Posture Alert"
     end)%string
    message recommendation.

Definition create_break_alert (sev : AlertSeverity) (message recommendation : string)
    : AlertData :=
  mkAlertData BREAK_NEEDED sev "Break Reminder"%string message recommendation.

(** [s or d] for an [Optional[str]]: [None] and the empty string are falsy. *)
Definition str_or (o : option string) (d : string) : string :=
  match o with
  | Some EmptyString => d
  | Some s => s
  | None => d
  end.

Definition newline : string := String (Ascii.ascii_of_nat 10) EmptyString.

Module HealthAggregator.

Definition on_eye {A} : Prog EyeTracker A -> Prog HealthMonitor A :=
  zoom eye_tracker with_eye_tracker.
Definition on_posture {A} : Prog PostureAnalyzer A -> Prog HealthMonitor A :=
  zoom posture_analyzer with_posture_analyzer.
Definition on_alerts {A} : Prog AlertSystem A -> Prog HealthMonitor A :=
  zoom alert_system with_alert_system.
Definition on_screen {A} : Prog ScreenTimeTracker A -> Prog HealthMonitor A :=
  zoom screen_time_tracker with_screen_time_tracker.

(** [HealthMonitor.__init__]; [_on_alert] is callback [0]. *)
Definition init {St} : Prog St HealthMonitor :=
  e ← EyeHealthTracker.init;
  p ← PostureTracker.init;
  a ← AlertEngine.init;
  t ← ScreenTime.init;
  let a := with_alert_callbacks (fun l => l ++ [0%nat]) a in
  mret (mkHealthMonitor e p a t false None None None None []).

(** [self.alert_system.create_alert( **alert_data )] *)
Definition send (d : AlertData) : Prog HealthMonitor (option ref) :=
  modify (with_calls (fun l => l ++ [create_alert_call (data_alert_type d)
                                                      (data_severity d)]));;
  on_alerts (AlertEngine.create_alert (data_alert_type d) (data_severity d)
               (data_title d) (data_message d) (data_recommendation d)).

Definition _check_and_send_alerts (eye_metrics : EyeHealthMetrics)
    (posture_metrics : PostureMetrics) (screen_stats : ScreenStats)
    : Prog HealthMonitor unit :=
  match eye_status eye_metrics with
  | EYE_CRITICAL =>
      recommendation ← on_eye EyeHealthTracker.get_recommendation;
      send (create_eye_strain_alert CRITICAL
              ("Your eye strain score is "
               ++ fmt_0f (eye_strain_score eye_metrics) ++ "%")%string
              (str_or recommendation "Take a break and rest your eyes"));;
      mret tt
  | EYE_WARNING =>
      recommendation ← on_eye EyeHealthTracker.get_recommendation;
      send (create_eye_strain_alert WARNING
              ("Your blink rate is lower than normal ("
               ++ fmt_1f (blink_rate eye_metrics) ++ " blinks/min)")%string
              (str_or recommendation "Try to blink more often"));;
      mret tt
  | HEALTHY => mret tt
  end;;
  m ← get;
  when (PostureTracker.should_alert (posture_analyzer m))
       (let recommendation := PostureTracker.get_recommendation (posture_analyzer m) in
        let sev := if bool_decide (posture_status posture_metrics = POSTURE_POOR)
                   then CRITICAL else WARNING in
        send (create_posture_alert sev
                ("Poor posture detected for "
                 ++ fmt_0f (bad_posture_duration posture_metrics) ++ " seconds")%string
                (str_or recommendation "Adjust your sitting position"));;
        mret tt);;
  break_rec ← on_screen ScreenTime.get_break_recommendation;
  match break_rec with
  | Some rec =>
      let sev := if bool_decide (break_type rec = LONG) then WARNING else INFO in
      send (create_break_alert sev (reason rec)
              (String.concat newline (take 3 (exercises rec))));;
      mret tt
  | None => mret tt
  end;;
  modify (with_calls (fun l => l ++ [check_escalations_call]));;
  on_alerts AlertEngine.check_escalations.

Definition _log_data (eye_metrics : EyeHealthMetrics)
    (posture_metrics : PostureMetrics) (screen_stats : ScreenStats)
    : Prog HealthMonitor unit :=
  modify (with_calls (fun l => l ++
    [log_snapshot_call (blink_rate eye_metrics) (eye_strain_score eye_metrics)
       (posture_score posture_metrics) (distance_from_screen posture_metrics)
       (head_pitch posture_metrics) (head_roll posture_metrics)
       (continuous_work_minutes screen_stats) true])).

Definition _calculate_overall_score (eye_metrics : EyeHealthMetrics)
    (posture_metrics : PostureMetrics) : Q :=
  let eye_score := 100 - eye_strain_score eye_metrics in
  let posture_score := posture_score posture_metrics in
  let overall := (eye_score * (1 # 2)) + (posture_score * (1 # 2)) in
  Qmax 0 (Qmin 100 overall).

Definition _determine_overall_status (score : Q) : OverallHealthStatus :=
  if Qle_bool 85 score then EXCELLENT
  else if Qle_bool 70 score then OVERALL_GOOD
  else if Qle_bool 50 score then FAIR
  else NEEDS_ATTENTION.

(** [start]; whether [vision_engine.start_camera] succeeds is given. *)
Definition start (camera_started : bool) : Prog HealthMonitor bool :=
  if negb camera_started then mret false
  else modify (with_is_running true);; mret true.

Definition alert_view (s : AlertSystem) (a : ref) : option AlertView :=
  o ← objects s !! a;
  Some (mkAlertView (alert_type o) (severity o) (title o) (message o)
                    (recommendation o)).

Definition process_frame (cap : Capture) : Prog HealthMonitor (option HealthState) :=
  m ← get;
  if negb (is_running m) then mret None
  else
    match capture_frame cap with
    | None => mret None
    | Some frame =>
        modify (with_last_frame (Some frame));;
        let landmarks := capture_landmarks cap in
        modify (with_last_landmarks landmarks);;
        let face_detected := bool_decide (is_Some landmarks) in
        on_screen (ScreenTime.update face_detected);;
        match landmarks with
        | None =>
            stats ← on_screen ScreenTime.get_statistics;
            alerts ← on_alerts AlertEngine.get_active_alerts;
            mret (Some (mkHealthState OVERALL_GOOD 100 None None stats
                                      (AlertObjects alerts) false false))
        | Some lm =>
            on_eye (EyeHealthTracker.update (left_eye_ear lm) (right_eye_ear lm));;
            on_posture (PostureTracker.update (head_pose lm) (face_distance lm));;
            eye_metrics ← on_eye EyeHealthTracker.get_metrics;
            m ← get;
            let posture_metrics := PostureTracker.get_metrics (posture_analyzer m) in
            screen_stats ← on_screen ScreenTime.get_statistics;
            _check_and_send_alerts eye_metrics posture_metrics screen_stats;;
            _log_data eye_metrics posture_metrics screen_stats;;
            let overall_score := _calculate_overall_score eye_metrics posture_metrics in
            let overall_status := _determine_overall_status overall_score in
            m ← get;
            let is_calibrating :=
              eye_is_calibrating (eye_tracker m)
              || posture_is_calibrating (posture_analyzer m) in
            alerts ← on_alerts AlertEngine.get_active_alerts;
            mret (Some (mkHealthState overall_status overall_score
              (Some (mkEyeMetricsView (blink_rate eye_metrics)
                       (eye_strain_score eye_metrics) (eye_status eye_metrics)
                       (time_since_last_blink eye_metrics)
                       (current_ear eye_metrics)))
              (Some (mkPostureMetricsView (posture_score posture_metrics)
                       (posture_status posture_metrics)
                       (distance_from_screen posture_metrics)
                       (head_pitch posture_metrics) (head_roll posture_metrics)
                       (issues posture_metrics)
                       (bad_posture_duration posture_metrics)))
              screen_stats
              (AlertViews (omap (alert_view (alert_system m)) alerts))
              is_calibrating true))
        end
    end.

(** [HealthMonitor.acknowledge_alert]: the index counts the alerts that
    [get_active_alerts] returns. *)
Definition acknowledge_alert (alert_index : Z) : Prog HealthMonitor unit :=
  alerts ← on_alerts AlertEngine.get_active_alerts;
  if (0 <=? alert_index)%Z && (alert_index <? Z.of_nat (length alerts))%Z
  then match alerts !! Z.to_nat alert_index with
       | Some a => on_alerts (AlertEngine.acknowledge_alert a)
       | None => mret tt
       end
  else mret tt.

Definition acknowledge_all_alerts : Prog HealthMonitor unit :=
  on_alerts AlertEngine.acknowledge_all.

Definition record_break (bt : BreakType) : Prog HealthMonitor unit :=
  on_screen (ScreenTime.record_break_taken bt).

Definition pause_alerts (minutes : Z) : Prog HealthMonitor unit :=
  on_alerts (AlertEngine.pause_alerts (inject_Z (minutes * 60))).

End HealthAggregator.


(** * Vocabulary of the statements

    The quantities, invariants and scenarios the properties below are
    stated with. *)

Section CooldownTerms.
Import AlertEngine.

(** [self.last_alert_times.get(alert_type, 0)] *)
Definition last_sent (s : AlertSystem) (ty : AlertType) : Q :=
  default 0 (last_alert_times s !! ty).

(** [self.COOLDOWN_PERIODS.get(alert_type, 60)] *)
Definition cooldown_of (ty : AlertType) : Q :=
  default 60 (COOLDOWN_PERIODS !! ty).

(** A fresh engine, at second 1000 of day 5. *)
Definition engine0 : AlertSystem :=
  result (AlertEngine.init (const_clock 1000 5) tt).

End CooldownTerms.

Section EscalationTerms.
Import AlertEngine.

(** [self.escalation_counts.get(alert_type, 0)] *)
Definition escalation_count (s : AlertSystem) (ty : AlertType) : nat :=
  default 0%nat (escalation_counts s !! ty).

(** Some active alert of the type is not acknowledged. *)
Definition has_unacknowledged (s : AlertSystem) (ty : AlertType) : Prop :=
  exists a, a ∈ active_alerts s /\ unacknowledged_of s ty a = true.

(** The items of the first loop that reach [escalations_to_process]. *)
Definition escalates (s : AlertSystem) (now : Q) (item : AlertType * Q) : bool :=
  Qle_bool item.2 now
  && (if List.filter (unacknowledged_of s item.1) (active_alerts s) is []
      then false else true).

Definition bump (m : gmap AlertType nat) (ty : AlertType) : gmap AlertType nat :=
  <[ty := (default 0%nat (m !! ty) + 1)%nat]> m.

(** The type is armed, its time has passed and an active alert of the type
    is not acknowledged. *)
Definition escalates_type (s : AlertSystem) (now : Q) (ty : AlertType) : bool :=
  match pending_escalations s !! ty with
  | Some et => escalates s now (ty, et)
  | None => false
  end.

(** The engine after one posture warning, sent at second 1000: its
    escalation is armed for second 1060. *)
Definition engine1 : AlertSystem :=
  state (create_alert POSTURE WARNING "Posture Check" "Poor posture" "Sit up"
           (const_clock 1000 5) engine0).

End EscalationTerms.

Section SessionsTerms.
Import ScreenTime.

(** One call of [update] during which the clock stands at second [t] of
    day [d]. *)
Definition tick (t : Q) (d : Z) (face : bool) (s : ScreenTimeTracker)
    : ScreenTimeTracker :=
  state (update face (const_clock t d) s).

(** The time of tick number [i] when ticks come one per second from [t0]. *)
Definition at_second (t0 : Q) (i : nat) : Q := t0 + inject_Z (Z.of_nat i).

(** Driving the tracker with a presence sequence, one tick per second, the
    first one being tick number [i]. *)
Fixpoint drive (t0 : Q) (d : Z) (i : nat) (faces : list bool)
    (s : ScreenTimeTracker) : ScreenTimeTracker :=
  match faces with
  | [] => s
  | face :: rest => drive t0 d (S i) rest (tick (at_second t0 i) d face s)
  end.

(** The scenario of the specification: a fresh tracker driven with 100
    present ticks and then 40 absent ticks, one per second from [t0]. *)
Definition after_presence_run (c0 : Clock) (t0 : Q) (d : Z) : ScreenTimeTracker :=
  drive t0 d 0 (replicate 100 true ++ replicate 40 false) (result (init c0 tt)).

(** The statement of the specification, read on the scenario: one session is
    closed and its duration is the elapsed presence time, that is the 99
    seconds from the first present tick to the last one, or 100 seconds when
    every present tick counts for its second. *)
Definition closes_session_of_presence_time (c0 : Clock) (t0 : Q) (d : Z) : Prop :=
  exists w e,
    sessions_today (after_presence_run c0 t0 d) = [w]
    /\ end_time w = Some e
    /\ (e - start_time w == 99 \/ e - start_time w == 100).

End SessionsTerms.

Section BlinksTerms.
Import EyeHealthTracker.

(** One call of [update]: the two ratios handed over and the clock the call
    reads. *)
Record Sample := mkSample {
  sample_left : Q;
  sample_right : Q;
  sample_clock : Clock
}.

Definition sample_ear (x : Sample) : Q := (sample_left x + sample_right x) / 2.

Definition sample_time (x : Sample) : Q := wall (sample_clock x 0%nat).

Definition update_at (x : Sample) (s : EyeTracker)
    : option BlinkEvent * EyeTracker * Clock :=
  update (sample_left x) (sample_right x) (sample_clock x) s.

(** Successive calls of [update], one per sample: what each call returned, and
    the tracker after the last. *)
Fixpoint play (samples : list Sample) (s : EyeTracker)
    : list (option BlinkEvent) * EyeTracker :=
  match samples with
  | [] => ([], s)
  | x :: rest =>
      let r := update_at x s in
      let p := play rest (state r) in
      (result r :: fst p, snd p)
  end.

(** A fresh tracker at second 1000, then the eyes close at second 1010. *)
Definition eye0 : EyeTracker := result (init (const_clock 1000 5) tt).
Definition eye_closed : EyeTracker :=
  state (update (1 # 10) (1 # 10) (const_clock 1010 5) eye0).

(** The eyes close at second 1010, are still closed at 1010.1 and 1010.15, and
    are open again at 1010.2. *)
Definition closing : Sample := mkSample (1 # 10) (1 # 10) (const_clock 1010 5).
Definition still_closed : list Sample :=
  [mkSample (15 # 100) (15 # 100) (const_clock (10101 # 10) 5);
   mkSample (2 # 10) (2 # 10) (const_clock (101015 # 100) 5)].
Definition reopening : Sample :=
  mkSample (3 # 10) (3 # 10) (const_clock (10102 # 10) 5).

End BlinksTerms.

Section BreaksTerms.
Import ScreenTime.

(** The tier of the recommendation, if any. *)
Definition recommended_tier (c : Clock) (s : ScreenTimeTracker) : option BreakType :=
  break_type <$> result (get_break_recommendation c s).

(** A fresh tracker at second 1000, asked two hours later: all three
    intervals have passed. *)
Definition tracker0 : ScreenTimeTracker := result (init (const_clock 1000 5) tt).

End BreaksTerms.

Section InputsTerms.



(** A fresh posture analyzer at second 1000. *)
Definition posture0 : PostureAnalyzer :=
  result (PostureTracker.init (const_clock 1000 5) tt).

End InputsTerms.

Section StrainTerms.
Import EyeHealthTracker.

(** The four contributions to the score. *)
Definition rate_tier (blink_rate : Q) : Q :=
  if Qlt_bool blink_rate CRITICAL_BLINK_RATE then 40
  else if Qlt_bool blink_rate WARNING_BLINK_RATE then 25
  else if Qlt_bool blink_rate HEALTHY_BLINK_RATE_MIN then 10
  else 0.

Definition idle_tier (time_since_blink : Q) : Q :=
  if Qlt_bool 30 time_since_blink then 30
  else if Qlt_bool 15 time_since_blink then 15
  else if Qlt_bool 10 time_since_blink then 5
  else 0.

Definition ear_tier (avg_ear : Q) : Q :=
  if Qlt_bool avg_ear (22 # 100) then 20
  else if Qlt_bool avg_ear (24 # 100) then 10
  else 0.

Definition deviation_tier (blink_rate : Q) (baseline : option Q) : Q :=
  if truthy baseline then
    let rate_deviation := (or_else baseline 0 - blink_rate) / or_else baseline 0 in
    if Qlt_bool (1 # 2) rate_deviation then 15
    else if Qlt_bool (3 # 10) rate_deviation then 8
    else 0
  else 0.

(** A baseline, when there is one, is a positive rate. *)
Definition baseline_positive (baseline : option Q) : Prop :=
  match baseline with
  | Some b => 0 < b
  | None => True
  end.

(** The trackers that construction and calls of [update] produce. *)
Inductive reachable : EyeTracker -> Prop :=
  | reachable_init (c : Clock) : reachable (result (init c tt))
  | reachable_update (s : EyeTracker) (left_ear right_ear : Q) (c : Clock) :
      reachable s -> reachable (state (update left_ear right_ear c s)).

(** A blink: the eyes close at second [t] and are open again 0.2 s later. *)
Definition blink_at (t : Q) : list Sample :=
  [mkSample (1 # 10) (1 # 10) (const_clock t 5);
   mkSample (3 # 10) (3 # 10) (const_clock (t + (2 # 10)) 5)].

(** [n] blinks, one per second from second [t] on. *)
Definition blinks_from (t : Z) (n : nat) : list Sample :=
  flat_map (fun i => blink_at (inject_Z (t + Z.of_nat i))) (seq 0 n).

(** Twenty blinks while calibrating, at seconds 1001 to 1020. *)
Definition eye_calibrating : EyeTracker := snd (play (blinks_from 1001 20) eye0).

(** Then eight blinks at seconds 1121 to 1128: calibration ends with a
    baseline of ten blinks a minute, and the last minute holds eight blinks. *)
Definition eye_blinking : EyeTracker :=
  snd (play (blinks_from 1121 8) eye_calibrating).

(** Or only four blinks, at seconds 1125 to 1128: the same baseline, the same
    last blink and the same trailing ratios, and half the blink rate. *)
Definition eye_staring : EyeTracker :=
  snd (play (blinks_from 1125 4) eye_calibrating).

End StrainTerms.

Section PostureAlertsTerms.
Import PostureTracker.

(** An analyzer whose head has been far off for ten seconds. *)
Definition posture_bad_10 : PostureAnalyzer :=
  state (update (1000, 0, 100) 50 (const_clock 1011 5)
           (state (update (1000, 0, 100) 50 (const_clock 1001 5) posture0))).

End PostureAlertsTerms.

Section FrameLoopTerms.
Import HealthAggregator.





(** A frame for the scenarios. *)
Definition frame0 : Frame := 0%nat.

(** A running monitor, constructed and started at second 1000. *)
Definition monitor0 : HealthMonitor :=
  state (start true (const_clock 1000 5)
           (result (HealthAggregator.init (const_clock 1000 5) tt))).

(** The same monitor after one posture warning, whose escalation is armed
    for second 1060. *)
Definition monitor1 : HealthMonitor := with_alert_system engine1 monitor0.


(** A face for the witnesses: open eyes, level head, 50 cm away. *)
Definition face0 : FaceLandmarks := mkFaceLandmarks (3 # 10) (3 # 10) (0, 0, 0) 50.

End FrameLoopTerms.

Section EnginePauseTerms.
Import AlertEngine.

(** The readings a call sees after its first one. *)
Definition later (c : Clock) : Clock := fun n => c (S n).

End EnginePauseTerms.

Section EngineAcknowledgeTerms.
Import AlertEngine.

(** Marking the listed objects acknowledged, as the loop of
    [acknowledge_all] does. *)
Definition mark_all (h : list Alert) (l : list ref) : list Alert :=
  foldl (fun h a => match h !! a with
                    | Some o => <[a := set_acknowledged o]> h
                    | None => h
                    end) h l.

(** The engine after two alerts of different types, at seconds 1000 and
    1010. *)
Definition engine2 : AlertSystem :=
  state (create_alert EYE_STRAIN CRITICAL "High Eye Strain Warning" "Strain" "Rest"
           (const_clock 1010 5) engine1).

End EngineAcknowledgeTerms.

Section EngineCreateTerms.
Import AlertEngine.

(** What a creating call leaves behind, field by field. *)
Definition created (ty : AlertType) (sev : AlertSeverity) (ti me re : string)
    (s s' : AlertSystem) (res : option ref) : Prop :=
  exists stamp arm : Q,
    res = Some (length (objects s))
    /\ objects s' = objects s ++ [mkAlert ty sev ti me re stamp false
                                          (escalation_count s ty)]
    /\ active_alerts s' = active_alerts s ++ [length (objects s)]
    /\ alert_history s' = deque_append 100 (alert_history s) (length (objects s))
    /\ notified s' = notified s ++ ((fun cb => (cb, length (objects s)))
                                      <$> alert_callbacks s)
    /\ alert_callbacks s' = alert_callbacks s
    /\ escalation_counts s' = escalation_counts s
    /\ pending_escalations s'
       = (if (bool_decide (sev = WARNING) || bool_decide (sev = CRITICAL))
             && (escalation_count s ty <? MAX_ESCALATION)%nat
          then <[ty := arm + ESCALATION_INTERVAL]> (pending_escalations s)
          else pending_escalations s)
    /\ is_paused s' = false.

(** What a suppressed call leaves behind: at most a cleared pause. *)
Definition suppressed (s s' : AlertSystem) (res : option ref) : Prop :=
  res = None /\ (s' = s \/ s' = with_pause false None s).

(** The store and the lists of an engine fit together: the history holds at
    most 100 entries, the active list and the history refer to objects of
    the store, and no active alert is acknowledged. *)
Definition engine_wf (s : AlertSystem) : Prop :=
  (length (alert_history s) <= 100)%nat
  /\ (forall a, a ∈ active_alerts s \/ a ∈ alert_history s ->
        (a < length (objects s))%nat)
  /\ (forall a o, a ∈ active_alerts s -> objects s !! a = Some o ->
        acknowledged o = false).

(** One call of a method of the engine. *)
Inductive engine_step (s : AlertSystem) : AlertSystem -> Prop :=
  | step_create ty sev ti me re c :
      engine_step s (state (create_alert ty sev ti me re c s))
  | step_check c : engine_step s (state (check_escalations c s))
  | step_acknowledge a c : engine_step s (state (acknowledge_alert a c s))
  | step_acknowledge_all c : engine_step s (state (acknowledge_all c s))
  | step_pause d c : engine_step s (state (pause_alerts d c s))
  | step_resume c : engine_step s (state (resume_alerts c s))
  | step_register cb c : engine_step s (state (register_callback cb c s)).

End EngineCreateTerms.

Section EyeExtrasTerms.
Import EyeHealthTracker.

(** The blinks of the history that lie in the trailing 60 seconds. *)
Definition blinks_in_window (s : EyeTracker) (now : Q) : nat :=
  length (List.filter (fun b => Qle_bool (now - BLINK_HISTORY_WINDOW) (blink_timestamp b))
                      (blink_history s)).

(** A recorded blink lasts between 0.05 and 0.5 seconds. *)
Definition in_band (b : BlinkEvent) : Prop :=
  MIN_BLINK_DURATION <= blink_duration b /\ blink_duration b <= MAX_BLINK_DURATION.

End EyeExtrasTerms.

Section ScreenExtrasTerms.
Import ScreenTime.

(** The trackers that construction, [update] and [record_break_taken]
    produce. *)
Inductive tracker_reachable : ScreenTimeTracker -> Prop :=
  | tracker_init (c : Clock) : tracker_reachable (result (init c tt))
  | tracker_update (s : ScreenTimeTracker) (face : bool) (c : Clock) :
      tracker_reachable s -> tracker_reachable (state (update face c s))
  | tracker_break (s : ScreenTimeTracker) (bt : BreakType) (c : Clock) :
      tracker_reachable s -> tracker_reachable (state (record_break_taken bt c s)).

(** A session is open exactly when the user counts as present; the open
    session has no end, the sessions of today's list have one; the two
    bounded logs keep their bounds. *)
Definition sessions_consistent (s : ScreenTimeTracker) : Prop :=
  is_user_present s = bool_decide (is_Some (current_session s))
  /\ (forall w, current_session s = Some w -> end_time w = None)
  /\ Forall (fun w => is_Some (end_time w)) (sessions_today s)
  /\ (length (idle_periods s) <= 50)%nat
  /\ (length (break_compliance_history s) <= 20)%nat.

End ScreenExtrasTerms.

Section EngineSummaryTerms.
Import AlertEngine.

(** The alerts of the history that have the given type. *)
Definition history_of_type (s : AlertSystem) (ty : AlertType) : nat :=
  length (List.filter (fun a => match objects s !! a with
                                | Some o => bool_decide (alert_type o = ty)
                                | None => false
                                end) (alert_history s)).

End EngineSummaryTerms.

Section EngineCapTerms.
Import AlertEngine.

(** No escalation count exceeds the cap, and a type is only armed while its
    count is below the cap. *)
Definition escalation_capped (s : AlertSystem) : Prop :=
  forall ty,
    (escalation_count s ty <= MAX_ESCALATION)%nat
    /\ (is_Some (pending_escalations s !! ty) ->
        (escalation_count s ty < MAX_ESCALATION)%nat).

End EngineCapTerms.

Section PresentTickTerms.
Import HealthAggregator.

(** A program of the monitor that returns a snapshot with the given
    property, read against the monitor it leaves. *)
Definition yields (P : HealthState -> HealthMonitor -> Prop)
    (p : Prog HealthMonitor (option HealthState)) : Prop :=
  forall c m, exists hs, result (p c m) = Some hs /\ P hs (state (p c m)).

(** What the snapshot of a tick with a face says. *)
Definition present_snapshot (hs : HealthState) (m : HealthMonitor) : Prop :=
  state_is_user_present hs = true
  /\ is_calibrating hs
     = eye_is_calibrating (eye_tracker m)
       || posture_is_calibrating (posture_analyzer m)
  /\ 0 <= overall_score hs /\ overall_score hs <= 100
  /\ is_Some (eye_metrics hs) /\ is_Some (posture_metrics hs).

End PresentTickTerms.

(** * Properties *)

(** The tests on lengths stay folded when a method is run symbolically. *)
#[local] Opaque Nat.leb Nat.ltb.

(** ** Comparisons on rationals *)

Lemma Qlt_bool_iff (x y : Q) : Qlt_bool x y = true <-> x < y.
Proof.
  unfold Qlt_bool. rewrite negb_true_iff. split.
  - intros H. apply Qnot_le_lt. intros Hle.
    apply Qle_bool_iff in Hle. congruence.
  - intros H. destruct (Qle_bool y x) eqn:E; [|reflexivity].
    apply Qle_bool_iff in E. lra.
Qed.

Lemma Qle_bool_false (x y : Q) : Qle_bool x y = false <-> y < x.
Proof.
  split.
  - intros H. apply Qnot_le_lt. intros Hle.
    apply Qle_bool_iff in Hle. congruence.
  - intros H. destruct (Qle_bool x y) eqn:E; [|reflexivity].
    apply Qle_bool_iff in E. lra.
Qed.

Lemma Qlt_bool_false (x y : Q) : Qlt_bool x y = false <-> y <= x.
Proof.
  unfold Qlt_bool. rewrite negb_false_iff. apply Qle_bool_iff.
Qed.

(** ** The alert engine: cooldown *)

Section Cooldown.
Import AlertEngine.

Lemma cooldown_of_values (ty : AlertType) :
  cooldown_of ty =
    match ty with
    | EYE_STRAIN => 120 | POSTURE => 60 | BREAK_NEEDED => 300
    | DISTANCE => 30 | BLINK_REMINDER => 45
    end.
Proof. destruct ty; reflexivity. Qed.

Lemma can_send_unpaused ty c s :
  is_paused s = false ->
  can_send_alert ty c s =
    (Qle_bool (cooldown_of ty) (wall (c 0%nat) - last_sent s ty), s,
     fun n => c (S n)).
Proof.
  intros Hp. unfold can_send_alert, mbind, Prog_bind, get, mret, Prog_ret, time_time.
  rewrite Hp. reflexivity.
Qed.

(** A positive answer of [can_send_alert] leaves the engine unpaused and
    touches nothing but the pause. *)
Lemma can_send_true ty c s :
  result (can_send_alert ty c s) = true ->
  exists p u, state (can_send_alert ty c s) = with_pause p u s /\ p = false.
Proof.
  unfold can_send_alert, mbind, Prog_bind, get, mret, Prog_ret, time_time, modify.
  destruct s as [ob ac hi la es pe cb pa pu at_ lr no]. simpl.
  destruct pa; simpl.
  - destruct pu as [p|]; simpl.
    + destruct (Qeq_bool p 0); simpl.
      * discriminate.
      * destruct (Qle_bool p (wall (c 0%nat))); simpl; [|discriminate].
        intros _. exists false, None. split; reflexivity.
    + discriminate.
  - intros _. exists false, pu. split; reflexivity.
Qed.

Lemma create_alert_blocked ty sev ti me re c s :
  is_paused s = false ->
  wall (c 0%nat) - last_sent s ty < cooldown_of ty ->
  create_alert ty sev ti me re c s = (None, s, fun n => c (S n)).
Proof.
  intros Hp Hc. apply Qle_bool_false in Hc.
  unfold create_alert. unfold mbind at 1. unfold Prog_bind at 1.
  rewrite can_send_unpaused by done. rewrite Hc. reflexivity.
Qed.

(** What a call does that passes the check, from an unpaused engine. *)
Lemma create_alert_passed ty sev ti me re c s :
  is_paused s = false ->
  cooldown_of ty <= wall (c 0%nat) - last_sent s ty ->
  exists s' c',
    create_alert ty sev ti me re c s = (Some (length (objects s)), s', c')
    /\ objects s' =
         objects s ++ [mkAlert ty sev ti me re (wall (c 2%nat)) false
                               (default 0%nat (escalation_counts s !! ty))]
    /\ active_alerts s' = active_alerts s ++ [length (objects s)]
    /\ alert_history s' = deque_append 100 (alert_history s) (length (objects s))
    /\ last_alert_times s' = <[ty := wall (c 3%nat)]> (last_alert_times s)
    /\ alerts_today s' =
         ((if (day (c 1%nat) =? last_reset_date s)%Z then alerts_today s else 0) + 1)%nat
    /\ escalation_counts s' = escalation_counts s
    /\ is_paused s' = false.
Proof.
  intros Hp Hc. apply Qle_bool_iff in Hc.
  unfold create_alert. unfold mbind at 1. unfold Prog_bind at 1.
  rewrite can_send_unpaused by done. rewrite Hc.
  destruct s as [ob ac hi la es pe cb pa pu at_ lr no]. simpl in Hp. subst pa.
  unfold _schedule_escalation, _notify_callbacks, when, mbind, Prog_bind, get,
    mret, Prog_ret, time_time, today, modify. simpl.
  destruct (day (c 1%nat) =? lr)%Z; simpl;
    destruct (bool_decide (sev = WARNING) || bool_decide (sev = CRITICAL)); simpl;
    try destruct (default 0%nat (es !! ty) <? MAX_ESCALATION)%nat; simpl;
    do 2 eexists; (split; [reflexivity|]); simpl; repeat split; reflexivity.
Qed.

(** A call that creates an alert leaves the engine unpaused and adds one
    object to the store. *)
Lemma create_alert_Some_unpaused ty sev ti me re c s :
  is_Some (result (create_alert ty sev ti me re c s)) ->
  is_paused (state (create_alert ty sev ti me re c s)) = false
  /\ length (objects (state (create_alert ty sev ti me re c s)))
     = S (length (objects s)).
Proof.
  remember (create_alert ty sev ti me re c s) as r eqn:Hr.
  unfold create_alert in Hr. unfold mbind at 1 in Hr. unfold Prog_bind at 1 in Hr.
  pose proof (can_send_true ty c s) as Ht.
  destruct (can_send_alert ty c s) as [[b s'] c'] eqn:E.
  unfold result, state in Ht. simpl in Ht.
  destruct b; simpl in Hr.
  - destruct Ht as (p & u & -> & ->); [reflexivity|].
    intros _.
    destruct s as [ob ac hi la es pe cb pa pu at_ lr no].
    unfold _schedule_escalation, _notify_callbacks, when, mbind, Prog_bind, get,
      mret, Prog_ret, time_time, today, modify, with_pause in Hr. simpl in Hr.
    destruct (day (c' 0%nat) =? lr)%Z; simpl in Hr;
      destruct (bool_decide (sev = WARNING) || bool_decide (sev = CRITICAL));
      simpl in Hr;
      try (destruct (default 0%nat (es !! ty) <? MAX_ESCALATION)%nat; simpl in Hr);
      subst r; simpl; rewrite length_app; simpl; split; try reflexivity; lia.
  - subst r. intros [x Hx]. discriminate.
Qed.

(** C1. For every alert type: once a call of [create_alert] has created an
    alert, a second call for that type whose cooldown check reads the clock
    within the type's cooldown window (counted from the recorded last-sent
    time) returns [None] and leaves the active list, the history, the
    last-sent times and the daily counter as they were, so that the two calls
    have created exactly one [Alert]; a third call after the cooldown has
    elapsed creates a second [Alert]. *)
Theorem create_alert_cooldown_window
    (ty : AlertType) (s : AlertSystem) (c1 c2 c3 : Clock)
    (sev1 sev2 sev3 : AlertSeverity)
    (ti1 me1 re1 ti2 me2 re2 ti3 me3 re3 : string) :
  let r1 := create_alert ty sev1 ti1 me1 re1 c1 s in
  let r2 := create_alert ty sev2 ti2 me2 re2 c2 (state r1) in
  let r3 := create_alert ty sev3 ti3 me3 re3 c3 (state r2) in
  is_Some (result r1) ->
  wall (c2 0%nat) - last_sent (state r1) ty < cooldown_of ty ->
  cooldown_of ty <= wall (c3 0%nat) - last_sent (state r1) ty ->
  (result r2 = None
   /\ active_alerts (state r2) = active_alerts (state r1)
   /\ alert_history (state r2) = alert_history (state r1)
   /\ last_alert_times (state r2) = last_alert_times (state r1)
   /\ alerts_today (state r2) = alerts_today (state r1)
   /\ length (objects (state r2)) = S (length (objects s)))
  /\ (result r3 = Some (S (length (objects s)))
      /\ length (objects (state r3)) = S (S (length (objects s)))
      /\ active_alerts (state r3)
         = active_alerts (state r1) ++ [S (length (objects s))]).
Proof.
  intros r1 r2 r3 H1 H2 H3.
  destruct (create_alert_Some_unpaused _ _ _ _ _ _ _ H1) as [Hp Hlen].
  fold r1 in Hp, Hlen.
  assert (E2 : r2 = (None, state r1, fun n => c2 (S n))).
  { unfold r2. apply create_alert_blocked; assumption. }
  assert (S2 : state r2 = state r1) by (rewrite E2; reflexivity).
  split.
  - rewrite E2. unfold result, state; simpl. fold (state r1).
    repeat split; try reflexivity. exact Hlen.
  - destruct (create_alert_passed ty sev3 ti3 me3 re3 c3 (state r2))
      as (s' & c' & E3 & Hob & Hac & _).
    + rewrite S2. exact Hp.
    + rewrite S2. exact H3.
    + fold r3 in E3. rewrite S2, Hlen in E3. rewrite S2 in Hob, Hac.
      rewrite Hlen in Hac.
      assert (Hs' : state r3 = s') by (rewrite E3; reflexivity).
      rewrite Hs', Hob, Hac, length_app, Hlen, E3. simpl.
      repeat split; try reflexivity. lia.
Qed.

Lemma create_alert_cooldown_window_witness :
  let call := create_alert POSTURE WARNING "Posture Check" "Poor posture" "Sit up" in
  let r1 := call (const_clock 1000 5) engine0 in
  let r2 := call (const_clock 1059 5) (state r1) in
  let r3 := call (const_clock 1060 5) (state r2) in
  (is_Some (result r1)
   /\ wall (const_clock 1059 5 0%nat) - last_sent (state r1) POSTURE
      < cooldown_of POSTURE
   /\ cooldown_of POSTURE
      <= wall (const_clock 1060 5 0%nat) - last_sent (state r1) POSTURE)
  /\ result r2 = None
  /\ result r3 = Some 1%nat
  /\ active_alerts (state r3) = [0%nat; 1%nat].
Proof.
  intros call r1 r2 r3.
  assert (H1 : is_Some (result r1)) by (vm_compute; eauto).
  assert (H2 : wall (const_clock 1059 5 0%nat) - last_sent (state r1) POSTURE
               < cooldown_of POSTURE) by (vm_compute; reflexivity).
  assert (H3 : cooldown_of POSTURE
               <= wall (const_clock 1060 5 0%nat) - last_sent (state r1) POSTURE)
    by (vm_compute; discriminate).
  split; [split; [exact H1 | split; [exact H2 | exact H3]]|].
  destruct (create_alert_cooldown_window POSTURE engine0
              (const_clock 1000 5) (const_clock 1059 5) (const_clock 1060 5)
              WARNING WARNING WARNING
              "Posture Check" "Poor posture" "Sit up"
              "Posture Check" "Poor posture" "Sit up"
              "Posture Check" "Poor posture" "Sit up" H1 H2 H3)
    as [(E2 & _) (E3 & _ & A3)].
  split; [exact E2 | split; [exact E3 | exact A3]].
Defined.

End Cooldown.

(** ** The alert engine: escalation *)

Section Escalation.
Import AlertEngine.

Lemma filter_nonempty_iff {A} (f : A -> bool) (l : list A) :
  (if List.filter f l is [] then false else true) = true
  <-> exists a, a ∈ l /\ f a = true.
Proof.
  split.
  - destruct (List.filter f l) as [|a l'] eqn:E; [discriminate|].
    intros _. exists a.
    assert (Hin : In a (List.filter f l)) by (rewrite E; left; reflexivity).
    apply filter_In in Hin. destruct Hin as [Hin Hf].
    split; [apply list_elem_of_In; exact Hin | exact Hf].
  - intros (a & Hin & Hf).
    assert (Hin' : In a (List.filter f l)).
    { apply filter_In. split; [apply list_elem_of_In; exact Hin | exact Hf]. }
    destruct (List.filter f l); [destruct Hin' | reflexivity].
Qed.

Lemma rounds_to_process s now l acc :
  (foldl (escalation_round s now) acc l).1
  = acc.1 ++ (List.filter (escalates s now) l).*1.
Proof.
  revert acc. induction l as [|[ty et] l IH]; intros acc; simpl.
  - rewrite app_nil_r. reflexivity.
  - rewrite IH. unfold escalates at 2. simpl.
    destruct (Qle_bool et now); simpl; [|reflexivity].
    destruct (List.filter (unacknowledged_of s ty) (active_alerts s)); simpl.
    + reflexivity.
    + rewrite <- app_assoc. reflexivity.
Qed.

Lemma rounds_pending_gone s now l acc k :
  acc.2 !! k = None ->
  (foldl (escalation_round s now) acc l).2 !! k = None.
Proof.
  revert acc. induction l as [|[ty et] l IH]; intros acc Hk; simpl.
  - exact Hk.
  - apply IH. destruct (Qle_bool et now); simpl; [|exact Hk].
    destruct (decide (ty = k)) as [->|Hne].
    + apply lookup_delete_eq.
    + rewrite lookup_delete_ne by exact Hne. exact Hk.
Qed.

Lemma rounds_pending_due s now l acc k et :
  (k, et) ∈ l -> Qle_bool et now = true ->
  (foldl (escalation_round s now) acc l).2 !! k = None.
Proof.
  revert acc. induction l as [|[ty et'] l IH]; intros acc Hin Hdue; simpl.
  - inversion Hin.
  - apply elem_of_cons in Hin. destruct Hin as [Heq|Hin].
    + inversion Heq; subst ty et'. rewrite Hdue.
      apply rounds_pending_gone. simpl. apply lookup_delete_eq.
    + apply IH; assumption.
Qed.

Lemma bump_other (L : list AlertType) (m : gmap AlertType nat) (k : AlertType) :
  k ∉ L -> foldl bump m L !! k = m !! k.
Proof.
  revert m. induction L as [|ty L IH]; intros m Hk; simpl; [reflexivity|].
  apply not_elem_of_cons in Hk. destruct Hk as [Hne Hk].
  rewrite IH by exact Hk. unfold bump. apply lookup_insert_ne. congruence.
Qed.

Lemma bump_once (L : list AlertType) (m : gmap AlertType nat) (k : AlertType) :
  NoDup L -> k ∈ L ->
  foldl bump m L !! k = Some (default 0%nat (m !! k) + 1)%nat.
Proof.
  revert m. induction L as [|ty L IH]; intros m Hnd Hk; simpl.
  - inversion Hk.
  - apply NoDup_cons in Hnd. destruct Hnd as [Hty Hnd].
    apply elem_of_cons in Hk. destruct Hk as [->|Hk].
    + rewrite bump_other by exact Hty. unfold bump. apply lookup_insert_eq.
    + rewrite IH by assumption. unfold bump.
      rewrite lookup_insert_ne; [reflexivity|]. intros ->. contradiction.
Qed.

Lemma NoDup_filter_fst {A B} (f : A * B -> bool) (l : list (A * B)) :
  NoDup l.*1 -> NoDup (List.filter f l).*1.
Proof.
  induction l as [|[a b] l IH]; simpl; intros Hnd; [constructor|].
  apply NoDup_cons in Hnd. destruct Hnd as [Ha Hnd].
  destruct (f (a, b)); simpl; [|apply IH; exact Hnd].
  apply NoDup_cons. split; [|apply IH; exact Hnd].
  intros Hin. apply Ha.
  apply list_elem_of_fmap in Hin. destruct Hin as ([a' b'] & Heq & Hin).
  simpl in Heq. subst a'.
  apply list_elem_of_In, filter_In in Hin. destruct Hin as [Hin _].
  apply list_elem_of_fmap. exists (a, b'). split; [reflexivity|].
  apply list_elem_of_In. exact Hin.
Qed.

Lemma elem_of_filter_fst {A B} (f : A * B -> bool) (l : list (A * B)) (a : A) :
  a ∈ (List.filter f l).*1 <-> exists b, (a, b) ∈ l /\ f (a, b) = true.
Proof.
  rewrite list_elem_of_fmap. split.
  - intros ([a' b] & Heq & Hin). simpl in Heq. subst a'.
    apply list_elem_of_In, filter_In in Hin. destruct Hin as [Hin Hf].
    exists b. split; [apply list_elem_of_In; exact Hin | exact Hf].
  - intros (b & Hin & Hf). exists (a, b). split; [reflexivity|].
    apply list_elem_of_In, filter_In.
    split; [apply list_elem_of_In; exact Hin | exact Hf].
Qed.

(** The two loops of [check_escalations], as one equation. *)
Lemma check_escalations_eq (c : Clock) (s : AlertSystem) :
  let now := wall (c 0%nat) in
  let items := map_to_list (pending_escalations s) in
  let acc := foldl (escalation_round s now) ([], pending_escalations s) items in
  state (check_escalations c s)
  = with_escalation_counts (fun counts => foldl bump counts acc.1)
      (with_pending_escalations (fun _ => acc.2) s).
Proof.
  intros now items acc.
  unfold check_escalations, mbind, Prog_bind, time_time, get, modify, state.
  simpl. fold now. fold items. fold acc. destruct acc as [tp pe]. reflexivity.
Qed.

Lemma check_escalations_pending_due c s ty et :
  pending_escalations s !! ty = Some et -> et <= wall (c 0%nat) ->
  pending_escalations (state (check_escalations c s)) !! ty = None.
Proof.
  intros Hp Hdue. rewrite check_escalations_eq.
  destruct s; simpl in *.
  eapply rounds_pending_due.
  - apply elem_of_map_to_list. exact Hp.
  - apply Qle_bool_iff. exact Hdue.
Qed.

Lemma check_escalations_count c s ty :
  escalation_counts (state (check_escalations c s)) !! ty
  = if escalates_type s (wall (c 0%nat)) ty
    then Some (S (escalation_count s ty))
    else escalation_counts s !! ty.
Proof.
  rewrite check_escalations_eq.
  rewrite rounds_to_process. simpl.
  assert (Hnd : NoDup (List.filter (escalates s (wall (c 0%nat)))
                         (map_to_list (pending_escalations s))).*1).
  { apply NoDup_filter_fst, NoDup_fst_map_to_list. }
  unfold escalates_type, escalation_count.
  destruct s as [ob ac hi la es pe cb pa pu at_ lr no]; simpl in *.
  destruct (pe !! ty) as [et|] eqn:Hp.
  - destruct (escalates _ _ (ty, et)) eqn:He.
    + rewrite bump_once.
      * f_equal. lia.
      * exact Hnd.
      * apply elem_of_filter_fst. exists et. split; [|exact He].
        apply elem_of_map_to_list. exact Hp.
    + apply bump_other. intros Hin.
      apply elem_of_filter_fst in Hin. destruct Hin as (et' & Hin & He').
      apply elem_of_map_to_list in Hin. rewrite Hp in Hin.
      inversion Hin; subst et'. congruence.
  - apply bump_other. intros Hin.
    apply elem_of_filter_fst in Hin. destruct Hin as (et' & Hin & He').
    apply elem_of_map_to_list in Hin. congruence.
Qed.

Lemma escalates_iff s now ty et :
  escalates s now (ty, et) = true <-> et <= now /\ has_unacknowledged s ty.
Proof.
  unfold escalates, has_unacknowledged. simpl.
  rewrite andb_true_iff, Qle_bool_iff, filter_nonempty_iff. reflexivity.
Qed.

Lemma check_escalations_unarmed c s ty :
  pending_escalations s !! ty = None ->
  escalation_counts (state (check_escalations c s)) !! ty
  = escalation_counts s !! ty.
Proof.
  intros Hp. rewrite check_escalations_count.
  unfold escalates_type. rewrite Hp. reflexivity.
Qed.

Lemma Alert_eqb_refl (a : Alert) : Alert_eqb a a = true.
Proof.
  unfold Alert_eqb. rewrite !bool_decide_eq_true_2 by reflexivity.
  simpl. rewrite !andb_true_r. apply Qeq_bool_iff. reflexivity.
Qed.

Lemma acknowledge_alert_effect (a : ref) (o : Alert) (c : Clock) (s : AlertSystem) :
  objects s !! a = Some o ->
  let s1 := state (acknowledge_alert a c s) in
  objects s1 = <[a := set_acknowledged o]> (objects s)
  /\ pending_escalations s1 = delete (alert_type o) (pending_escalations s)
  /\ escalation_counts s1 = <[alert_type o := 0%nat]> (escalation_counts s)
  /\ a ∉ active_alerts s1.
Proof.
  intros Ho. unfold acknowledge_alert, mbind, Prog_bind, get, modify, state.
  simpl. rewrite Ho. destruct s as [ob ac hi la es pe cb pa pu at_ lr no].
  simpl in *. repeat split.
  intros Hin. apply list_elem_of_In, filter_In in Hin. destruct Hin as [_ Hf].
  rewrite list_lookup_insert_eq in Hf by (eapply lookup_lt_Some; exact Ho).
  rewrite Alert_eqb_refl in Hf. discriminate.
Qed.

(** C2. For an alert type whose escalation timer is armed: a run of
    [check_escalations] whose clock reading has reached the armed time clears
    the timer, whether or not an alert is left; if an unacknowledged active
    alert of the type exists, the type's escalation count goes up by exactly
    one (a further run does not raise it again), and otherwise the count
    stays.  Acknowledging an alert of the type removes the timer and puts
    the count to 0, and a later run of [check_escalations] leaves it at 0. *)
Theorem escalation_once_unless_acknowledged
    (s : AlertSystem) (ty : AlertType) (et : Q) :
  pending_escalations s !! ty = Some et ->
  (forall c : Clock,
     et <= wall (c 0%nat) ->
     let s' := state (check_escalations c s) in
     pending_escalations s' !! ty = None
     /\ (has_unacknowledged s ty ->
         escalation_count s' ty = S (escalation_count s ty)
         /\ forall c2 : Clock,
              escalation_count (state (check_escalations c2 s')) ty
              = S (escalation_count s ty))
     /\ (~ has_unacknowledged s ty ->
         escalation_counts s' !! ty = escalation_counts s !! ty))
  /\ (forall (a : ref) (o : Alert) (ca c : Clock),
        objects s !! a = Some o -> alert_type o = ty ->
        let s1 := state (acknowledge_alert a ca s) in
        pending_escalations s1 !! ty = None
        /\ escalation_count s1 ty = 0%nat
        /\ escalation_count (state (check_escalations c s1)) ty = 0%nat).
Proof.
  intros Hp. split.
  - intros c Hdue s'.
    assert (Hgone : pending_escalations s' !! ty = None)
      by (eapply check_escalations_pending_due; eassumption).
    assert (Hcount := check_escalations_count c s ty). fold s' in Hcount.
    unfold escalates_type in Hcount. rewrite Hp in Hcount.
    split; [exact Hgone|]. split.
    + intros Hu.
      assert (He : escalates s (wall (c 0%nat)) (ty, et) = true)
        by (apply escalates_iff; split; assumption).
      rewrite He in Hcount.
      assert (Hs' : escalation_count s' ty = S (escalation_count s ty))
        by (unfold escalation_count at 1; rewrite Hcount; reflexivity).
      split; [exact Hs'|]. intros c2.
      unfold escalation_count at 1.
      rewrite check_escalations_unarmed by exact Hgone. exact Hs'.
    + intros Hu.
      destruct (escalates s (wall (c 0%nat)) (ty, et)) eqn:He; [|exact Hcount].
      apply escalates_iff in He. destruct He as [_ He]. contradiction.
  - intros a o ca c Ho Hty s1.
    destruct (acknowledge_alert_effect a o ca s Ho) as (_ & Hpe & Hes & _).
    fold s1 in Hpe, Hes. subst ty.
    assert (Hgone : pending_escalations s1 !! alert_type o = None)
      by (rewrite Hpe; apply lookup_delete_eq).
    assert (Hzero : escalation_counts s1 !! alert_type o = Some 0%nat)
      by (rewrite Hes; apply lookup_insert_eq).
    split; [exact Hgone|]. unfold escalation_count.
    rewrite check_escalations_unarmed by exact Hgone.
    rewrite Hzero. split; reflexivity.
Qed.

Lemma escalation_once_unless_acknowledged_witness :
  pending_escalations engine1 !! POSTURE = Some 1060
  /\ escalation_count (state (check_escalations (const_clock 1060 5) engine1))
       POSTURE = 1%nat
  /\ escalation_count
       (state (check_escalations (const_clock 1060 5)
                 (state (acknowledge_alert 0%nat (const_clock 1030 5) engine1))))
       POSTURE = 0%nat.
Proof.
  assert (Hp : pending_escalations engine1 !! POSTURE = Some 1060)
    by (vm_compute; reflexivity).
  destruct (escalation_once_unless_acknowledged engine1 POSTURE 1060 Hp)
    as [Hrun Hack].
  split; [exact Hp|]. split.
  - destruct (Hrun (const_clock 1060 5)) as (_ & Hup & _);
      [vm_compute; discriminate|].
    destruct Hup as [Hup _].
    + exists 0%nat. split; [vm_compute; left | vm_compute; reflexivity].
    + exact Hup.
  - destruct (Hack 0%nat
                (mkAlert POSTURE WARNING "Posture Check" "Poor posture" "Sit up"
                         1000 false 0)
                (const_clock 1030 5) (const_clock 1060 5))
      as (_ & _ & Hz); [vm_compute; reflexivity | reflexivity | exact Hz].
Defined.

End Escalation.

(** ** The screen-time tracker: one session per presence run *)

Section Sessions.
Import ScreenTime.

Lemma at_second_diff (t0 : Q) (i j : nat) :
  at_second t0 j - at_second t0 i == inject_Z (Z.of_nat j - Z.of_nat i).
Proof.
  unfold at_second, Z.sub. rewrite inject_Z_plus, inject_Z_opp. ring.
Qed.

Lemma idle_below (t0 : Q) (i j : nat) :
  (j < i + 30)%nat -> Qle_bool IDLE_THRESHOLD (at_second t0 j - at_second t0 i) = false.
Proof.
  intros H. apply Qle_bool_false. rewrite at_second_diff.
  unfold IDLE_THRESHOLD. change 30 with (inject_Z 30).
  rewrite <- Zlt_Qlt. lia.
Qed.

Lemma idle_reached (t0 : Q) (i j : nat) :
  (i + 30 <= j)%nat -> Qle_bool IDLE_THRESHOLD (at_second t0 j - at_second t0 i) = true.
Proof.
  intros H. apply Qle_bool_iff. rewrite at_second_diff.
  unfold IDLE_THRESHOLD. change 30 with (inject_Z 30).
  rewrite <- Zle_Qle. lia.
Qed.

Lemma drive_app t0 d i l1 l2 s :
  drive t0 d i (l1 ++ l2) s = drive t0 d (i + length l1) l2 (drive t0 d i l1 s).
Proof.
  revert i s. induction l1 as [|f l1 IH]; intros i s; simpl.
  - rewrite Nat.add_0_r. reflexivity.
  - rewrite IH. simpl. rewrite Nat.add_succ_r. reflexivity.
Qed.

Ltac run_update :=
  unfold tick, update, _check_daily_reset, _start_session, _end_session,
    duration, when, mbind, Prog_bind, mret, Prog_ret, get, modify, time_time,
    today, state, const_clock; simpl.

(** The first present tick on a fresh tracker opens a session. *)
Lemma tick_first_present (c0 : Clock) (t : Q) (d : Z) :
  tick t d true (result (init c0 tt))
  = mkScreenTimeTracker (Some (mkWorkSession t None 0)) [] t true (t - t)
      (wall (c0 1%nat)) (wall (c0 2%nat)) (wall (c0 3%nat)) 0 d [] [].
Proof.
  run_update. destruct (d =? day (c0 4%nat))%Z eqn:E; simpl; [|reflexivity].
  apply Z.eqb_eq in E. subst d. reflexivity.
Qed.

(** A present tick during a session moves the activity time. *)
Lemma tick_present_open w ses la cw mi sh lo tot d ip bc t :
  tick t d true (mkScreenTimeTracker (Some w) ses la true cw mi sh lo tot d ip bc)
  = mkScreenTimeTracker (Some w) ses t true (t - start_time w) mi sh lo tot d ip bc.
Proof. run_update. rewrite Z.eqb_refl. reflexivity. Qed.

(** An absent tick before the idle threshold changes nothing. *)
Lemma tick_absent_wait cs ses la up cw mi sh lo tot d ip bc t :
  Qle_bool IDLE_THRESHOLD (t - la) = false ->
  tick t d false (mkScreenTimeTracker cs ses la up cw mi sh lo tot d ip bc)
  = mkScreenTimeTracker cs ses la up cw mi sh lo tot d ip bc.
Proof. intros H. run_update. rewrite Z.eqb_refl. simpl. rewrite H. reflexivity. Qed.

(** The absent tick that reaches the idle threshold closes the session: its
    end is the time of this tick. *)
Lemma tick_absent_close w ses la cw mi sh lo tot d ip bc t :
  Qle_bool IDLE_THRESHOLD (t - la) = true ->
  tick t d false (mkScreenTimeTracker (Some w) ses la true cw mi sh lo tot d ip bc)
  = mkScreenTimeTracker None
      (ses ++ [mkWorkSession (start_time w) (Some t) (breaks_taken w)])
      la false cw mi sh lo (tot + (t - start_time w)) d
      (deque_append 50 ip (mkIdlePeriod la (t - la))) bc.
Proof.
  intros H. run_update. rewrite Z.eqb_refl. simpl. rewrite H. simpl.
  destruct (Qeq_bool t 0); reflexivity.
Qed.

(** Absent ticks without a present user change nothing. *)
Lemma tick_absent_gone cs ses la cw mi sh lo tot d ip bc t :
  tick t d false (mkScreenTimeTracker cs ses la false cw mi sh lo tot d ip bc)
  = mkScreenTimeTracker cs ses la false cw mi sh lo tot d ip bc.
Proof.
  run_update. rewrite Z.eqb_refl. simpl.
  destruct (Qle_bool IDLE_THRESHOLD (t - la)); reflexivity.
Qed.

(** A present tick without a session opens a new one. *)
Lemma tick_present_new ses la cw mi sh lo tot d ip bc t :
  tick t d true (mkScreenTimeTracker None ses la false cw mi sh lo tot d ip bc)
  = mkScreenTimeTracker (Some (mkWorkSession t None 0)) ses t true (t - t)
      mi sh lo tot d ip bc.
Proof. run_update. rewrite Z.eqb_refl. reflexivity. Qed.

Lemma drive_present_open t0 d n : forall i w ses la cw mi sh lo tot ip bc,
  drive t0 d i (replicate (S n) true)
    (mkScreenTimeTracker (Some w) ses la true cw mi sh lo tot d ip bc)
  = mkScreenTimeTracker (Some w) ses (at_second t0 (i + n)) true
      (at_second t0 (i + n) - start_time w) mi sh lo tot d ip bc.
Proof.
  induction n as [|n IH]; intros i w ses la cw mi sh lo tot ip bc.
  - simpl. rewrite tick_present_open, Nat.add_0_r. reflexivity.
  - change (replicate (S (S n)) true) with (true :: replicate (S n) true).
    cbn [drive]. rewrite tick_present_open, IH.
    rewrite Nat.add_succ_r. reflexivity.
Qed.

Lemma drive_absent_wait t0 d k : forall i j cs ses up cw mi sh lo tot ip bc,
  (i + k < j + 31)%nat ->
  drive t0 d i (replicate k false)
    (mkScreenTimeTracker cs ses (at_second t0 j) up cw mi sh lo tot d ip bc)
  = mkScreenTimeTracker cs ses (at_second t0 j) up cw mi sh lo tot d ip bc.
Proof.
  induction k as [|k IH]; intros i j cs ses up cw mi sh lo tot ip bc H.
  - reflexivity.
  - cbn [replicate drive]. rewrite tick_absent_wait by (apply idle_below; lia).
    apply IH. lia.
Qed.

Lemma drive_absent_gone t0 d k : forall i cs ses la cw mi sh lo tot ip bc,
  drive t0 d i (replicate k false)
    (mkScreenTimeTracker cs ses la false cw mi sh lo tot d ip bc)
  = mkScreenTimeTracker cs ses la false cw mi sh lo tot d ip bc.
Proof.
  induction k as [|k IH]; intros i cs ses la cw mi sh lo tot ip bc.
  - reflexivity.
  - cbn [replicate drive]. rewrite tick_absent_gone. apply IH.
Qed.

(** The state after 100 present and then 40 absent ticks, from a fresh
    tracker. *)
Lemma drive_100_40 (c0 : Clock) (t0 : Q) (d : Z) :
  drive t0 d 0 (replicate 100 true ++ replicate 40 false) (result (init c0 tt))
  = mkScreenTimeTracker None
      [mkWorkSession (at_second t0 0) (Some (at_second t0 129)) 0]
      (at_second t0 99) false (at_second t0 99 - at_second t0 0)
      (wall (c0 1%nat)) (wall (c0 2%nat)) (wall (c0 3%nat))
      (0 + (at_second t0 129 - at_second t0 0)) d
      [mkIdlePeriod (at_second t0 99) (at_second t0 129 - at_second t0 99)] [].
Proof.
  rewrite drive_app, length_replicate.
  change (replicate 100 true) with (true :: replicate (S 98) true).
  cbn [drive]. rewrite tick_first_present, drive_present_open.
  change (replicate 40 false) with (replicate 29 false ++ false :: replicate 10 false).
  rewrite drive_app, length_replicate.
  rewrite drive_absent_wait by (simpl; lia).
  cbn [drive]. simpl start_time.
  rewrite tick_absent_close by (apply idle_reached; simpl; lia).
  rewrite drive_absent_gone. reflexivity.
Qed.

Lemma after_presence_run_eq (c0 : Clock) (t0 : Q) (d : Z) :
  after_presence_run c0 t0 d
  = mkScreenTimeTracker None
      [mkWorkSession (at_second t0 0) (Some (at_second t0 129)) 0]
      (at_second t0 99) false (at_second t0 99 - at_second t0 0)
      (wall (c0 1%nat)) (wall (c0 2%nat)) (wall (c0 3%nat))
      (0 + (at_second t0 129 - at_second t0 0)) d
      [mkIdlePeriod (at_second t0 99) (at_second t0 129 - at_second t0 99)] [].
Proof. apply drive_100_40. Qed.

(** C3, as stated, fails: from second 0 the closed session lasts 129
    seconds, neither 99 nor 100. *)
Lemma session_duration_exceeds_presence_time :
  ~ closes_session_of_presence_time (const_clock 0 0) 0 0.
Proof.
  intros (w & e & Hs & He & Hd).
  rewrite after_presence_run_eq in Hs.
  cbn [sessions_today] in Hs. injection Hs as <-.
  cbn [end_time start_time] in He, Hd. injection He as <-.
  rewrite at_second_diff in Hd.
  destruct Hd as [Hd|Hd]; discriminate Hd.
Qed.

(** C3, amended.  Driven with 100 present ticks and then 40 absent ticks, one
    per second, a fresh tracker closes exactly one session; the session runs
    from the first present tick to the absent tick that reaches the idle
    threshold, so its recorded duration is the 99 seconds between the first
    and the last present tick plus the 30 seconds of the idle threshold, 129
    seconds, which is also what is added to the daily total; a following
    present tick opens a new session. *)
Theorem presence_run_closes_one_session (c0 : Clock) (t0 : Q) (d : Z) :
  let s := after_presence_run c0 t0 d in
  let w := mkWorkSession (at_second t0 0) (Some (at_second t0 129)) 0 in
  (sessions_today s = [w]
   /\ current_session s = None
   /\ is_user_present s = false)
  /\ (at_second t0 129 - start_time w
      == (at_second t0 99 - at_second t0 0) + IDLE_THRESHOLD
      /\ at_second t0 129 - start_time w == 129
      /\ total_screen_time_today s == 129)
  /\ (let s' := tick (at_second t0 140) d true s in
      current_session s' = Some (mkWorkSession (at_second t0 140) None 0)
      /\ is_user_present s' = true
      /\ sessions_today s' = [w]).
Proof.
  intros s w. unfold s. rewrite after_presence_run_eq.
  split; [repeat split|]. split.
  - subst w. cbn [start_time total_screen_time_today].
    rewrite !at_second_diff. unfold IDLE_THRESHOLD.
    split; [|split]; vm_compute; reflexivity.
  - rewrite tick_present_new. repeat split.
Qed.

End Sessions.

(** ** The eye tracker: blinks *)

Section Blinks.
Import EyeHealthTracker.

Ltac run_eye_update :=
  unfold update, _complete_calibration, when, mbind, Prog_bind, mret, Prog_ret,
    get, modify, time_time, result, state;
  simpl.

Ltac split_calibration ic du st cb now :=
  destruct ic; simpl;
  [destruct (Qle_bool du (now - st)); simpl;
   [match goal with
    | |- context [(5 <=? ?n)%nat] => destruct (5 <=? n)%nat; simpl
    end|]|].

Lemma play_app (l1 l2 : list Sample) (s : EyeTracker) :
  play (l1 ++ l2) s
  = (fst (play l1 s) ++ fst (play l2 (snd (play l1 s))),
     snd (play l2 (snd (play l1 s)))).
Proof.
  revert s. induction l1 as [|x l1 IH]; intros s.
  - simpl. destruct (play l2 s); reflexivity.
  - simpl. rewrite IH. reflexivity.
Qed.

(** The falling edge: the eyes were open and the ratio is below the threshold.
    The start of the closure is the clock reading of this call. *)
Lemma update_falling_edge (s : EyeTracker) (left_ear right_ear : Q) (c : Clock) :
  is_eye_closed s = false ->
  (left_ear + right_ear) / 2 < EAR_BLINK_THRESHOLD ->
  let r := update left_ear right_ear c s in
  result r = None
  /\ is_eye_closed (state r) = true
  /\ eye_close_start_time (state r) = Some (wall (c 0%nat))
  /\ blink_history (state r) = blink_history s
  /\ last_blink_time (state r) = last_blink_time s.
Proof.
  intros Hopen Hlt r. subst r. apply Qlt_bool_iff in Hlt.
  destruct s as [bh eh cl cs lb bl cb ic st du]. simpl in Hopen. subst cl.
  run_eye_update. rewrite Hlt. simpl.
  split_calibration ic du st cb (wall (c 0%nat)); repeat split.
Qed.

(** A further call while the eyes stay closed keeps the recorded start. *)
Lemma update_still_closed (s : EyeTracker) (left_ear right_ear : Q) (c : Clock) :
  is_eye_closed s = true ->
  (left_ear + right_ear) / 2 < EAR_BLINK_THRESHOLD ->
  let r := update left_ear right_ear c s in
  result r = None
  /\ is_eye_closed (state r) = true
  /\ eye_close_start_time (state r) = eye_close_start_time s
  /\ blink_history (state r) = blink_history s
  /\ last_blink_time (state r) = last_blink_time s.
Proof.
  intros Hcl Hlt r. subst r. apply Qlt_bool_iff in Hlt.
  destruct s as [bh eh cl cs lb bl cb ic st du]. simpl in Hcl. subst cl.
  run_eye_update. rewrite Hlt. simpl.
  split_calibration ic du st cb (wall (c 0%nat)); repeat split.
Qed.

(** The rising edge, measured from whatever start the tracker holds. *)
Lemma update_rising_edge (s : EyeTracker) (left_ear right_ear : Q) (c : Clock)
    (t0 : Q) :
  is_eye_closed s = true -> eye_close_start_time s = Some t0 -> ~ t0 == 0 ->
  EAR_BLINK_THRESHOLD <= (left_ear + right_ear) / 2 ->
  let now := wall (c 0%nat) in
  let d := now - t0 in
  let r := update left_ear right_ear c s in
  (MIN_BLINK_DURATION <= d /\ d <= MAX_BLINK_DURATION ->
     result r = Some (mkBlinkEvent now d)
     /\ blink_history (state r)
        = deque_append 100 (blink_history s) (mkBlinkEvent now d)
     /\ last_blink_time (state r) = now
     /\ is_eye_closed (state r) = false)
  /\ (d < MIN_BLINK_DURATION \/ MAX_BLINK_DURATION < d ->
     result r = None
     /\ blink_history (state r) = blink_history s
     /\ last_blink_time (state r) = last_blink_time s
     /\ is_eye_closed (state r) = false).
Proof.
  intros Hcl Hcs Hnz Havg now d r. subst r.
  destruct s as [bh eh cl cs lb bl cb ic st du].
  simpl in Hcl, Hcs. subst cl cs.
  assert (Ez : Qeq_bool t0 0 = false).
  { destruct (Qeq_bool t0 0) eqn:E; [|reflexivity].
    apply Qeq_bool_iff in E. contradiction. }
  assert (Ea : Qlt_bool ((left_ear + right_ear) / 2) EAR_BLINK_THRESHOLD = false)
    by (apply Qlt_bool_false; exact Havg).
  split.
  - intros [Hlo Hhi]. apply Qle_bool_iff in Hlo, Hhi.
    run_eye_update. fold now. rewrite Ea. simpl. rewrite Ez. simpl.
    fold d. rewrite Hlo, Hhi. simpl.
    split_calibration ic du st cb now; repeat split.
  - intros Hout.
    assert (Eb : Qle_bool MIN_BLINK_DURATION d && Qle_bool d MAX_BLINK_DURATION
                 = false).
    { apply andb_false_iff. destruct Hout as [H|H]; [left|right];
        apply Qle_bool_false; exact H. }
    run_eye_update. fold now. rewrite Ea. simpl. rewrite Ez. simpl.
    fold d. rewrite Eb. simpl.
    split_calibration ic du st cb now; repeat split.
Qed.

(** A call that is no rising edge: the ratio is below the threshold, or the
    eyes were not closed. *)
Lemma update_no_transition (s : EyeTracker) (left_ear right_ear : Q) (c : Clock) :
  (left_ear + right_ear) / 2 < EAR_BLINK_THRESHOLD \/ is_eye_closed s = false ->
  let r := update left_ear right_ear c s in
  result r = None
  /\ blink_history (state r) = blink_history s
  /\ last_blink_time (state r) = last_blink_time s.
Proof.
  intros H r. subst r.
  destruct s as [bh eh cl cs lb bl cb ic st du].
  destruct H as [Hlt|Hopen].
  - apply Qlt_bool_iff in Hlt.
    run_eye_update. rewrite Hlt. simpl.
    destruct cl; simpl; split_calibration ic du st cb (wall (c 0%nat));
      repeat split.
  - simpl in Hopen. subst cl.
    run_eye_update.
    destruct (Qlt_bool ((left_ear + right_ear) / 2) EAR_BLINK_THRESHOLD); simpl;
      split_calibration ic du st cb (wall (c 0%nat)); repeat split.
Qed.

(** While the ratio stays below the threshold, however many calls are made and
    whatever their clocks read, nothing is returned and the start of the
    closure, the blink history and the last blink time stay as they are. *)
Lemma play_still_closed (closed : list Sample) : forall s : EyeTracker,
  is_eye_closed s = true ->
  Forall (fun x => sample_ear x < EAR_BLINK_THRESHOLD) closed ->
  fst (play closed s) = repeat None (length closed)
  /\ is_eye_closed (snd (play closed s)) = true
  /\ eye_close_start_time (snd (play closed s)) = eye_close_start_time s
  /\ blink_history (snd (play closed s)) = blink_history s
  /\ last_blink_time (snd (play closed s)) = last_blink_time s.
Proof.
  induction closed as [|x closed IH]; intros s Hcl Hall.
  - simpl. repeat split. exact Hcl.
  - inversion Hall as [|x' l' Hx Hrest]; subst.
    destruct (update_still_closed s (sample_left x) (sample_right x)
                (sample_clock x) Hcl Hx) as (Hres & Hcl' & Hcs' & Hbh' & Hlb').
    destruct (IH _ Hcl' Hrest) as (Hev & Hcl2 & Hcs2 & Hbh2 & Hlb2).
    cbn [play fst snd length repeat]. unfold update_at.
    rewrite Hres, Hev, Hcs2, Hbh2, Hlb2, Hcs', Hbh', Hlb'.
    repeat split. exact Hcl2.
Qed.

(** The whole closure up to its rising edge: a falling edge from open eyes,
    then any number of calls with the eyes still closed. *)
Lemma play_closure (s : EyeTracker) (edge : Sample) (closed : list Sample) :
  is_eye_closed s = false ->
  sample_ear edge < EAR_BLINK_THRESHOLD ->
  Forall (fun x => sample_ear x < EAR_BLINK_THRESHOLD) closed ->
  fst (play (edge :: closed) s) = repeat None (S (length closed))
  /\ is_eye_closed (snd (play (edge :: closed) s)) = true
  /\ eye_close_start_time (snd (play (edge :: closed) s))
     = Some (sample_time edge)
  /\ blink_history (snd (play (edge :: closed) s)) = blink_history s
  /\ last_blink_time (snd (play (edge :: closed) s)) = last_blink_time s.
Proof.
  intros Hopen Hedge Hall.
  destruct (update_falling_edge s (sample_left edge) (sample_right edge)
              (sample_clock edge) Hopen Hedge) as (Hres & Hcl & Hcs & Hbh & Hlb).
  destruct (play_still_closed closed _ Hcl Hall) as (Hev & Hcl2 & Hcs2 & Hbh2 & Hlb2).
  cbn [play fst snd length repeat]. unfold update_at.
  rewrite Hres, Hev, Hcs2, Hbh2, Hlb2, Hcs, Hbh, Hlb.
  repeat split. exact Hcl2.
Qed.

(** C4. A closure seen through [update]: from open eyes the average ratio
    falls below 0.21 (at a wall-clock time, hence not zero), stays below it
    for any number of further calls, and is then back at or above 0.21.  With
    [d] the time from the first call below the threshold to the call back
    above it: a duration [d] in [0.05, 0.5] makes the calls return exactly
    one [BlinkEvent], that of the last call, with duration [d], appended to
    the blink history, and [last_blink_time] moves to the time of that call;
    a duration outside the band records nothing.  A call without such a
    transition (the ratio is below the threshold, or the eyes were not
    closed) records nothing either. *)
Theorem blink_recorded_iff_in_band :
  (forall (s : EyeTracker) (edge : Sample) (closed : list Sample)
          (opening : Sample),
     is_eye_closed s = false ->
     sample_ear edge < EAR_BLINK_THRESHOLD ->
     ~ sample_time edge == 0 ->
     Forall (fun x => sample_ear x < EAR_BLINK_THRESHOLD) closed ->
     EAR_BLINK_THRESHOLD <= sample_ear opening ->
     let now := sample_time opening in
     let d := now - sample_time edge in
     let run := play (edge :: closed ++ [opening]) s in
     (MIN_BLINK_DURATION <= d /\ d <= MAX_BLINK_DURATION ->
        fst run = repeat None (S (length closed)) ++ [Some (mkBlinkEvent now d)]
        /\ blink_history (snd run)
           = deque_append 100 (blink_history s) (mkBlinkEvent now d)
        /\ last_blink_time (snd run) = now
        /\ is_eye_closed (snd run) = false)
     /\ (d < MIN_BLINK_DURATION \/ MAX_BLINK_DURATION < d ->
        fst run = repeat None (S (length closed)) ++ [None]
        /\ blink_history (snd run) = blink_history s
        /\ last_blink_time (snd run) = last_blink_time s
        /\ is_eye_closed (snd run) = false))
  /\ (forall (s : EyeTracker) (left_ear right_ear : Q) (c : Clock),
        (left_ear + right_ear) / 2 < EAR_BLINK_THRESHOLD
        \/ is_eye_closed s = false ->
        let r := update left_ear right_ear c s in
        result r = None
        /\ blink_history (state r) = blink_history s
        /\ last_blink_time (state r) = last_blink_time s).
Proof.
  split; [|exact update_no_transition].
  intros s edge closed opening Hopen Hedge Hnz Hall Hup now d run.
  destruct (play_closure s edge closed Hopen Hedge Hall)
    as (Hev & Hcl & Hcs & Hbh & Hlb).
  assert (Hrun : run = (fst (play (edge :: closed) s)
                          ++ [result (update_at opening
                                        (snd (play (edge :: closed) s)))],
                        state (update_at opening
                                 (snd (play (edge :: closed) s))))).
  { unfold run. change (edge :: closed ++ [opening])
      with ((edge :: closed) ++ [opening]).
    rewrite play_app. reflexivity. }
  destruct (update_rising_edge (snd (play (edge :: closed) s))
              (sample_left opening) (sample_right opening) (sample_clock opening)
              (sample_time edge) Hcl Hcs Hnz Hup) as [Hin Hout].
  rewrite Hrun. cbn [fst snd]. rewrite Hev. unfold update_at.
  split.
  - intros Hd. destruct (Hin Hd) as (Hres & Hbh' & Hlb' & Hcl').
    rewrite Hres, Hbh', Hlb', Hcl', Hbh. repeat split.
  - intros Hd. destruct (Hout Hd) as (Hres & Hbh' & Hlb' & Hcl').
    rewrite Hres, Hbh', Hlb', Hcl', Hbh, Hlb. repeat split.
Qed.

Lemma blink_recorded_iff_in_band_witness :
  (is_eye_closed eye0 = false
   /\ sample_ear closing < EAR_BLINK_THRESHOLD
   /\ ~ sample_time closing == 0
   /\ Forall (fun x => sample_ear x < EAR_BLINK_THRESHOLD) still_closed
   /\ EAR_BLINK_THRESHOLD <= sample_ear reopening
   /\ MIN_BLINK_DURATION <= sample_time reopening - sample_time closing
      <= MAX_BLINK_DURATION)
  /\ fst (play (closing :: still_closed ++ [reopening]) eye0)
     = [None; None; None;
        Some (mkBlinkEvent (10102 # 10) ((10102 # 10) - 1010))].
Proof.
  assert (H1 : is_eye_closed eye0 = false) by reflexivity.
  assert (H2 : sample_ear closing < EAR_BLINK_THRESHOLD)
    by (vm_compute; reflexivity).
  assert (H3 : ~ sample_time closing == 0) by (vm_compute; discriminate).
  assert (H4 : Forall (fun x => sample_ear x < EAR_BLINK_THRESHOLD) still_closed)
    by (repeat constructor; vm_compute; reflexivity).
  assert (H5 : EAR_BLINK_THRESHOLD <= sample_ear reopening)
    by (vm_compute; discriminate).
  assert (H6 : MIN_BLINK_DURATION <= sample_time reopening - sample_time closing
               <= MAX_BLINK_DURATION)
    by (split; vm_compute; discriminate).
  split; [split; [exact H1 | split; [exact H2 | split; [exact H3 |
          split; [exact H4 | split; [exact H5 | exact H6]]]]]|].
  destruct blink_recorded_iff_in_band as [Hrun _].
  destruct (Hrun eye0 closing still_closed reopening H1 H2 H3 H4 H5) as [Hin _].
  destruct (Hin H6) as [Hres _]. exact Hres.
Defined.

End Blinks.

(** ** The screen-time tracker: break priority *)

Section Breaks.
Import ScreenTime.

(** C5. [get_break_recommendation] checks the tiers in the order long, short,
    micro and returns the first one that is overdue: long whenever the long
    interval (90 min) has passed, in particular when all three intervals have
    passed; short when the long one has not and the short one (45 min) has;
    micro when only the micro one (20 min) has; [None] when none has.  It
    does not change the tracker. *)
Theorem break_recommendation_priority (s : ScreenTimeTracker) (c : Clock) :
  let now := wall (c 0%nat) in
  let since_long := now - last_long_break s in
  let since_short := now - last_short_break s in
  let since_micro := now - last_micro_break s in
  (LONG_BREAK_INTERVAL <= since_long -> recommended_tier c s = Some LONG)
  /\ (LONG_BREAK_INTERVAL <= since_long -> SHORT_BREAK_INTERVAL <= since_short ->
      MICRO_BREAK_INTERVAL <= since_micro ->
      exists rec, result (get_break_recommendation c s) = Some rec
                  /\ break_type rec = LONG
                  /\ duration_seconds rec = LONG_BREAK_DURATION
                  /\ exercises rec = long_exercises)
  /\ (since_long < LONG_BREAK_INTERVAL -> SHORT_BREAK_INTERVAL <= since_short ->
      recommended_tier c s = Some SHORT)
  /\ (since_long < LONG_BREAK_INTERVAL -> since_short < SHORT_BREAK_INTERVAL ->
      MICRO_BREAK_INTERVAL <= since_micro ->
      recommended_tier c s = Some MICRO)
  /\ (since_long < LONG_BREAK_INTERVAL -> since_short < SHORT_BREAK_INTERVAL ->
      since_micro < MICRO_BREAK_INTERVAL ->
      result (get_break_recommendation c s) = None)
  /\ state (get_break_recommendation c s) = s.
Proof.
  intros now since_long since_short since_micro.
  unfold recommended_tier, get_break_recommendation, mbind, Prog_bind, mret,
    Prog_ret, get, time_time, result, state. simpl.
  fold now. fold since_long. fold since_short. fold since_micro.
  repeat split.
  - intros H. apply Qle_bool_iff in H. rewrite H. reflexivity.
  - intros H _ _. apply Qle_bool_iff in H. rewrite H. eexists.
    split; [reflexivity|]. repeat split.
  - intros H1 H2. apply Qle_bool_false in H1. apply Qle_bool_iff in H2.
    rewrite H1, H2. reflexivity.
  - intros H1 H2 H3. apply Qle_bool_false in H1, H2. apply Qle_bool_iff in H3.
    rewrite H1, H2, H3. reflexivity.
  - intros H1 H2 H3. apply Qle_bool_false in H1, H2, H3.
    rewrite H1, H2, H3. reflexivity.
  - destruct (Qle_bool LONG_BREAK_INTERVAL since_long); [reflexivity|].
    destruct (Qle_bool SHORT_BREAK_INTERVAL since_short); [reflexivity|].
    destruct (Qle_bool MICRO_BREAK_INTERVAL since_micro); reflexivity.
Qed.

Lemma break_recommendation_priority_witness :
  (LONG_BREAK_INTERVAL <= 8200 - last_long_break tracker0
   /\ SHORT_BREAK_INTERVAL <= 8200 - last_short_break tracker0
   /\ MICRO_BREAK_INTERVAL <= 8200 - last_micro_break tracker0)
  /\ recommended_tier (const_clock 8200 5) tracker0 = Some LONG.
Proof.
  assert (H1 : LONG_BREAK_INTERVAL <= 8200 - last_long_break tracker0)
    by (vm_compute; discriminate).
  assert (H2 : SHORT_BREAK_INTERVAL <= 8200 - last_short_break tracker0)
    by (vm_compute; discriminate).
  assert (H3 : MICRO_BREAK_INTERVAL <= 8200 - last_micro_break tracker0)
    by (vm_compute; discriminate).
  split; [split; [exact H1 | split; [exact H2 | exact H3]]|].
  destruct (break_recommendation_priority tracker0 (const_clock 8200 5))
    as [Hlong _].
  exact (Hlong H1).
Defined.

End Breaks.

(** ** The trackers: what enters the rolling histories *)

Section Inputs.


Lemma last_deque_append {A} (n : nat) (l : list A) (x : A) :
  last (deque_append (S n) l x) = Some x.
Proof.
  unfold deque_append. rewrite last_lookup, length_drop, lookup_drop.
  rewrite length_app. simpl.
  replace (length l + 1 - S n
           + Init.Nat.pred (length l + 1 - (length l + 1 - S n)))%nat
    with (length l + 0)%nat by lia.
  rewrite lookup_app_r by lia.
  replace (length l + 0 - length l)%nat with 0%nat by lia. reflexivity.
Qed.

Lemma length_deque_append {A} (n : nat) (l : list A) (x : A) :
  (length l <= n -> length (deque_append n l x) <= n)%nat.
Proof.
  intros H. unfold deque_append. rewrite length_drop, length_app. simpl. lia.
Qed.

#[local] Opaque PostureTracker.get_status.


#[local] Transparent PostureTracker.get_status.


End Inputs.

(** ** The eye tracker: the strain score *)

Section Strain.
Import EyeHealthTracker.

Lemma rate_step (x r : Q) :
  (if Qlt_bool r CRITICAL_BLINK_RATE then x + 40
   else if Qlt_bool r WARNING_BLINK_RATE then x + 25
   else if Qlt_bool r HEALTHY_BLINK_RATE_MIN then x + 10
   else x) == x + rate_tier r.
Proof.
  unfold rate_tier.
  destruct (Qlt_bool r CRITICAL_BLINK_RATE), (Qlt_bool r WARNING_BLINK_RATE),
    (Qlt_bool r HEALTHY_BLINK_RATE_MIN); ring.
Qed.

Lemma idle_step (x t : Q) :
  (if Qlt_bool 30 t then x + 30
   else if Qlt_bool 15 t then x + 15
   else if Qlt_bool 10 t then x + 5
   else x) == x + idle_tier t.
Proof.
  unfold idle_tier.
  destruct (Qlt_bool 30 t), (Qlt_bool 15 t), (Qlt_bool 10 t); ring.
Qed.

Lemma ear_step (x e : Q) :
  (if Qlt_bool e (22 # 100) then x + 20
   else if Qlt_bool e (24 # 100) then x + 10
   else x) == x + ear_tier e.
Proof.
  unfold ear_tier.
  destruct (Qlt_bool e (22 # 100)), (Qlt_bool e (24 # 100)); ring.
Qed.

Lemma deviation_step (x r : Q) (b : option Q) :
  (if truthy b then
     if Qlt_bool (1 # 2) ((or_else b 0 - r) / or_else b 0) then x + 15
     else if Qlt_bool (3 # 10) ((or_else b 0 - r) / or_else b 0) then x + 8
     else x
   else x) == x + deviation_tier r b.
Proof.
  unfold deviation_tier. cbv zeta.
  destruct (truthy b); [|ring].
  destruct (Qlt_bool (1 # 2) ((or_else b 0 - r) / or_else b 0)),
    (Qlt_bool (3 # 10) ((or_else b 0 - r) / or_else b 0)); ring.
Qed.

Lemma strain_score_tiers (blink_rate time_since_blink avg_ear : Q)
    (baseline : option Q) :
  strain_score blink_rate time_since_blink avg_ear baseline
  == Qmin 100 (rate_tier blink_rate + idle_tier time_since_blink
               + ear_tier avg_ear + deviation_tier blink_rate baseline).
Proof.
  unfold strain_score. cbv zeta.
  apply Q.min_compat; [reflexivity|].
  rewrite deviation_step, ear_step, idle_step, rate_step. ring.
Qed.

Ltac by_comparisons :=
  repeat match goal with
         | |- context [Qlt_bool ?x ?y] =>
             let E := fresh "E" in
             destruct (Qlt_bool x y) eqn:E;
             [apply Qlt_bool_iff in E | apply Qlt_bool_false in E]
         end;
  try lra; try (vm_compute; discriminate).

Lemma rate_tier_mono (r1 r2 : Q) : r2 <= r1 -> rate_tier r1 <= rate_tier r2.
Proof.
  intros H. unfold rate_tier, CRITICAL_BLINK_RATE, WARNING_BLINK_RATE,
    HEALTHY_BLINK_RATE_MIN. by_comparisons.
Qed.

Lemma idle_tier_mono (t1 t2 : Q) : t1 <= t2 -> idle_tier t1 <= idle_tier t2.
Proof. intros H. unfold idle_tier. by_comparisons. Qed.

Lemma ear_tier_mono (e1 e2 : Q) : e2 <= e1 -> ear_tier e1 <= ear_tier e2.
Proof. intros H. unfold ear_tier. by_comparisons. Qed.

Lemma deviation_mono (b r1 r2 : Q) :
  0 < b -> r2 <= r1 -> (b - r1) / b <= (b - r2) / b.
Proof.
  intros Hb H. unfold Qdiv. apply Qmult_le_compat_r; [lra|].
  apply Qlt_le_weak, Qinv_lt_0_compat. exact Hb.
Qed.

Lemma deviation_tier_mono (b : option Q) (r1 r2 : Q) :
  baseline_positive b -> r2 <= r1 ->
  deviation_tier r1 b <= deviation_tier r2 b.
Proof.
  intros Hb H. unfold deviation_tier.
  destruct b as [b|]; simpl; [|lra].
  simpl in Hb.
  assert (Ez : Qeq_bool b 0 = false).
  { destruct (Qeq_bool b 0) eqn:E; [|reflexivity].
    apply Qeq_bool_iff in E. lra. }
  rewrite Ez. simpl.
  pose proof (deviation_mono b r1 r2 Hb H) as Hd.
  by_comparisons.
Qed.

Lemma tiers_nonneg (r t e : Q) (b : option Q) :
  0 <= rate_tier r + idle_tier t + ear_tier e + deviation_tier r b.
Proof.
  assert (0 <= rate_tier r) by (unfold rate_tier; by_comparisons).
  assert (0 <= idle_tier t) by (unfold idle_tier; by_comparisons).
  assert (0 <= ear_tier e) by (unfold ear_tier; by_comparisons).
  assert (0 <= deviation_tier r b).
  { unfold deviation_tier. destruct (truthy b); [|lra]. cbv zeta. by_comparisons. }
  lra.
Qed.

Lemma strain_score_mono (b : option Q) (r1 r2 t1 t2 e1 e2 : Q) :
  baseline_positive b -> r2 <= r1 -> t1 <= t2 -> e2 <= e1 ->
  strain_score r1 t1 e1 b <= strain_score r2 t2 e2 b.
Proof.
  intros Hb Hr Ht He. rewrite !strain_score_tiers.
  apply Q.min_le_compat_l.
  pose proof (rate_tier_mono r1 r2 Hr).
  pose proof (idle_tier_mono t1 t2 Ht).
  pose proof (ear_tier_mono e1 e2 He).
  pose proof (deviation_tier_mono b r1 r2 Hb Hr).
  lra.
Qed.

Lemma strain_score_range (r t e : Q) (b : option Q) :
  0 <= strain_score r t e b /\ strain_score r t e b <= 100.
Proof.
  rewrite strain_score_tiers. split.
  - apply Q.min_glb; [lra | apply tiers_nonneg].
  - apply Q.le_min_l.
Qed.

Lemma calibrated_rate_positive (n : nat) :
  (5 <= n)%nat -> 0 < inject_Z (Z.of_nat n) / (120 / 60).
Proof.
  intros H. unfold Qdiv. apply Qmult_lt_0_compat.
  - change 0 with (inject_Z 0). rewrite <- Zlt_Qlt. lia.
  - vm_compute. reflexivity.
Qed.

Lemma update_keeps_baseline_positive (s : EyeTracker) (left_ear right_ear : Q)
    (c : Clock) :
  eye_calibration_duration s = 120 ->
  baseline_positive (baseline_blink_rate s) ->
  eye_calibration_duration (state (update left_ear right_ear c s)) = 120
  /\ baseline_positive (baseline_blink_rate (state (update left_ear right_ear c s))).
Proof.
  destruct s as [bh eh cl cs lb bl cb ic st du]. simpl. intros -> Hb.
  unfold update, _complete_calibration, when, mbind, Prog_bind, mret, Prog_ret,
    get, modify, time_time, state. simpl.
  assert (Hfin : forall n : nat,
            baseline_positive
              (if (5 <=? n)%nat then Some (inject_Z (Z.of_nat n) / (120 / 60))
               else bl)).
  { intros n. destruct (5 <=? n)%nat eqn:E; [|exact Hb].
    apply Nat.leb_le in E. apply calibrated_rate_positive. exact E. }
  destruct (Qlt_bool ((left_ear + right_ear) / 2) EAR_BLINK_THRESHOLD); simpl.
  - destruct cl; simpl; destruct ic; simpl; try (split; [reflexivity|exact Hb]);
      destruct (Qle_bool 120 (wall (c 0%nat) - st)); simpl;
      try (split; [reflexivity|exact Hb]);
      specialize (Hfin (length cb));
      destruct (5 <=? length cb)%nat; simpl; (split; [reflexivity|exact Hfin]).
  - destruct (cl && truthy cs); simpl.
    + destruct (Qle_bool MIN_BLINK_DURATION (wall (c 0%nat) - or_else cs 0)
                && Qle_bool (wall (c 0%nat) - or_else cs 0) MAX_BLINK_DURATION);
        simpl; destruct ic; simpl; try (split; [reflexivity|exact Hb]);
        destruct (Qle_bool 120 (wall (c 0%nat) - st)); simpl;
        try (split; [reflexivity|exact Hb]);
        match goal with
        | |- context [(5 <=? ?n)%nat] =>
            specialize (Hfin n); destruct (5 <=? n)%nat
        end; simpl; (split; [reflexivity|exact Hfin]).
    + destruct ic; simpl; try (split; [reflexivity|exact Hb]);
        destruct (Qle_bool 120 (wall (c 0%nat) - st)); simpl;
        try (split; [reflexivity|exact Hb]);
        specialize (Hfin (length cb));
        destruct (5 <=? length cb)%nat; simpl; (split; [reflexivity|exact Hfin]).
Qed.

Lemma reachable_baseline_positive (s : EyeTracker) :
  reachable s ->
  eye_calibration_duration s = 120 /\ baseline_positive (baseline_blink_rate s).
Proof.
  induction 1 as [c | s l r c Hs [Hd Hb]].
  - split; [reflexivity | exact I].
  - apply update_keeps_baseline_positive; assumption.
Qed.

(** C7. For trackers that construction and [update] produce: between two
    evaluations of [calculate_eye_strain_score] with the same baseline, the
    same mean EAR and the same time since the last blink, the one with the
    lower (or equal) blink rate has the higher (or equal) score; and every
    score lies in [0, 100]. *)
Theorem eye_strain_score_monotone_and_bounded :
  (forall (s1 s2 : EyeTracker) (c1 c2 : Clock),
     reachable s1 ->
     baseline_blink_rate s2 = baseline_blink_rate s1 ->
     mean_ear s2 == mean_ear s1 ->
     wall (c2 1%nat) - last_blink_time s2 == wall (c1 1%nat) - last_blink_time s1 ->
     result (get_current_blink_rate c2 s2) <= result (get_current_blink_rate c1 s1) ->
     result (calculate_eye_strain_score c1 s1)
     <= result (calculate_eye_strain_score c2 s2))
  /\ (forall (s : EyeTracker) (c : Clock),
        0 <= result (calculate_eye_strain_score c s)
        /\ result (calculate_eye_strain_score c s) <= 100).
Proof.
  assert (Hscore : forall s c,
    result (calculate_eye_strain_score c s)
    = strain_score (result (get_current_blink_rate c s))
        (wall (c 1%nat) - last_blink_time s) (mean_ear s) (baseline_blink_rate s)).
  { intros s c.
    unfold calculate_eye_strain_score, get_current_blink_rate, mbind, Prog_bind,
      mret, Prog_ret, get, time_time, result. simpl.
    destruct (length _ <? 2)%nat; reflexivity. }
  split.
  - intros s1 s2 c1 c2 Hr Hb He Ht Hrate.
    rewrite !Hscore, Hb.
    apply strain_score_mono.
    + apply reachable_baseline_positive. exact Hr.
    + exact Hrate.
    + rewrite Ht. apply Qle_refl.
    + rewrite He. apply Qle_refl.
  - intros s c. rewrite Hscore. apply strain_score_range.
Qed.

Lemma reachable_play (samples : list Sample) : forall s : EyeTracker,
  reachable s -> reachable (snd (play samples s)).
Proof.
  induction samples as [|x samples IH]; intros s Hs.
  - exact Hs.
  - cbn [play snd]. apply IH. unfold update_at. apply reachable_update. exact Hs.
Qed.

Lemma eye_strain_score_monotone_and_bounded_witness :
  (reachable eye_blinking
   /\ baseline_blink_rate eye_staring = baseline_blink_rate eye_blinking
   /\ mean_ear eye_staring == mean_ear eye_blinking
   /\ wall (const_clock 1129 5 1%nat) - last_blink_time eye_staring
      == wall (const_clock 1129 5 1%nat) - last_blink_time eye_blinking
   /\ result (get_current_blink_rate (const_clock 1129 5) eye_staring)
      <= result (get_current_blink_rate (const_clock 1129 5) eye_blinking))
  /\ (baseline_blink_rate eye_blinking = Some (inject_Z 20 / (120 / 60))
      /\ result (get_current_blink_rate (const_clock 1129 5) eye_blinking) == 8
      /\ result (get_current_blink_rate (const_clock 1129 5) eye_staring) == 4
      /\ result (calculate_eye_strain_score (const_clock 1129 5) eye_blinking)
         == 30
      /\ result (calculate_eye_strain_score (const_clock 1129 5) eye_staring)
         == 75)
  /\ result (calculate_eye_strain_score (const_clock 1129 5) eye_blinking)
     <= result (calculate_eye_strain_score (const_clock 1129 5) eye_staring).
Proof.
  assert (Hr : reachable eye_blinking).
  { unfold eye_blinking, eye_calibrating.
    apply reachable_play, reachable_play, reachable_init. }
  assert (Hb : baseline_blink_rate eye_staring = baseline_blink_rate eye_blinking)
    by (vm_compute; reflexivity).
  assert (He : mean_ear eye_staring == mean_ear eye_blinking)
    by (vm_compute; reflexivity).
  assert (Ht : wall (const_clock 1129 5 1%nat) - last_blink_time eye_staring
               == wall (const_clock 1129 5 1%nat) - last_blink_time eye_blinking)
    by (vm_compute; reflexivity).
  assert (Hrate : result (get_current_blink_rate (const_clock 1129 5) eye_staring)
                  <= result (get_current_blink_rate (const_clock 1129 5)
                               eye_blinking))
    by (vm_compute; discriminate).
  split; [split; [exact Hr | split; [exact Hb | split; [exact He |
          split; [exact Ht | exact Hrate]]]]|].
  split; [split; [vm_compute; reflexivity | split; [vm_compute; reflexivity |
          split; [vm_compute; reflexivity | split; vm_compute; reflexivity]]]|].
  destruct eye_strain_score_monotone_and_bounded as [Hmono _].
  exact (Hmono eye_blinking eye_staring (const_clock 1129 5) (const_clock 1129 5)
           Hr Hb He Ht Hrate).
Defined.

End Strain.

(** ** The posture analyzer: when to alert *)

Section PostureAlerts.
Import PostureTracker.

(** C8. [should_alert] is false whenever the current bad-posture duration
    is below 30 seconds, whatever the status is, and it is true exactly when
    the duration is at least 30 seconds and the status is not good. *)
Theorem should_alert_iff (s : PostureAnalyzer) :
  (current_bad_posture_duration s < BAD_POSTURE_ALERT_THRESHOLD ->
   should_alert s = false)
  /\ (should_alert s = true
      <-> BAD_POSTURE_ALERT_THRESHOLD <= current_bad_posture_duration s
          /\ get_status s <> POSTURE_GOOD)
  /\ BAD_POSTURE_ALERT_THRESHOLD == 30.
Proof.
  unfold should_alert. split; [|split].
  - intros H. apply Qle_bool_false in H. rewrite H. reflexivity.
  - rewrite andb_true_iff, Qle_bool_iff, negb_true_iff, bool_decide_eq_false.
    reflexivity.
  - reflexivity.
Qed.

Lemma should_alert_iff_witness :
  (current_bad_posture_duration posture_bad_10 < BAD_POSTURE_ALERT_THRESHOLD
   /\ get_status posture_bad_10 = POSTURE_WARNING)
  /\ should_alert posture_bad_10 = false.
Proof.
  assert (H : current_bad_posture_duration posture_bad_10
              < BAD_POSTURE_ALERT_THRESHOLD) by (vm_compute; reflexivity).
  split; [split; [exact H | vm_compute; reflexivity]|].
  destruct (should_alert_iff posture_bad_10) as [Hlow _]. exact (Hlow H).
Defined.

End PostureAlerts.

(** ** The frame loop: calls of [check_escalations] *)

Section FrameLoop.
Import HealthAggregator.




















#[local] Opaque ScreenTime.update ScreenTime.get_statistics.

(** The tick on which no face is found: the screen-time tracker is updated,
    nothing else is, and the snapshot is the neutral one. *)
Lemma process_frame_absent (m : HealthMonitor) (c : Clock) (frame : Frame) :
  is_running m = true ->
  let r := process_frame (mkCapture (Some frame) None) c m in
  exists hs,
    result r = Some hs
    /\ (is_calibrating hs = false
        /\ state_is_user_present hs = false
        /\ overall_status hs = OVERALL_GOOD
        /\ overall_score hs = 100
        /\ eye_metrics hs = None
        /\ posture_metrics hs = None)
    /\ (alert_system (state r) = alert_system m
        /\ eye_tracker (state r) = eye_tracker m
        /\ posture_analyzer (state r) = posture_analyzer m
        /\ calls (state r) = calls m).
Proof.
  intros Hrun r. subst r.
  unfold process_frame, on_screen, on_alerts, zoom, AlertEngine.get_active_alerts,
    mbind, Prog_bind, mret, Prog_ret, get, modify, result, state.
  rewrite Hrun. cbn [negb capture_frame capture_landmarks].
  destruct m as [e p a t run lf ll fc ac cl]. simpl.
  destruct (ScreenTime.update _ c t) as [[u t'] c']. simpl.
  destruct (ScreenTime.get_statistics c' t') as [[stats t''] c'']. simpl.
  eexists. split; [reflexivity|]. repeat split.
Qed.

#[local] Transparent ScreenTime.update ScreenTime.get_statistics.

(** Without a running monitor or without a frame there is no snapshot and
    nothing changes. *)
Lemma process_frame_idle (m : HealthMonitor) (c : Clock) (cap : Capture) :
  is_running m = false \/ capture_frame cap = None ->
  process_frame cap c m = (None, m, c).
Proof.
  intros H. unfold process_frame, mbind, Prog_bind, get, mret, Prog_ret.
  destruct (is_running m); simpl.
  - destruct H as [H|H]; [discriminate|]. rewrite H. reflexivity.
  - reflexivity.
Qed.

Lemma monitor1_running : is_running monitor1 = true.
Proof. vm_compute. reflexivity. Qed.





(** C10. On a tick of a running monitor that gets a frame without a face,
    the snapshot has [is_calibrating = false], whatever the calibration
    flags of the eye tracker and of the posture analyzer are, and the tick
    leaves these flags as they were; both are true on a monitor that has
    just been constructed. *)
Theorem absent_tick_reports_not_calibrating :
  (forall (m : HealthMonitor) (c : Clock) (frame : Frame),
     is_running m = true ->
     let r := process_frame (mkCapture (Some frame) None) c m in
     exists hs,
       result r = Some hs
       /\ is_calibrating hs = false
       /\ eye_is_calibrating (eye_tracker (state r))
          = eye_is_calibrating (eye_tracker m)
       /\ posture_is_calibrating (posture_analyzer (state r))
          = posture_is_calibrating (posture_analyzer m))
  /\ (forall c0 : Clock,
        let m0 := result (HealthAggregator.init c0 tt) in
        eye_is_calibrating (eye_tracker m0) = true
        /\ posture_is_calibrating (posture_analyzer m0) = true).
Proof.
  split.
  - intros m c frame Hrun r.
    destruct (process_frame_absent m c frame Hrun)
      as (hs & Hres & (Hcal & _) & _ & He & Hp & _).
    unfold r.
    exists hs. rewrite He, Hp. repeat split; assumption.
  - intros c0 m0. split; reflexivity.
Qed.

Lemma absent_tick_reports_not_calibrating_witness :
  (is_running monitor0 = true
   /\ eye_is_calibrating (eye_tracker monitor0) = true
   /\ posture_is_calibrating (posture_analyzer monitor0) = true)
  /\ exists hs,
       result (process_frame (mkCapture (Some frame0) None)
                 (const_clock 1001 5) monitor0) = Some hs
       /\ is_calibrating hs = false.
Proof.
  assert (Hrun : is_running monitor0 = true) by (vm_compute; reflexivity).
  split; [split; [exact Hrun | split; vm_compute; reflexivity]|].
  destruct absent_tick_reports_not_calibrating as [Habsent _].
  destruct (Habsent monitor0 (const_clock 1001 5) frame0 Hrun)
    as (hs & Hres & Hcal & _).
  exists hs. split; [exact Hres | exact Hcal].
Defined.

End FrameLoop.

(** * Further properties of the code *)

(** ** The alert engine: pause, acknowledgement, bookkeeping *)

Section EnginePause.
Import AlertEngine.

Lemma can_send_paused_running ty c s p :
  is_paused s = true -> pause_until s = Some p -> ~ p == 0 ->
  wall (c 0%nat) < p ->
  can_send_alert ty c s = (false, s, later c).
Proof.
  intros Hp Hu Hnz Hlt.
  unfold can_send_alert, mbind, Prog_bind, get, mret, Prog_ret, time_time, modify.
  rewrite Hp, Hu.
  assert (Ez : Qeq_bool p 0 = false).
  { destruct (Qeq_bool p 0) eqn:E; [|reflexivity].
    apply Qeq_bool_iff in E. contradiction. }
  rewrite Ez. simpl. apply Qle_bool_false in Hlt. rewrite Hlt. reflexivity.
Qed.

Lemma can_send_paused_expired ty c s p :
  is_paused s = true -> pause_until s = Some p -> ~ p == 0 ->
  p <= wall (c 0%nat) ->
  can_send_alert ty c s = can_send_alert ty (later c) (with_pause false None s).
Proof.
  intros Hp Hu Hnz Hle.
  unfold can_send_alert, mbind, Prog_bind, get, mret, Prog_ret, time_time, modify.
  rewrite Hp, Hu.
  assert (Ez : Qeq_bool p 0 = false).
  { destruct (Qeq_bool p 0) eqn:E; [|reflexivity].
    apply Qeq_bool_iff in E. contradiction. }
  rewrite Ez. simpl. apply Qle_bool_iff in Hle. rewrite Hle. reflexivity.
Qed.

(** X1. After [pause_alerts(duration)], every [create_alert] whose pause
    check reads the clock before the expiry returns [None] and changes
    nothing; a call that reads the clock at or after the expiry clears the
    pause and goes on exactly like a call on the resumed engine (the expiry
    time must not be 0.0, which the truthiness test would take for "no
    expiry"). *)
Theorem pause_suppresses_until_expiry
    (s : AlertSystem) (duration : Q) (cp c : Clock)
    (ty : AlertType) (sev : AlertSeverity) (ti me re : string) :
  let expiry := wall (cp 0%nat) + duration in
  let paused := state (pause_alerts duration cp s) in
  let resumed := state (resume_alerts cp paused) in
  ~ expiry == 0 ->
  (wall (c 0%nat) < expiry ->
   create_alert ty sev ti me re c paused = (None, paused, later c))
  /\ (expiry <= wall (c 0%nat) ->
      create_alert ty sev ti me re c paused
      = create_alert ty sev ti me re (later c) resumed).
Proof.
  intros expiry paused resumed Hnz.
  assert (Hp : is_paused paused = true) by reflexivity.
  assert (Hu : pause_until paused = Some expiry) by reflexivity.
  assert (Hr : resumed = with_pause false None paused) by reflexivity.
  split; intros Hc.
  - unfold create_alert. unfold mbind at 1. unfold Prog_bind at 1.
    rewrite (can_send_paused_running ty c paused expiry) by assumption.
    reflexivity.
  - unfold create_alert. unfold mbind at 1 13. unfold Prog_bind at 1 13.
    rewrite (can_send_paused_expired ty c paused expiry) by assumption.
    rewrite Hr. reflexivity.
Qed.

Lemma pause_suppresses_until_expiry_witness :
  let paused := state (pause_alerts 600 (const_clock 2000 5) engine0) in
  ~ wall (const_clock 2000 5 0%nat) + 600 == 0
  /\ result (create_alert POSTURE WARNING "Posture Check" "Poor posture" "Sit up"
               (const_clock 2599 5) paused) = None
  /\ result (create_alert POSTURE WARNING "Posture Check" "Poor posture" "Sit up"
               (const_clock 2600 5) paused) = Some 0%nat.
Proof.
  intros paused.
  assert (Hnz : ~ wall (const_clock 2000 5 0%nat) + 600 == 0)
    by (vm_compute; discriminate).
  split; [exact Hnz|].
  destruct (pause_suppresses_until_expiry engine0 600 (const_clock 2000 5)
              (const_clock 2599 5) POSTURE WARNING
              "Posture Check" "Poor posture" "Sit up" Hnz) as [Hrun _].
  split.
  - fold paused in Hrun. rewrite Hrun; [reflexivity | vm_compute; reflexivity].
  - vm_compute. reflexivity.
Defined.

End EnginePause.

Section EngineAcknowledge.
Import AlertEngine.

Lemma mark_all_lookup (l : list ref) (h : list Alert) (a : ref) :
  mark_all h l !! a
  = if bool_decide (a ∈ l) then set_acknowledged <$> h !! a else h !! a.
Proof.
  revert h. induction l as [|b l IH]; intros h; simpl.
  - reflexivity.
  - unfold mark_all in *. simpl. rewrite IH.
    destruct (h !! b) as [o|] eqn:Hb.
    + destruct (decide (a = b)) as [->|Hne].
      * rewrite list_lookup_insert_eq by (eapply lookup_lt_Some; exact Hb).
        rewrite Hb. simpl.
        rewrite (bool_decide_eq_true_2 (b ∈ b :: l)) by (apply elem_of_cons; auto).
        destruct (bool_decide (b ∈ l)); reflexivity.
      * rewrite list_lookup_insert_ne by congruence.
        destruct (bool_decide (a ∈ l)) eqn:E.
        -- apply bool_decide_eq_true in E.
           rewrite bool_decide_eq_true_2 by (apply elem_of_cons; auto).
           reflexivity.
        -- apply bool_decide_eq_false in E.
           rewrite bool_decide_eq_false_2; [reflexivity|].
           intros H. apply elem_of_cons in H. destruct H; contradiction.
    + destruct (decide (a = b)) as [->|Hne].
      * rewrite Hb. simpl. destruct (bool_decide (b ∈ l));
          destruct (bool_decide (b ∈ b :: l)); reflexivity.
      * destruct (bool_decide (a ∈ l)) eqn:E.
        -- apply bool_decide_eq_true in E.
           rewrite bool_decide_eq_true_2 by (apply elem_of_cons; auto).
           reflexivity.
        -- apply bool_decide_eq_false in E.
           rewrite bool_decide_eq_false_2; [reflexivity|].
           intros H. apply elem_of_cons in H. destruct H; contradiction.
Qed.

(** X2. [acknowledge_all] empties the active list and the armed escalations,
    puts every escalation count to 0 and marks every alert that was active
    as acknowledged in the store, so that the history, which holds the same
    objects, shows them acknowledged; the history itself, the last-sent
    times and the pause are untouched, and [get_active_alerts] returns the
    empty list afterwards. *)
Theorem acknowledge_all_clears (s : AlertSystem) (c c2 : Clock) :
  let s' := state (acknowledge_all c s) in
  active_alerts s' = []
  /\ pending_escalations s' = ∅
  /\ (forall ty, escalation_counts s' !! ty
                 = (fun _ => 0%nat) <$> (escalation_counts s !! ty))
  /\ (forall a o, a ∈ active_alerts s -> objects s !! a = Some o ->
        objects s' !! a = Some (set_acknowledged o))
  /\ (forall a, a ∉ active_alerts s -> objects s' !! a = objects s !! a)
  /\ alert_history s' = alert_history s
  /\ last_alert_times s' = last_alert_times s
  /\ is_paused s' = is_paused s
  /\ result (get_active_alerts c2 s') = [].
Proof.
  intros s'. subst s'.
  unfold acknowledge_all, get_active_alerts, mbind, Prog_bind, mret, Prog_ret,
    get, modify, state, result.
  destruct s as [ob ac hi la es pe cb pa pu at_ lr no]. simpl.
  fold (mark_all ob ac).
  repeat split.
  - intros ty. apply lookup_fmap.
  - intros a o Hin Ho. rewrite mark_all_lookup.
    rewrite bool_decide_eq_true_2 by exact Hin. rewrite Ho. reflexivity.
  - intros a Hin. rewrite mark_all_lookup.
    rewrite bool_decide_eq_false_2 by exact Hin. reflexivity.
Qed.

(** X3. [acknowledge_alert] on an alert of the store marks the shared object
    acknowledged (the history entry is the same object), takes it out of the
    active list, keeps in order the active alerts that differ from it in
    some field, and leaves the history, the last-sent times (the cooldown is
    not reset), the daily counter and the other types' escalation state as
    they were. *)
Theorem acknowledge_alert_removes (s : AlertSystem) (a : ref) (o : Alert) (c : Clock) :
  objects s !! a = Some o ->
  let s' := state (acknowledge_alert a c s) in
  objects s' !! a = Some (set_acknowledged o)
  /\ (a ∉ active_alerts s')
  /\ active_alerts s'
     = List.filter (fun b => match <[a := set_acknowledged o]> (objects s) !! b with
                             | Some x => negb (Alert_eqb x (set_acknowledged o))
                             | None => false
                             end) (active_alerts s)
  /\ alert_history s' = alert_history s
  /\ last_alert_times s' = last_alert_times s
  /\ alerts_today s' = alerts_today s
  /\ (forall ty, ty <> alert_type o ->
        pending_escalations s' !! ty = pending_escalations s !! ty
        /\ escalation_counts s' !! ty = escalation_counts s !! ty).
Proof.
  intros Ho s'. subst s'.
  assert (Hlt : (a < length (objects s))%nat) by (eapply lookup_lt_Some; exact Ho).
  unfold acknowledge_alert, mbind, Prog_bind, get, modify, state.
  simpl. rewrite Ho. destruct s as [ob ac hi la es pe cb pa pu at_ lr no].
  simpl in *. repeat split.
  - apply list_lookup_insert_eq. exact Hlt.
  - intros Hin. apply list_elem_of_In, filter_In in Hin. destruct Hin as [_ Hf].
    rewrite list_lookup_insert_eq in Hf by exact Hlt.
    rewrite Alert_eqb_refl in Hf. discriminate.
  - apply lookup_delete_ne. congruence.
  - apply lookup_insert_ne. congruence.
Qed.

Lemma acknowledge_alert_removes_witness :
  objects engine2 !! 0%nat
  = Some (mkAlert POSTURE WARNING "Posture Check" "Poor posture" "Sit up" 1000 false 0)
  /\ active_alerts engine2 = [0%nat; 1%nat]
  /\ active_alerts (state (acknowledge_alert 0%nat (const_clock 1020 5) engine2))
     = [1%nat].
Proof.
  assert (Ho : objects engine2 !! 0%nat
               = Some (mkAlert POSTURE WARNING "Posture Check" "Poor posture"
                               "Sit up" 1000 false 0))
    by (vm_compute; reflexivity).
  split; [exact Ho|]. split; [vm_compute; reflexivity|].
  destruct (acknowledge_alert_removes engine2 0%nat _ (const_clock 1020 5) Ho)
    as (_ & _ & Hact & _).
  rewrite Hact. vm_compute. reflexivity.
Defined.

End EngineAcknowledge.

Section EngineCreate.
Import AlertEngine.

Lemma create_alert_outcome_unpaused ty sev ti me re c s :
  is_paused s = false ->
  suppressed s (state (create_alert ty sev ti me re c s))
             (result (create_alert ty sev ti me re c s))
  \/ created ty sev ti me re s (state (create_alert ty sev ti me re c s))
              (result (create_alert ty sev ti me re c s)).
Proof.
  intros Hp.
  remember (create_alert ty sev ti me re c s) as r eqn:Hr.
  unfold create_alert in Hr. unfold mbind at 1 in Hr. unfold Prog_bind at 1 in Hr.
  rewrite can_send_unpaused in Hr by exact Hp.
  destruct (Qle_bool (cooldown_of ty) (wall (c 0%nat) - last_sent s ty)).
  - right. exists (wall (c 2%nat)), (wall (c 4%nat)).
    destruct s as [ob ac hi la es pe cb pa pu at_ lr no]. simpl in Hp. subst pa.
    unfold _schedule_escalation, _notify_callbacks, when, mbind, Prog_bind, get,
      mret, Prog_ret, time_time, today, modify in Hr. simpl in Hr.
    unfold escalation_count. simpl.
    destruct (day (c 1%nat) =? lr)%Z; simpl in Hr;
      destruct (bool_decide (sev = WARNING) || bool_decide (sev = CRITICAL));
      simpl in Hr; simpl;
      try (destruct (default 0%nat (es !! ty) <? MAX_ESCALATION)%nat; simpl in Hr);
      subst r; simpl; repeat split; reflexivity.
  - left. subst r. split; [reflexivity | left; reflexivity].
Qed.

Lemma create_alert_refused ty sev ti me re c s s' c' :
  can_send_alert ty c s = (false, s', c') ->
  create_alert ty sev ti me re c s = (None, s', c').
Proof.
  intros E. unfold create_alert. unfold mbind at 1. unfold Prog_bind at 1.
  rewrite E. reflexivity.
Qed.

Lemma create_alert_same_check ty sev ti me re c s c' s' :
  can_send_alert ty c s = can_send_alert ty c' s' ->
  create_alert ty sev ti me re c s = create_alert ty sev ti me re c' s'.
Proof.
  intros E. unfold create_alert.
  match goal with
  | |- mbind ?k ?m c s = _ =>
      change (mbind k m c s) with (let '(a, s1, c1) := m c s in k a c1 s1);
      change (mbind k m c' s') with (let '(a, s1, c1) := m c' s' in k a c1 s1)
  end.
  rewrite E. reflexivity.
Qed.

Lemma create_alert_outcome ty sev ti me re c s :
  suppressed s (state (create_alert ty sev ti me re c s))
             (result (create_alert ty sev ti me re c s))
  \/ created ty sev ti me re s (state (create_alert ty sev ti me re c s))
              (result (create_alert ty sev ti me re c s)).
Proof.
  destruct (is_paused s) eqn:Hp; [|apply create_alert_outcome_unpaused; exact Hp].
  assert (Hstay : forall c',
            can_send_alert ty c s = (false, s, c') ->
            suppressed s (state (create_alert ty sev ti me re c s))
                       (result (create_alert ty sev ti me re c s))).
  { intros c' E. rewrite (create_alert_refused _ _ _ _ _ _ _ _ _ E).
    split; [reflexivity | left; reflexivity]. }
  destruct (pause_until s) as [p|] eqn:Hu.
  - destruct (Qeq_bool p 0) eqn:Ez.
    + left. apply (Hstay c).
      unfold can_send_alert, mbind, Prog_bind, get, mret, Prog_ret.
      rewrite Hp, Hu, Ez. reflexivity.
    + assert (Hnz : ~ p == 0).
      { intros H. apply Qeq_bool_iff in H. congruence. }
      destruct (Qlt_le_dec (wall (c 0%nat)) p) as [Hlt|Hle].
      * left. apply (Hstay (later c)).
        apply can_send_paused_running with (p := p); assumption.
      * assert (E : create_alert ty sev ti me re c s
                    = create_alert ty sev ti me re (later c) (with_pause false None s)).
        { apply create_alert_same_check.
          apply can_send_paused_expired with (p := p); assumption. }
        rewrite E.
        destruct (create_alert_outcome_unpaused ty sev ti me re (later c)
                    (with_pause false None s) eq_refl) as [[Hn Hs]|Hc].
        -- left. split; [exact Hn|]. right.
           destruct Hs as [Hs|Hs]; rewrite Hs; destruct s; reflexivity.
        -- right. destruct s; exact Hc.
  - left. apply (Hstay c).
    unfold can_send_alert, mbind, Prog_bind, get, mret, Prog_ret.
    rewrite Hp, Hu. reflexivity.
Qed.

(** X4. [create_alert] is all or nothing, from any engine and at any clock.
    Either it returns [None], and then nothing has changed except that an
    expired pause may have been cleared; or it returns a fresh alert, which
    is then the last element of the active list and of the history (bounded
    to 100), unacknowledged, stamped with the type's escalation count, and
    every registered callback has been called once with it, in registration
    order; an escalation is armed only for a warning or critical alert of a
    type whose count is below 3; the engine is unpaused afterwards. *)
Theorem create_alert_all_or_nothing
    (ty : AlertType) (sev : AlertSeverity) (ti me re : string)
    (c : Clock) (s : AlertSystem) :
  let r := create_alert ty sev ti me re c s in
  (result r = None /\ (state r = s \/ state r = with_pause false None s))
  \/ (exists stamp arm : Q,
        result r = Some (length (objects s))
        /\ objects (state r)
           = objects s ++ [mkAlert ty sev ti me re stamp false
                                   (escalation_count s ty)]
        /\ active_alerts (state r) = active_alerts s ++ [length (objects s)]
        /\ alert_history (state r)
           = deque_append 100 (alert_history s) (length (objects s))
        /\ notified (state r)
           = notified s ++ ((fun cb => (cb, length (objects s)))
                             <$> alert_callbacks s)
        /\ pending_escalations (state r)
           = (if (bool_decide (sev = WARNING) || bool_decide (sev = CRITICAL))
                 && (escalation_count s ty <? MAX_ESCALATION)%nat
              then <[ty := arm + ESCALATION_INTERVAL]> (pending_escalations s)
              else pending_escalations s)
        /\ is_paused (state r) = false).
Proof.
  intros r. subst r.
  destruct (create_alert_outcome ty sev ti me re c s) as [H|H].
  - left. exact H.
  - right. destruct H as (stamp & arm & H1 & H2 & H3 & H4 & H5 & _ & _ & H8 & H9).
    exists stamp, arm. repeat split; assumption.
Qed.

Lemma elem_of_deque_append {A} (n : nat) (l : list A) (x y : A) :
  y ∈ deque_append n l x -> y ∈ l \/ y = x.
Proof.
  unfold deque_append. intros H.
  apply list_elem_of_lookup in H. destruct H as [i H].
  rewrite lookup_drop in H.
  apply list_elem_of_lookup_2 in H. apply elem_of_app in H.
  destruct H as [H|H]; [left; exact H|].
  right. apply list_elem_of_singleton in H. exact H.
Qed.

Lemma engine_wf_pause_irrelevant (s : AlertSystem) (p : bool) (u : option Q) :
  engine_wf s -> engine_wf (with_pause p u s).
Proof. intros H. destruct s. exact H. Qed.

(** X5. A freshly constructed engine is well formed, and every method of
    the engine keeps it so: the history never exceeds 100 entries, the
    active list and the history only refer to alerts of the store, and the
    active list never holds an acknowledged alert (so [get_active_alerts]
    returns the whole active list). *)
Theorem engine_wf_invariant :
  (forall c : Clock, engine_wf (result (init c tt)))
  /\ (forall s s', engine_wf s -> engine_step s s' -> engine_wf s')
  /\ (forall s c, engine_wf s ->
        result (get_active_alerts c s) = active_alerts s).
Proof.
  split; [|split].
  - intros c. unfold engine_wf. simpl. split; [lia|]. split.
    + intros a [H|H]; inversion H.
    + intros a o H. inversion H.
  - intros s s' (Hlen & Href & Hack) Hstep.
    destruct Hstep as [ty sev ti me re c | c | a c | c | d c | c | cb c].
    + destruct (create_alert_outcome ty sev ti me re c s) as [[_ [-> | ->]]|H].
      * repeat split; assumption.
      * apply engine_wf_pause_irrelevant. repeat split; assumption.
      * destruct H as (stamp & arm & _ & Hob & Hac & Hhi & _).
        unfold engine_wf. rewrite Hob, Hac, Hhi, length_app. simpl.
        split; [apply length_deque_append; exact Hlen|]. split.
        -- intros a [H|H].
           ++ apply elem_of_app in H. destruct H as [H|H].
              ** specialize (Href a (or_introl H)). lia.
              ** apply list_elem_of_singleton in H. subst a. lia.
           ++ apply elem_of_deque_append in H. destruct H as [H| ->]; [|lia].
              specialize (Href a (or_intror H)). lia.
        -- intros a o H Ho. apply elem_of_app in H. destruct H as [H|H].
           ++ rewrite lookup_app_l in Ho by (apply Href; left; exact H).
              eapply Hack; eassumption.
           ++ apply list_elem_of_singleton in H. subst a.
              rewrite lookup_app_r in Ho by lia.
              rewrite Nat.sub_diag in Ho. simpl in Ho.
              injection Ho as <-. reflexivity.
    + rewrite check_escalations_eq. destruct s. repeat split; assumption.
    + unfold acknowledge_alert, mbind, Prog_bind, get, modify, state. simpl.
      destruct (objects s !! a) as [o|] eqn:Ho; [|repeat split; assumption].
      destruct s as [ob ac hi la es pe cb pa pu at_ lr no]. simpl in *.
      unfold engine_wf. simpl. rewrite length_insert.
      split; [exact Hlen|]. split.
      * intros b [H|H].
        -- apply list_elem_of_In, filter_In in H. destruct H as [H _].
           apply Href. left. apply list_elem_of_In. exact H.
        -- apply Href. right. exact H.
      * intros b x H Hx. apply list_elem_of_In, filter_In in H.
        destruct H as [H Hf]. rewrite Hx in Hf.
        destruct (decide (b = a)) as [->|Hne].
        -- rewrite list_lookup_insert_eq in Hx
             by (eapply lookup_lt_Some; exact Ho).
           injection Hx as <-. rewrite Alert_eqb_refl in Hf. discriminate.
        -- rewrite list_lookup_insert_ne in Hx by congruence.
           apply (Hack b x); [apply list_elem_of_In; exact H | exact Hx].
    + assert (Hl : forall l h, length (mark_all h l) = length h).
      { induction l as [|x l IH]; intros h; [reflexivity|].
        unfold mark_all in *. simpl. rewrite IH.
        destruct (h !! x); [apply length_insert | reflexivity]. }
      unfold acknowledge_all, mbind, Prog_bind, get, modify, state. simpl.
      destruct s as [ob ac hi la es pe cb pa pu at_ lr no]. simpl in *.
      fold (mark_all ob ac). unfold engine_wf. simpl. rewrite Hl.
      split; [exact Hlen|]. split.
      * intros a [H|H]; [inversion H|]. apply Href. right. exact H.
      * intros a o H. inversion H.
    + destruct s. repeat split; assumption.
    + destruct s. repeat split; assumption.
    + destruct s. repeat split; assumption.
  - intros s c (_ & Href & Hack).
    unfold get_active_alerts, mbind, Prog_bind, get, mret, Prog_ret, result.
    simpl.
    assert (H : forall l, (forall a, a ∈ l -> a ∈ active_alerts s) ->
              List.filter (fun a => match objects s !! a with
                                    | Some o => negb (acknowledged o)
                                    | None => false
                                    end) l = l).
    { induction l as [|a l IH]; intros Hin; simpl; [reflexivity|].
      assert (Ha : a ∈ active_alerts s) by (apply Hin; left).
      destruct (objects s !! a) as [o|] eqn:Ho.
      - rewrite (Hack a o Ha Ho). simpl. f_equal. apply IH.
        intros b Hb. apply Hin. right. exact Hb.
      - apply lookup_ge_None in Ho. specialize (Href a (or_introl Ha)). lia. }
    apply H. auto.
Qed.

End EngineCreate.

(** ** The eye tracker: rate, history and calibration *)

Section EyeExtras.
Import EyeHealthTracker.

(** X6. [get_current_blink_rate] is the number of blinks recorded in the
    trailing 60 seconds, and 0 when there are fewer than two of them: the
    rate is never strictly between 0 and 2, it is at most the length of the
    history, and the call does not change the tracker. *)
Theorem blink_rate_counts_window (s : EyeTracker) (c : Clock) :
  let n := blinks_in_window s (wall (c 0%nat)) in
  let rate := result (get_current_blink_rate c s) in
  rate == (if (n <? 2)%nat then 0 else inject_Z (Z.of_nat n))
  /\ (rate == 0 \/ 2 <= rate)
  /\ rate <= inject_Z (Z.of_nat (length (blink_history s)))
  /\ state (get_current_blink_rate c s) = s.
Proof.
  intros n rate.
  assert (Hn : (n <= length (blink_history s))%nat).
  { unfold n, blinks_in_window. clear. induction (blink_history s) as [|b l IH].
    - simpl. lia.
    - simpl. destruct (Qle_bool _ _); simpl; lia. }
  assert (Hrate : rate == (if (n <? 2)%nat then 0 else inject_Z (Z.of_nat n))).
  { unfold rate, get_current_blink_rate, mbind, Prog_bind, mret, Prog_ret, get,
      time_time, result. simpl. fold (blinks_in_window s (wall (c 0%nat))).
    fold n. destruct (n <? 2)%nat; simpl; [reflexivity|].
    unfold BLINK_HISTORY_WINDOW. field. }
  split; [exact Hrate|]. split; [|split].
  - rewrite Hrate. destruct (n <? 2)%nat eqn:E; [left; reflexivity|].
    right. apply Nat.ltb_ge in E. change 2 with (inject_Z 2).
    rewrite <- Zle_Qle. lia.
  - rewrite Hrate. destruct (n <? 2)%nat.
    + change 0 with (inject_Z 0). rewrite <- Zle_Qle. lia.
    + rewrite <- Zle_Qle. lia.
  - unfold get_current_blink_rate, mbind, Prog_bind, mret, Prog_ret, get,
      time_time, state. simpl.
    destruct (_ <? 2)%nat; reflexivity.
Qed.

Lemma Forall_deque_append {A} (P : A -> Prop) (n : nat) (l : list A) (x : A) :
  Forall P l -> P x -> Forall P (deque_append n l x).
Proof.
  intros Hl Hx. unfold deque_append. apply Forall_drop, Forall_app.
  split; [exact Hl | constructor; [exact Hx | constructor]].
Qed.

Ltac run_eye :=
  unfold update, _complete_calibration, when, mbind, Prog_bind, mret, Prog_ret,
    get, modify, time_time, result, state;
  simpl.

Ltac finish_calibration ic du st now :=
  destruct ic; simpl;
  [destruct (Qle_bool du (now - st)); simpl;
   [match goal with
    | |- context [(5 <=? ?n)%nat] => destruct (5 <=? n)%nat; simpl
    end|]|].

(** How [update] changes the blink history: not at all, or by one blink in
    the band. *)
Lemma update_blink_history (s : EyeTracker) (left_ear right_ear : Q) (c : Clock) :
  let s' := state (update left_ear right_ear c s) in
  (blink_history s' = blink_history s
   \/ exists b, in_band b
                /\ blink_history s' = deque_append 100 (blink_history s) b)
  /\ ear_history s' = deque_append 30 (ear_history s) ((left_ear + right_ear) / 2)
  /\ ((is_eye_closed s = true -> is_Some (eye_close_start_time s)) ->
      is_eye_closed s' = true -> is_Some (eye_close_start_time s')).
Proof.
  destruct s as [bh eh cl cs lb bl cb ic st du].
  set (now := wall (c 0%nat)).
  run_eye. fold now.
  destruct (Qlt_bool ((left_ear + right_ear) / 2) EAR_BLINK_THRESHOLD); simpl.
  - destruct cl; simpl; finish_calibration ic du st now;
      (split; [left; reflexivity|]); (split; [reflexivity|]);
      intros Hinv Hcl; eauto.
  - destruct cl; simpl.
    + destruct (truthy cs) eqn:Ht; simpl.
      * destruct (Qle_bool MIN_BLINK_DURATION (now - or_else cs 0)) eqn:Hlo;
          destruct (Qle_bool (now - or_else cs 0) MAX_BLINK_DURATION) eqn:Hhi;
          simpl; finish_calibration ic du st now;
          (split; [|split; [reflexivity | intros _ Hcl; discriminate]]);
          try (left; reflexivity);
          right; exists (mkBlinkEvent now (now - or_else cs 0));
          (split; [split; apply Qle_bool_iff; assumption | reflexivity]).
      * finish_calibration ic du st now;
          (split; [left; reflexivity|]); (split; [reflexivity|]);
          intros Hinv Hcl; apply Hinv; reflexivity.
    + finish_calibration ic du st now;
        (split; [left; reflexivity|]); (split; [reflexivity|]);
        intros _ Hcl; discriminate.
Qed.

(** X7. For every tracker that construction and [update] produce: each
    blink of the history lasts between 0.05 and 0.5 seconds, the blink
    history holds at most 100 blinks and the EAR history at most 30 values,
    and whenever the eyes count as closed the start of the closure is
    recorded. *)
Theorem reachable_eye_invariants (s : EyeTracker) :
  reachable s ->
  Forall in_band (blink_history s)
  /\ (length (blink_history s) <= 100)%nat
  /\ (length (ear_history s) <= 30)%nat
  /\ (is_eye_closed s = true -> is_Some (eye_close_start_time s)).
Proof.
  induction 1 as [c | s l r c Hs (Hband & Hbl & Hel & Hcl)].
  - simpl. split; [constructor|]. split; [lia|]. split; [lia|]. discriminate.
  - destruct (update_blink_history s l r c) as (Hb & He & Hc).
    split; [|split; [|split]].
    + destruct Hb as [-> | (b & Hin & ->)]; [exact Hband|].
      apply Forall_deque_append; assumption.
    + destruct Hb as [-> | (b & Hin & ->)]; [exact Hbl|].
      apply length_deque_append. exact Hbl.
    + rewrite He. apply length_deque_append. exact Hel.
    + apply Hc. exact Hcl.
Qed.

Lemma reachable_eye_invariants_witness :
  reachable eye_closed
  /\ (length (ear_history eye_closed) <= 30)%nat
  /\ is_Some (eye_close_start_time eye_closed).
Proof.
  assert (Hr : reachable eye_closed) by (apply reachable_update, reachable_init).
  destruct (reachable_eye_invariants eye_closed Hr) as (_ & _ & Hlen & Hcl).
  split; [exact Hr|]. split; [exact Hlen|].
  apply Hcl. vm_compute. reflexivity.
Defined.

(** X8. Calibration happens once.  An [update] of a tracker that is no
    longer calibrating leaves the baseline, the calibration buffer and the
    flag as they are.  An [update] of a calibrating tracker whose clock
    reading is at least the calibration duration after the start ends the
    calibration and empties the buffer; before that the tracker stays in
    calibration and its baseline does not change. *)
Theorem eye_calibration_happens_once
    (s : EyeTracker) (left_ear right_ear : Q) (c : Clock) :
  let s' := state (update left_ear right_ear c s) in
  let elapsed := wall (c 0%nat) - eye_calibration_start_time s in
  (eye_is_calibrating s = false ->
   eye_is_calibrating s' = false
   /\ baseline_blink_rate s' = baseline_blink_rate s
   /\ calibration_blinks s' = calibration_blinks s)
  /\ (eye_is_calibrating s = true -> eye_calibration_duration s <= elapsed ->
      eye_is_calibrating s' = false /\ calibration_blinks s' = [])
  /\ (eye_is_calibrating s = true -> elapsed < eye_calibration_duration s ->
      eye_is_calibrating s' = true
      /\ baseline_blink_rate s' = baseline_blink_rate s).
Proof.
  destruct s as [bh eh cl cs lb bl cb ic st du].
  set (now := wall (c 0%nat)).
  cbn [eye_is_calibrating eye_calibration_start_time eye_calibration_duration
       baseline_blink_rate calibration_blinks].
  split; [|split].
  - intros ->. run_eye. fold now.
    destruct (Qlt_bool ((left_ear + right_ear) / 2) EAR_BLINK_THRESHOLD); simpl.
    + destruct cl; simpl; repeat split.
    + destruct (cl && truthy cs); simpl; [|repeat split].
      destruct (Qle_bool MIN_BLINK_DURATION (now - or_else cs 0)
                && Qle_bool (now - or_else cs 0) MAX_BLINK_DURATION);
        simpl; repeat split.
  - intros -> Hdue. apply Qle_bool_iff in Hdue. fold now in Hdue.
    run_eye. fold now.
    destruct (Qlt_bool ((left_ear + right_ear) / 2) EAR_BLINK_THRESHOLD); simpl.
    + destruct cl; simpl; rewrite Hdue; simpl;
        destruct (5 <=? length cb)%nat; simpl; repeat split.
    + destruct (cl && truthy cs); simpl.
      * destruct (Qle_bool MIN_BLINK_DURATION (now - or_else cs 0)
                  && Qle_bool (now - or_else cs 0) MAX_BLINK_DURATION);
          simpl; rewrite Hdue; simpl;
          match goal with
          | |- context [(5 <=? ?n)%nat] => destruct (5 <=? n)%nat
          end; simpl; repeat split.
      * rewrite Hdue; simpl; destruct (5 <=? length cb)%nat; simpl; repeat split.
  - intros -> Hearly. apply Qle_bool_false in Hearly. fold now in Hearly.
    run_eye. fold now.
    destruct (Qlt_bool ((left_ear + right_ear) / 2) EAR_BLINK_THRESHOLD); simpl.
    + destruct cl; simpl; rewrite Hearly; simpl; repeat split.
    + destruct (cl && truthy cs); simpl.
      * destruct (Qle_bool MIN_BLINK_DURATION (now - or_else cs 0)
                  && Qle_bool (now - or_else cs 0) MAX_BLINK_DURATION);
          simpl; rewrite Hearly; simpl; repeat split.
      * rewrite Hearly; simpl; repeat split.
Qed.

Lemma eye_calibration_happens_once_witness :
  (eye_is_calibrating eye0 = true
   /\ eye_calibration_duration eye0
      <= wall (const_clock 1120 5 0%nat) - eye_calibration_start_time eye0)
  /\ eye_is_calibrating
       (state (update (3 # 10) (3 # 10) (const_clock 1120 5) eye0)) = false.
Proof.
  assert (H1 : eye_is_calibrating eye0 = true) by reflexivity.
  assert (H2 : eye_calibration_duration eye0
               <= wall (const_clock 1120 5 0%nat) - eye_calibration_start_time eye0)
    by (vm_compute; discriminate).
  split; [split; [exact H1 | exact H2]|].
  destruct (eye_calibration_happens_once eye0 (3 # 10) (3 # 10)
              (const_clock 1120 5)) as (_ & Hdone & _).
  destruct (Hdone H1 H2) as [Hflag _]. exact Hflag.
Defined.

(** X9. [get_recommendation] has advice exactly when the status it
    computes is not healthy: [None] for a healthy status, a text for a
    warning or critical one; it does not change the tracker. *)
Theorem eye_recommendation_iff_unhealthy (s : EyeTracker) (c : Clock) :
  (result (get_recommendation c s) = None
   <-> eye_status (result (get_metrics c s)) = HEALTHY)
  /\ state (get_recommendation c s) = s.
Proof.
  assert (Hm : forall c0, state (get_metrics c0 s) = s).
  { intros c0.
    unfold get_metrics, get_health_status, calculate_eye_strain_score,
      get_current_blink_rate, mbind, Prog_bind, mret, Prog_ret, get, time_time,
      state. simpl.
    repeat match goal with
           | |- context [if ?b then _ else _] => destruct b; simpl
           end; reflexivity. }
  unfold get_recommendation. unfold mbind, Prog_bind.
  specialize (Hm c).
  destruct (get_metrics c s) as [[metrics s'] c'] eqn:E.
  unfold state in Hm. simpl in Hm. subst s'.
  unfold result, state. simpl.
  destruct (eye_status metrics); simpl.
  - split; [split; reflexivity | reflexivity].
  - destruct (Qlt_bool (blink_rate metrics) WARNING_BLINK_RATE); simpl;
      (split; [split; discriminate | reflexivity]).
  - destruct (Qlt_bool 20 (time_since_last_blink metrics)); simpl;
      (split; [split; discriminate | reflexivity]).
Qed.

End EyeExtras.

(** ** The posture analyzer: score and timer *)

Section PostureExtras.
Import PostureTracker.

#[local] Opaque Qabs.

Ltac by_cases :=
  repeat match goal with
         | |- context [Qlt_bool ?x ?y] => destruct (Qlt_bool x y)
         end.

(** X10. The posture score lies between 0 and 100, however many penalties
    stack. *)
Theorem posture_score_range (s : PostureAnalyzer) :
  0 <= calculate_posture_score s /\ calculate_posture_score s <= 100.
Proof.
  unfold calculate_posture_score.
  destruct (get_smoothed_values s) as [[[pitch yaw] roll] distance].
  cbv zeta. split.
  - apply Q.le_max_l.
  - apply Q.max_lub; [discriminate|].
    by_cases; vm_compute; discriminate.
Qed.

Lemma should_alert_true_duration (s : PostureAnalyzer) :
  should_alert s = true ->
  BAD_POSTURE_ALERT_THRESHOLD <= current_bad_posture_duration s.
Proof.
  unfold should_alert. intros H. apply andb_true_iff in H.
  destruct H as [H _]. apply Qle_bool_iff. exact H.
Qed.

#[local] Opaque get_status.

Ltac split_status :=
  match goal with
  | |- context [bool_decide (?x = POSTURE_GOOD)] =>
      destruct (bool_decide (x = POSTURE_GOOD))
  end; simpl.

(** How [update] leaves the bad-posture timer: reset, or running from a
    start that is the old one or, when there was none, this tick. *)
Lemma posture_update_timer (s : PostureAnalyzer) (pose : Q * Q * Q)
    (distance : Q) (c : Clock) :
  let s' := state (update pose distance c s) in
  let now := wall (c 0%nat) in
  (bad_posture_start_time s' = None /\ current_bad_posture_duration s' = 0)
  \/ (exists start,
        bad_posture_start_time s' = Some start
        /\ current_bad_posture_duration s' = now - start
        /\ (bad_posture_start_time s = Some start
            \/ (bad_posture_start_time s = None /\ start = now))).
Proof.
  destruct pose as [[pitch yaw] roll].
  unfold update, _complete_calibration, when, mbind, Prog_bind, mret, Prog_ret,
    get, put, modify, time_time, state.
  destruct s as [ph yh rh dh bp by_ bd cd ic st du bs cu to]. simpl.
  assert (Hrun : forall x : Q,
            exists start,
              Some (if bs is Some t then t else x) = Some start
              /\ x - (if bs is Some t then t else x) = x - start
              /\ (bs = Some start \/ (bs = None /\ start = x))).
  { intros x. destruct bs as [t|]; eexists; repeat split; auto. }
  destruct ic; simpl.
  - destruct (Qle_bool du (wall (c 0%nat) - st)); simpl.
    + destruct (10 <=? length (cd ++ [(pitch, yaw, roll, distance)]))%nat; simpl;
        split_status; (left; split; reflexivity) || (right; apply Hrun).
    + split_status; (left; split; reflexivity) || (right; apply Hrun).
  - split_status; (left; split; reflexivity) || (right; apply Hrun).
Qed.

#[local] Transparent get_status.

(** X11. [should_alert] can only be true after an [update] when the bad
    posture started in an earlier tick and has lasted at least 30 seconds:
    the start was already recorded before the call, it is kept, and the
    clock reading of the call is at least 30 seconds after it.  In
    particular the tick on which the posture turns bad never alerts. *)
Theorem should_alert_needs_30s (s : PostureAnalyzer) (pose : Q * Q * Q)
    (distance : Q) (c : Clock) :
  let s' := state (update pose distance c s) in
  should_alert s' = true ->
  exists start,
    bad_posture_start_time s = Some start
    /\ bad_posture_start_time s' = Some start
    /\ current_bad_posture_duration s' = wall (c 0%nat) - start
    /\ BAD_POSTURE_ALERT_THRESHOLD <= wall (c 0%nat) - start.
Proof.
  intros s' Halert.
  apply should_alert_true_duration in Halert.
  destruct (posture_update_timer s pose distance c)
    as [[_ Hzero] | (start & Hs' & Hd & [Hs | [_ Hnow]])].
  - fold s' in Hzero. rewrite Hzero in Halert.
    unfold BAD_POSTURE_ALERT_THRESHOLD in Halert. lra.
  - fold s' in Hs', Hd. exists start. rewrite Hd in Halert. auto.
  - fold s' in Hd. rewrite Hd, Hnow in Halert.
    unfold BAD_POSTURE_ALERT_THRESHOLD in Halert. lra.
Qed.

Lemma should_alert_needs_30s_witness :
  should_alert (state (update (1000, 0, 100) 50 (const_clock 1031 5) posture_bad_10))
  = true
  /\ bad_posture_start_time posture_bad_10 = Some 1001.
Proof.
  assert (H : should_alert
                (state (update (1000, 0, 100) 50 (const_clock 1031 5)
                          posture_bad_10)) = true)
    by (vm_compute; reflexivity).
  split; [exact H|].
  destruct (should_alert_needs_30s posture_bad_10 (1000, 0, 100) 50
              (const_clock 1031 5) H) as (start & Hs & _ & _ & _).
  rewrite Hs. f_equal.
  assert (Hs0 : bad_posture_start_time posture_bad_10 = Some 1001)
    by (vm_compute; reflexivity).
  rewrite Hs0 in Hs. injection Hs as <-. reflexivity.
Defined.

End PostureExtras.

(** ** The screen-time tracker: breaks, days and sessions *)

Section ScreenExtras.
Import ScreenTime.

Ltac run_screen :=
  unfold update, record_break_taken, get_break_recommendation,
    _check_daily_reset, _start_session, _end_session, duration, when, mbind,
    Prog_bind, mret, Prog_ret, get, modify, time_time, today, state, result;
  simpl.

(** X12. [record_break_taken] restarts the timer of the break's tier and of
    every lower tier at the clock reading of the call and leaves the higher
    tiers alone; it logs the break with the continuous work time reached,
    and puts that time back to 0.  As a consequence no micro break is
    recommended in the 20 minutes after any break, and nothing at all is
    recommended in the 20 minutes after a long break. *)
Theorem break_taken_restarts_lower_tiers
    (s : ScreenTimeTracker) (bt : BreakType) (c c2 : Clock) :
  let now := wall (c 0%nat) in
  let s' := state (record_break_taken bt c s) in
  (last_micro_break s' = now
   /\ last_short_break s' = (if bt is MICRO then last_short_break s else now)
   /\ last_long_break s' = (if bt is LONG then now else last_long_break s))
  /\ (continuous_work_time s' = 0
      /\ last (break_compliance_history s')
         = Some (mkBreakRecord bt now (continuous_work_time s)))
  /\ (wall (c2 0%nat) - now < MICRO_BREAK_INTERVAL ->
      recommended_tier c2 s' <> Some MICRO
      /\ (bt = LONG -> result (get_break_recommendation c2 s') = None)).
Proof.
  intros now s'. subst s'.
  destruct s as [cs ses la up cw mi sh lo tot d ip bc].
  split; [|split].
  - destruct bt; run_screen; destruct cs; repeat split.
  - split.
    + destruct bt; run_screen; destruct cs; reflexivity.
    + assert (E : break_compliance_history
                    (state (record_break_taken bt c
                              (mkScreenTimeTracker cs ses la up cw mi sh lo tot d ip bc)))
                  = deque_append 20 bc (mkBreakRecord bt now cw)).
      { destruct bt; run_screen; destruct cs; reflexivity. }
      rewrite E. apply last_deque_append.
  - intros Hsoon.
    assert (Hmicro : Qle_bool MICRO_BREAK_INTERVAL (wall (c2 0%nat) - now) = false)
      by (apply Qle_bool_false; exact Hsoon).
    assert (Hshort : Qle_bool SHORT_BREAK_INTERVAL (wall (c2 0%nat) - now) = false).
    { apply Qle_bool_false. unfold SHORT_BREAK_INTERVAL, MICRO_BREAK_INTERVAL in *.
      lra. }
    assert (Hlong : Qle_bool LONG_BREAK_INTERVAL (wall (c2 0%nat) - now) = false).
    { apply Qle_bool_false. unfold LONG_BREAK_INTERVAL, MICRO_BREAK_INTERVAL in *.
      lra. }
    unfold recommended_tier. fold now in Hmicro, Hshort, Hlong.
    split.
    + destruct bt; run_screen; fold now; destruct cs; simpl;
        repeat match goal with
               | |- context [Qle_bool ?x ?y] =>
                   first [rewrite Hmicro | rewrite Hshort | rewrite Hlong
                         | destruct (Qle_bool x y)]; simpl
               end; discriminate.
    + intros ->. run_screen. fold now. destruct cs; simpl;
        rewrite Hlong, Hshort, Hmicro; reflexivity.
Qed.

Lemma break_taken_restarts_lower_tiers_witness :
  wall (const_clock 9100 5 0%nat) - wall (const_clock 8200 5 0%nat)
  < MICRO_BREAK_INTERVAL
  /\ result (get_break_recommendation (const_clock 9100 5)
               (state (record_break_taken LONG (const_clock 8200 5) tracker0)))
     = None.
Proof.
  assert (H : wall (const_clock 9100 5 0%nat) - wall (const_clock 8200 5 0%nat)
              < MICRO_BREAK_INTERVAL) by (vm_compute; reflexivity).
  split; [exact H|].
  destruct (break_taken_restarts_lower_tiers tracker0 LONG (const_clock 8200 5)
              (const_clock 9100 5)) as (_ & _ & Hrec).
  destruct (Hrec H) as [_ Hnone]. apply Hnone. reflexivity.
Defined.

(** X13. An absent tick read on the tracker's day and less than 30 seconds
    after the last activity changes nothing: the session stays open and the
    user still counts as present. *)
Theorem short_absence_changes_nothing (s : ScreenTimeTracker) (c : Clock) :
  day (c 1%nat) = screen_last_reset_date s ->
  wall (c 0%nat) - last_activity_time s < IDLE_THRESHOLD ->
  state (update false c s) = s.
Proof.
  intros Hday Hidle. apply Qle_bool_false in Hidle.
  destruct s as [cs ses la up cw mi sh lo tot d ip bc]. simpl in *. subst d.
  run_screen. rewrite Z.eqb_refl. simpl. rewrite Hidle. reflexivity.
Qed.

Lemma short_absence_changes_nothing_witness :
  let s := state (update true (const_clock 1001 5) tracker0) in
  (day (const_clock 1030 5 1%nat) = screen_last_reset_date s
   /\ wall (const_clock 1030 5 0%nat) - last_activity_time s < IDLE_THRESHOLD)
  /\ is_Some (current_session (state (update false (const_clock 1030 5) s))).
Proof.
  intros s.
  assert (H1 : day (const_clock 1030 5 1%nat) = screen_last_reset_date s)
    by (vm_compute; reflexivity).
  assert (H2 : wall (const_clock 1030 5 0%nat) - last_activity_time s
               < IDLE_THRESHOLD) by (vm_compute; reflexivity).
  split; [split; [exact H1 | exact H2]|].
  rewrite (short_absence_changes_nothing s (const_clock 1030 5) H1 H2).
  vm_compute. eauto.
Defined.

(** X14. The day changes.  An [update] whose date reading differs from the
    tracker's reset date moves the reset date to the new day and forgets the
    sessions and the total of the day before: afterwards today's list holds
    at most the session this very call has closed.  For a present tick of a
    present user the list is empty, the total is 0 and the open session goes
    on. *)
Theorem daily_rollover_forgets_yesterday
    (s : ScreenTimeTracker) (face : bool) (c : Clock) :
  day (c 1%nat) <> screen_last_reset_date s ->
  let s' := state (update face c s) in
  screen_last_reset_date s' = day (c 1%nat)
  /\ (length (sessions_today s') <= 1)%nat
  /\ (forall w, w ∈ sessions_today s' ->
        exists o, current_session s = Some o /\ start_time w = start_time o)
  /\ (face = true -> is_user_present s = true ->
      sessions_today s' = [] /\ total_screen_time_today s' = 0
      /\ current_session s' = current_session s).
Proof.
  intros Hday s'. subst s'.
  apply Z.eqb_neq in Hday.
  destruct s as [cs ses la up cw mi sh lo tot d ip bc]. simpl in *.
  destruct face.
  - destruct up, cs as [w|]; run_screen; rewrite Hday; simpl;
      try (destruct (Qeq_bool (wall (c 2%nat)) 0); simpl);
      (split; [reflexivity|]); (split; [simpl; lia|]);
      (split; [|intros _ Hp; try discriminate; repeat split]);
      intros x Hx; try (inversion Hx; fail);
      apply list_elem_of_singleton in Hx; subst x; eexists; split; reflexivity.
  - run_screen. rewrite Hday. simpl.
    destruct (Qle_bool IDLE_THRESHOLD (wall (c 0%nat) - la)); simpl.
    + destruct up, cs as [w|]; simpl;
        try (destruct (Qeq_bool (wall (c 2%nat)) 0); simpl);
        (split; [reflexivity|]); (split; [simpl; lia|]);
        (split; [|intros Hf; discriminate]);
        intros x Hx; try (inversion Hx; fail);
        apply list_elem_of_singleton in Hx; subst x; eexists; split; reflexivity.
    + (split; [reflexivity|]); (split; [simpl; lia|]);
        (split; [|intros Hf; discriminate]).
      intros x Hx. inversion Hx.
Qed.

Lemma daily_rollover_forgets_yesterday_witness :
  let s := after_presence_run (const_clock 0 0) 0 0 in
  day (const_clock 90000 1 1%nat) <> screen_last_reset_date s
  /\ sessions_today s <> []
  /\ sessions_today (state (update true (const_clock 90000 1) s)) = [].
Proof.
  intros s.
  assert (H : day (const_clock 90000 1 1%nat) <> screen_last_reset_date s).
  { unfold s. rewrite after_presence_run_eq. simpl. discriminate. }
  split; [exact H|]. split.
  - unfold s. rewrite after_presence_run_eq. discriminate.
  - destruct (daily_rollover_forgets_yesterday s true (const_clock 90000 1) H)
      as (_ & Hlen & Hin & _).
    destruct (sessions_today (state (update true (const_clock 90000 1) s)))
      as [|w l] eqn:E; [reflexivity|].
    destruct (Hin w) as (o & Ho & _); [left|].
    unfold s in Ho. rewrite after_presence_run_eq in Ho. discriminate.
Defined.

Lemma update_keeps_sessions_consistent (s : ScreenTimeTracker) (face : bool)
    (c : Clock) :
  sessions_consistent s -> sessions_consistent (state (update face c s)).
Proof.
  destruct s as [cs ses la up cw mi sh lo tot d ip bc].
  intros (Hup & Hopen & Hclosed & Hip & Hbc). simpl in *.
  assert (Hnew : Forall (fun w => is_Some (end_time w)) ([] : list WorkSession))
    by constructor.
  assert (Happ : forall l (w : WorkSession) t,
            Forall (fun w => is_Some (end_time w)) l ->
            Forall (fun w => is_Some (end_time w))
                   (l ++ [mkWorkSession (start_time w) (Some t) (breaks_taken w)])).
  { intros l w t Hl. apply Forall_app. split; [exact Hl|].
    constructor; [simpl; eauto | constructor]. }
  unfold sessions_consistent.
  destruct cs as [w|]; simpl in Hup; subst up;
    run_screen; destruct (day (c 1%nat) =? d)%Z; simpl; destruct face; simpl;
    try destruct (Qle_bool IDLE_THRESHOLD (wall (c 0%nat) - la)); simpl;
    try destruct (Qeq_bool (wall (c 2%nat)) 0); simpl;
    repeat split; auto;
    try (intros x Hx; injection Hx as <-; auto; fail);
    try (intros x Hx; discriminate);
    try (apply length_deque_append; assumption).
Qed.

Lemma break_keeps_sessions_consistent (s : ScreenTimeTracker) (bt : BreakType)
    (c : Clock) :
  sessions_consistent s -> sessions_consistent (state (record_break_taken bt c s)).
Proof.
  destruct s as [cs ses la up cw mi sh lo tot d ip bc].
  intros (Hup & Hopen & Hclosed & Hip & Hbc). simpl in *.
  unfold sessions_consistent.
  destruct bt, cs as [w|]; run_screen; repeat split; auto;
    try (intros x Hx; injection Hx as <-; simpl; apply Hopen; reflexivity);
    try (intros x Hx; discriminate);
    try (apply length_deque_append; assumption).
Qed.

(** X15. For every tracker that construction, [update] and
    [record_break_taken] produce: a session is open exactly when the user
    counts as present; the open session has no end time and every session
    of today's list has one; the idle log holds at most 50 entries and the
    break log at most 20. *)
Theorem reachable_sessions_consistent (s : ScreenTimeTracker) :
  tracker_reachable s -> sessions_consistent s.
Proof.
  induction 1 as [c | s face c Hs IH | s bt c Hs IH].
  - unfold sessions_consistent. simpl.
    split; [reflexivity|]. split; [discriminate|]. split; [constructor|].
    split; lia.
  - apply update_keeps_sessions_consistent. exact IH.
  - apply break_keeps_sessions_consistent. exact IH.
Qed.

Lemma reachable_sessions_consistent_witness :
  let s := state (update true (const_clock 1001 5) tracker0) in
  tracker_reachable s /\ is_user_present s = true /\ is_Some (current_session s).
Proof.
  intros s.
  assert (Hr : tracker_reachable s) by (apply tracker_update, tracker_init).
  destruct (reachable_sessions_consistent s Hr) as (Hup & _).
  assert (Hp : is_user_present s = true) by (vm_compute; reflexivity).
  split; [exact Hr|]. split; [exact Hp|].
  rewrite Hp in Hup. symmetry in Hup. apply bool_decide_eq_true in Hup.
  exact Hup.
Defined.

Lemma for_each_duration_minutes_state (l : list WorkSession) (c : Clock)
    (s : ScreenTimeTracker) :
  state (for_each (duration_minutes (St := ScreenTimeTracker)) l c s) = s.
Proof.
  revert c. induction l as [|w l IH]; intros c; [reflexivity|].
  simpl. unfold mbind, Prog_bind.
  destruct (duration_minutes w c s) as [[y s1] c1] eqn:E1.
  assert (s1 = s).
  { unfold duration_minutes, duration, mbind, Prog_bind, mret, Prog_ret,
      time_time in E1.
    destruct (truthy (end_time w)); simpl in E1; congruence. }
  subst s1. specialize (IH c1).
  destruct (for_each duration_minutes l c1 s) as [[ys s2] c2].
  unfold state in *. simpl in *. exact IH.
Qed.

Lemma get_statistics_state (s : ScreenTimeTracker) (c : Clock) :
  state (get_statistics c s) = s.
Proof.
  unfold get_statistics. unfold mbind, Prog_bind, get.
  destruct ((if current_session s is Some w then duration w else mret 0) c s)
    as [[cur s1] c1] eqn:E1.
  assert (s1 = s).
  { destruct (current_session s) as [w|]; [|injection E1; auto].
    unfold duration, mbind, Prog_bind, mret, Prog_ret, time_time in E1.
    destruct (truthy (end_time w)); simpl in E1; congruence. }
  subst s1.
  pose proof (for_each_duration_minutes_state (sessions_today s) c1 s) as Hf.
  destruct (for_each duration_minutes (sessions_today s) c1 s)
    as [[ds s2] c2]. unfold state in Hf. simpl in Hf. subst s2.
  destruct (current_session s) as [w|]; simpl.
  - unfold duration_minutes, duration, mbind, Prog_bind, mret, Prog_ret,
      time_time, state.
    destruct (truthy (end_time w)); reflexivity.
  - reflexivity.
Qed.

(** X16. [get_statistics] does not change the tracker; the count of
    sessions is today's closed sessions plus the open one; and, read at one
    and the same clock time, the statistics and the recommendation agree: a
    long break is recommended exactly when the time left until the long
    break is 0, and nothing is recommended exactly when time is left on
    all three timers. *)
Theorem statistics_agree_with_recommendation
    (s : ScreenTimeTracker) (c : Clock) (t : Q) (d : Z) :
  let stats := result (get_statistics (const_clock t d) s) in
  state (get_statistics c s) = s
  /\ sessions_count stats
     = (length (sessions_today s)
        + (if current_session s is Some _ then 1 else 0))%nat
  /\ (recommended_tier (const_clock t d) s = Some LONG
      <-> time_until_long_break stats == 0)
  /\ (result (get_break_recommendation (const_clock t d) s) = None
      <-> 0 < time_until_long_break stats
          /\ 0 < time_until_short_break stats
          /\ 0 < time_until_micro_break stats).
Proof.
  intros stats.
  assert (Hstate : forall c0, state (get_statistics c0 s) = s)
    by (intros c0; apply get_statistics_state).
  assert (Hstats :
    sessions_count stats
    = (length (sessions_today s)
       + (if current_session s is Some _ then 1 else 0))%nat
    /\ time_until_long_break stats
       = Qmax 0 (LONG_BREAK_INTERVAL - (t - last_long_break s))
    /\ time_until_short_break stats
       = Qmax 0 (SHORT_BREAK_INTERVAL - (t - last_short_break s))
    /\ time_until_micro_break stats
       = Qmax 0 (MICRO_BREAK_INTERVAL - (t - last_micro_break s))).
  { subst stats. unfold get_statistics. unfold mbind, Prog_bind, get.
    destruct ((if current_session s is Some w then duration w else mret 0)
                (const_clock t d) s) as [[cur s1] c1] eqn:E1.
    assert (s1 = s /\ forall n, c1 n = mkReading t d).
    { destruct (current_session s) as [w|];
        [|injection E1 as _ <- <-; split; reflexivity].
      unfold duration, mbind, Prog_bind, mret, Prog_ret, time_time in E1.
      destruct (truthy (end_time w)); simpl in E1;
        injection E1 as _ <- <-; split; reflexivity. }
    destruct H as [-> Hc1]. clear E1.
    assert (Hfor : forall l c0, (forall n, c0 n = mkReading t d) ->
              forall n, (for_each (duration_minutes (St := ScreenTimeTracker))
                           l c0 s).2 n = mkReading t d).
    { induction l as [|w l IH]; intros c0 Hc0 n; [apply Hc0|].
      simpl. unfold mbind, Prog_bind.
      destruct (duration_minutes w c0 s) as [[y s1] c2] eqn:E.
      assert (s1 = s /\ forall n, c2 n = mkReading t d).
      { unfold duration_minutes, duration, mbind, Prog_bind, mret, Prog_ret,
          time_time in E.
        destruct (truthy (end_time w)); simpl in E;
          injection E as _ <- <-; split; auto. }
      destruct H as [-> Hc2]. specialize (IH c2 Hc2 n).
      pose proof (for_each_duration_minutes_state l c2 s) as Hst.
      destruct (for_each duration_minutes l c2 s) as [[ys s3] c3].
      simpl in *. exact IH. }
    pose proof (Hfor (sessions_today s) c1 Hc1) as Hc.
    pose proof (for_each_duration_minutes_state (sessions_today s) c1 s) as Hf.
    destruct (for_each duration_minutes (sessions_today s) c1 s)
      as [[ds s2] c2]. unfold state in Hf. simpl in Hf, Hc. subst s2.
    destruct (current_session s) as [w|]; simpl;
      unfold duration_minutes, duration, mbind, Prog_bind, mret, Prog_ret,
        time_time, result; simpl;
      try destruct (truthy (end_time w)); simpl;
      rewrite ?Hc; simpl; repeat split. }
  destruct Hstats as (Hcount & Hlong & Hshort & Hmicro).
  split; [apply Hstate|]. split; [exact Hcount|].
  rewrite Hlong, Hshort, Hmicro.
  unfold recommended_tier, get_break_recommendation, mbind, Prog_bind, mret,
    Prog_ret, get, time_time, result. simpl.
  set (dl := t - last_long_break s). set (dsh := t - last_short_break s).
  set (dm := t - last_micro_break s).
  assert (Hmax0 : forall x, Qmax 0 x == 0 <-> x <= 0).
  { intros x. split; intros H.
    - rewrite <- H. apply Q.le_max_r.
    - apply Q.max_l. exact H. }
  assert (Hmaxp : forall x, 0 < Qmax 0 x <-> 0 < x).
  { intros x. split; intros H.
    - destruct (Qlt_le_dec 0 x) as [Hx|Hx]; [exact Hx|].
      apply Q.max_l in Hx. rewrite Hx in H. lra.
    - eapply Qlt_le_trans; [exact H | apply Q.le_max_r]. }
  rewrite Hmax0, !Hmaxp.
  destruct (Qle_bool LONG_BREAK_INTERVAL dl) eqn:El;
    [apply Qle_bool_iff in El | apply Qle_bool_false in El];
    [|destruct (Qle_bool SHORT_BREAK_INTERVAL dsh) eqn:Es;
      [apply Qle_bool_iff in Es | apply Qle_bool_false in Es];
      [|destruct (Qle_bool MICRO_BREAK_INTERVAL dm) eqn:Em;
        [apply Qle_bool_iff in Em | apply Qle_bool_false in Em]]];
    simpl; split; split; intros H;
    try reflexivity; try discriminate; try lra;
    try (destruct H as (? & ? & ?); lra);
    try (repeat split; lra).
Qed.

(** X17. [get_daily_summary] does not change the tracker, its compliance
    rate is a percentage between 0 and 100 (0 when no break has been
    recorded), and it gives at most three recommendations. *)
Theorem daily_summary_compliance_is_percentage (s : ScreenTimeTracker) (c : Clock) :
  let summary := result (get_daily_summary c s) in
  state (get_daily_summary c s) = s
  /\ 0 <= break_compliance_rate summary
  /\ break_compliance_rate summary <= 100
  /\ (break_compliance_history s = [] -> break_compliance_rate summary = 0)
  /\ (length (recommendations summary) <= 3)%nat.
Proof.
  intros summary. subst summary.
  unfold get_daily_summary. unfold mbind, Prog_bind, get, today, mret, Prog_ret.
  pose proof (get_statistics_state s c) as Hst.
  destruct (get_statistics c s) as [[stats s1] c1].
  unfold state in Hst. simpl in Hst. subst s1.
  unfold result, state. simpl.
  split; [reflexivity|].
  assert (Hrec : (length (_generate_daily_recommendations stats) <= 3)%nat).
  { unfold _generate_daily_recommendations.
    repeat match goal with
           | |- context [Qlt_bool ?x ?y] => destruct (Qlt_bool x y)
           end; simpl; lia. }
  destruct (break_compliance_history s) as [|b l] eqn:Eh.
  - repeat split; try reflexivity; try discriminate. exact Hrec.
  - set (h := b :: l).
    set (on_time := length (List.filter
                              (fun b0 => Qlt_bool (work_duration b0)
                                           (SHORT_BREAK_INTERVAL * (12 # 10))) h)).
    assert (Hle : (on_time <= length h)%nat).
    { unfold on_time. clear. induction h as [|x h IH]; simpl; [lia|].
      destruct (Qlt_bool _ _); simpl; lia. }
    assert (Hpos : 0 < inject_Z (Z.of_nat (length h))).
    { change 0 with (inject_Z 0). rewrite <- Zlt_Qlt. simpl. lia. }
    assert (Hon : 0 <= inject_Z (Z.of_nat on_time)).
    { change 0 with (inject_Z 0). rewrite <- Zle_Qle. lia. }
    assert (Hq : inject_Z (Z.of_nat on_time) <= inject_Z (Z.of_nat (length h))).
    { rewrite <- Zle_Qle. lia. }
    assert (Hfrac0 : 0 <= inject_Z (Z.of_nat on_time) / inject_Z (Z.of_nat (length h))).
    { apply Qle_shift_div_l; [exact Hpos|]. lra. }
    assert (Hfrac1 : inject_Z (Z.of_nat on_time) / inject_Z (Z.of_nat (length h)) <= 1).
    { apply Qle_shift_div_r; [exact Hpos|]. lra. }
    repeat split; try exact Hrec; try discriminate; fold h; fold on_time; lra.
Qed.

End ScreenExtras.

(** ** The monitor: scores, ticks and commands *)

Section MonitorExtras.
Import HealthAggregator.

(** X18. The overall score lies between 0 and 100; for an eye-strain score
    and a posture score that lie in that range (as the two trackers compute
    them) the clamp does nothing and the overall score is the mean of the
    posture score and of 100 minus the strain score.  The status is
    needs-attention exactly below 50 and excellent exactly from 85 on. *)
Theorem overall_score_is_mean (e : EyeHealthMetrics) (p : PostureMetrics) :
  (0 <= _calculate_overall_score e p /\ _calculate_overall_score e p <= 100)
  /\ (0 <= eye_strain_score e <= 100 -> 0 <= posture_score p <= 100 ->
      _calculate_overall_score e p
      == ((100 - eye_strain_score e) + posture_score p) / 2)
  /\ (forall score : Q,
        (_determine_overall_status score = NEEDS_ATTENTION <-> score < 50)
        /\ (_determine_overall_status score = EXCELLENT <-> 85 <= score)).
Proof.
  unfold _calculate_overall_score. cbv zeta.
  set (overall := (100 - eye_strain_score e) * (1 # 2) + posture_score p * (1 # 2)).
  split; [|split].
  - split; [apply Q.le_max_l|].
    apply Q.max_lub; [discriminate | apply Q.le_min_l].
  - intros He Hp.
    assert (H0 : 0 <= overall) by (unfold overall; lra).
    assert (H1 : overall <= 100) by (unfold overall; lra).
    rewrite (Q.min_r 100 overall) by exact H1.
    rewrite (Q.max_r 0 overall) by exact H0.
    unfold overall. field.
  - intros score. unfold _determine_overall_status.
    destruct (Qle_bool 85 score) eqn:E85;
      [apply Qle_bool_iff in E85 | apply Qle_bool_false in E85];
      [|destruct (Qle_bool 70 score) eqn:E70;
        [apply Qle_bool_iff in E70 | apply Qle_bool_false in E70];
        [|destruct (Qle_bool 50 score) eqn:E50;
          [apply Qle_bool_iff in E50 | apply Qle_bool_false in E50]]];
      split; split; intros H; try reflexivity; try discriminate; lra.
Qed.

Lemma overall_score_is_mean_witness :
  let e := mkEyeHealthMetrics 15 (1 # 5) 40 EYE_WARNING 3 (3 # 10) in
  let p := mkPostureMetrics 0 0 0 50 80 POSTURE_GOOD [] 0 in
  (0 <= eye_strain_score e <= 100 /\ 0 <= posture_score p <= 100)
  /\ _calculate_overall_score e p == 70.
Proof.
  intros e p.
  assert (He : 0 <= eye_strain_score e <= 100) by (split; vm_compute; discriminate).
  assert (Hp : 0 <= posture_score p <= 100) by (split; vm_compute; discriminate).
  split; [split; [exact He | exact Hp]|].
  destruct (overall_score_is_mean e p) as (_ & Hmean & _).
  rewrite (Hmean He Hp). vm_compute. reflexivity.
Defined.

(** X19. A monitor that is not running, or that gets no frame, returns no
    snapshot, reads no clock and changes nothing; in particular a monitor
    that was constructed and never started returns [None] on every tick, and
    a failed [start] leaves it that way. *)
Theorem no_snapshot_without_frame (m : HealthMonitor) (cap : Capture) (c : Clock) :
  (is_running m = false \/ capture_frame cap = None ->
   process_frame cap c m = (None, m, c))
  /\ (forall c0 : Clock,
        process_frame cap c (result (init c0 tt))
        = (None, result (init c0 tt), c))
  /\ start false c m = (false, m, c)
  /\ is_running (state (start true c m)) = true.
Proof.
  split; [|split; [|split]].
  - apply process_frame_idle.
  - intros c0. apply process_frame_idle. left. reflexivity.
  - reflexivity.
  - destruct m. reflexivity.
Qed.

Lemma no_snapshot_without_frame_witness :
  capture_frame (mkCapture None (Some face0)) = None
  /\ result (process_frame (mkCapture None (Some face0)) (const_clock 1001 5)
               monitor0) = None.
Proof.
  assert (H : capture_frame (mkCapture None (Some face0)) = None) by reflexivity.
  split; [exact H|].
  destruct (no_snapshot_without_frame monitor0 (mkCapture None (Some face0))
              (const_clock 1001 5)) as [Hidle _].
  rewrite (Hidle (or_intror H)). reflexivity.
Defined.

#[local] Opaque ScreenTime.update ScreenTime.get_statistics.

(** X20. On a tick of a running monitor with a frame and no face, only the
    screen-time tracker moves, and it moves by one [update(False)]; the
    snapshot is the neutral one: score 100, status good, no eye or posture
    metrics, user absent, the statistics of the updated tracker and the
    unacknowledged active alerts. *)
Theorem absent_tick_updates_only_screen_time
    (m : HealthMonitor) (c : Clock) (frame : Frame) :
  is_running m = true ->
  let r := process_frame (mkCapture (Some frame) None) c m in
  let u := ScreenTime.update false c (screen_time_tracker m) in
  state r
  = with_screen_time_tracker (state u)
      (with_last_landmarks None (with_last_frame (Some frame) m))
  /\ result r
     = Some (mkHealthState OVERALL_GOOD 100 None None
               (result (ScreenTime.get_statistics u.2 (state u)))
               (AlertObjects
                  (result (AlertEngine.get_active_alerts c (alert_system m))))
               false false).
Proof.
  intros Hrun r u. subst r u.
  unfold process_frame, on_screen, on_alerts, zoom, AlertEngine.get_active_alerts,
    mbind, Prog_bind, mret, Prog_ret, get, modify, result, state.
  rewrite Hrun. cbn [negb capture_frame capture_landmarks].
  destruct m as [e p a t run lf ll fc ac cl]. simpl.
  destruct (ScreenTime.update _ c t) as [[x t'] c'] eqn:Eu. simpl.
  pose proof (get_statistics_state t' c') as Hst.
  destruct (ScreenTime.get_statistics c' t') as [[stats t''] c''].
  unfold state in Hst. simpl in Hst. subst t''. simpl.
  split; reflexivity.
Qed.

#[local] Transparent ScreenTime.update ScreenTime.get_statistics.

Lemma absent_tick_updates_only_screen_time_witness :
  is_running monitor1 = true
  /\ alert_system
       (state (process_frame (mkCapture (Some frame0) None) (const_clock 1100 5)
                 monitor1))
     = engine1.
Proof.
  split; [exact monitor1_running|].
  destruct (absent_tick_updates_only_screen_time monitor1 (const_clock 1100 5)
              frame0 monitor1_running) as [Hstate _].
  rewrite Hstate. reflexivity.
Defined.

Lemma acknowledge_alert_by_index_eq (m : HealthMonitor) (alert_index : Z)
    (c : Clock) :
  acknowledge_alert alert_index c m
  = (let alerts := result (AlertEngine.get_active_alerts c (alert_system m)) in
     if (0 <=? alert_index)%Z && (alert_index <? Z.of_nat (length alerts))%Z
     then match alerts !! Z.to_nat alert_index with
          | Some a => on_alerts (AlertEngine.acknowledge_alert a)
          | None => mret tt
          end
     else mret tt) c m.
Proof.
  cbv zeta.
  set (alerts := result (AlertEngine.get_active_alerts c (alert_system m))).
  assert (Hget : AlertEngine.get_active_alerts c (alert_system m)
                 = (alerts, alert_system m, c)) by reflexivity.
  assert (Hm : with_alert_system (alert_system m) m = m) by (destruct m; reflexivity).
  unfold acknowledge_alert. unfold mbind at 1. unfold Prog_bind at 1.
  unfold on_alerts at 1. unfold zoom at 1.
  rewrite Hget. cbv beta iota. rewrite Hm. reflexivity.
Qed.

(** X21. [HealthMonitor.acknowledge_alert] takes an index into the list of
    unacknowledged active alerts: an index below 0 or past the end of that
    list changes nothing, and a valid index acknowledges exactly the alert
    at that place, as the engine's [acknowledge_alert] does. *)
Theorem acknowledge_by_index (m : HealthMonitor) (alert_index : Z) (c : Clock) :
  let alerts := result (AlertEngine.get_active_alerts c (alert_system m)) in
  ((alert_index < 0)%Z \/ (Z.of_nat (length alerts) <= alert_index)%Z ->
   state (acknowledge_alert alert_index c m) = m)
  /\ (forall a,
        (0 <= alert_index)%Z -> alerts !! Z.to_nat alert_index = Some a ->
        state (acknowledge_alert alert_index c m)
        = with_alert_system
            (state (AlertEngine.acknowledge_alert a c (alert_system m))) m).
Proof.
  intros alerts. rewrite acknowledge_alert_by_index_eq. cbv zeta. fold alerts.
  split.
  - intros Hout.
    destruct ((0 <=? alert_index)%Z && (alert_index <? Z.of_nat (length alerts))%Z)
      eqn:E; [|reflexivity].
    apply andb_true_iff in E. destruct E as [E1 E2].
    apply Z.leb_le in E1. apply Z.ltb_lt in E2. lia.
  - intros a H0 Ha.
    assert (Hlt : (alert_index < Z.of_nat (length alerts))%Z).
    { apply lookup_lt_Some in Ha. lia. }
    apply Z.leb_le in H0. apply Z.ltb_lt in Hlt. rewrite H0, Hlt. simpl.
    rewrite Ha. unfold on_alerts, zoom, state.
    destruct (AlertEngine.acknowledge_alert a c (alert_system m)) as [[x s'] c'].
    reflexivity.
Qed.

Lemma acknowledge_by_index_witness :
  let m := with_alert_system engine2 monitor0 in
  ((5 < 0)%Z \/ (Z.of_nat (length (result (AlertEngine.get_active_alerts
                                             (const_clock 1020 5)
                                             (alert_system m)))) <= 5)%Z)
  /\ state (acknowledge_alert 5 (const_clock 1020 5) m) = m.
Proof.
  intros m.
  assert (H : (5 < 0)%Z \/ (Z.of_nat (length (result (AlertEngine.get_active_alerts
                                             (const_clock 1020 5)
                                             (alert_system m)))) <= 5)%Z)
    by (right; vm_compute; discriminate).
  split; [exact H|].
  destruct (acknowledge_by_index m 5 (const_clock 1020 5)) as [Hout _].
  exact (Hout H).
Defined.

End MonitorExtras.

(** ** The alert engine: the summary *)

Section EngineSummary.
Import AlertEngine.

(** X22. [get_alert_summary] changes nothing.  It reports today's counter,
    the number of unacknowledged active alerts, for every alert type the
    number of alerts of that type in the history, and a remaining pause time
    that is never negative and is 0 when the engine is not paused. *)
Theorem alert_summary_reads_only (s : AlertSystem) (c : Clock) :
  let summary := result (get_alert_summary c s) in
  state (get_alert_summary c s) = s
  /\ total_today summary = alerts_today s
  /\ active_count summary = length (result (get_active_alerts c s))
  /\ (forall ty, by_type summary !! ty = Some (history_of_type s ty))
  /\ 0 <= pause_remaining summary
  /\ (is_paused s = false -> pause_remaining summary = 0).
Proof.
  intros summary. subst summary.
  unfold get_alert_summary, get_active_alerts, mbind, Prog_bind, mret, Prog_ret,
    get, time_time, result, state.
  destruct (is_paused s) eqn:Hp; simpl.
  - repeat split.
    + intros ty. destruct ty; reflexivity.
    + apply Q.le_max_l.
    + discriminate.
  - repeat split.
    + intros ty. destruct ty; reflexivity.
    + discriminate.
Qed.

End EngineSummary.

(** ** The alert engine: the escalation cap *)

Section EngineCap.
Import AlertEngine.

Lemma rounds_pending_subset s now l acc k v :
  (foldl (escalation_round s now) acc l).2 !! k = Some v ->
  acc.2 !! k = Some v.
Proof.
  revert acc. induction l as [|[ty et] l IH]; intros acc H; simpl in H.
  - exact H.
  - apply IH in H. destruct (Qle_bool et now); simpl in H; [|exact H].
    apply lookup_delete_Some in H. destruct H as [_ H]. exact H.
Qed.

Lemma check_escalations_pending_subset c s ty v :
  pending_escalations (state (check_escalations c s)) !! ty = Some v ->
  pending_escalations s !! ty = Some v
  /\ escalates_type s (wall (c 0%nat)) ty = false.
Proof.
  intros H. rewrite check_escalations_eq in H.
  assert (H' : (foldl (escalation_round s (wall (c 0%nat)))
                  ([], pending_escalations s)
                  (map_to_list (pending_escalations s))).2 !! ty = Some v).
  { destruct s. exact H. }
  pose proof (rounds_pending_subset _ _ _ _ _ _ H') as Hp. simpl in Hp.
  split; [exact Hp|].
  unfold escalates_type. rewrite Hp.
  destruct (escalates s (wall (c 0%nat)) (ty, v)) eqn:E; [|reflexivity].
  apply escalates_iff in E. destruct E as [Hdue _].
  rewrite (rounds_pending_due s (wall (c 0%nat)) _ _ ty v) in H'.
  - discriminate.
  - apply elem_of_map_to_list. exact Hp.
  - apply Qle_bool_iff. exact Hdue.
Qed.

(** X23. The escalation cap holds.  On a fresh engine, and after every
    method of the engine, no type's escalation count exceeds 3 and a type
    has an armed escalation only while its count is below 3; so the
    escalation level stamped on a new alert is at most 3. *)
Theorem escalation_count_capped :
  (forall c : Clock, escalation_capped (result (init c tt)))
  /\ (forall s s', escalation_capped s -> engine_step s s' -> escalation_capped s')
  /\ MAX_ESCALATION = 3%nat.
Proof.
  split; [|split; [|reflexivity]].
  - intros c ty. split.
    + destruct ty; vm_compute; lia.
    + intros [v Hv]. simpl in Hv. rewrite lookup_empty in Hv. discriminate.
  - intros s s' Hcap Hstep ty. specialize (Hcap ty). destruct Hcap as [Hle Harm].
    destruct Hstep as [ty0 sev ti me re c | c | a c | c | d c | c | cb c].
    + destruct (create_alert_outcome ty0 sev ti me re c s) as [[_ [-> | ->]]|H].
      * split; assumption.
      * destruct s; split; assumption.
      * destruct H as (stamp & arm & _ & _ & _ & _ & _ & _ & Hes & Hpe & _).
        unfold escalation_count in *. rewrite Hes, Hpe.
        split; [exact Hle|].
        destruct ((bool_decide (sev = WARNING) || bool_decide (sev = CRITICAL))
                  && (default 0%nat (escalation_counts s !! ty0) <? MAX_ESCALATION)%nat)
          eqn:E; [|exact Harm].
        apply andb_true_iff in E. destruct E as [_ E]. apply Nat.ltb_lt in E.
        destruct (decide (ty0 = ty)) as [->|Hne].
        -- intros _. exact E.
        -- rewrite lookup_insert_ne by exact Hne. exact Harm.
    + pose proof (check_escalations_count c s ty) as Hcount.
      split.
      * unfold escalation_count at 1. rewrite Hcount.
        destruct (escalates_type s (wall (c 0%nat)) ty) eqn:E; [|exact Hle].
        simpl. unfold escalates_type in E.
        destruct (pending_escalations s !! ty) as [et|] eqn:Hp; [|discriminate].
        assert (Hlt := Harm (ex_intro _ et eq_refl)). lia.
      * intros [v Hv]. apply check_escalations_pending_subset in Hv.
        destruct Hv as [Hp Hno].
        unfold escalation_count at 1. rewrite Hcount, Hno.
        apply Harm. eauto.
    + unfold acknowledge_alert, mbind, Prog_bind, get, modify, state. simpl.
      destruct (objects s !! a) as [o|] eqn:Ho; [|split; assumption].
      destruct s as [ob ac hi la es pe cbs pa pu at_ lr no].
      unfold escalation_count in *. simpl in *.
      destruct (decide (alert_type o = ty)) as [->|Hne].
      * rewrite lookup_insert_eq, lookup_delete_eq. simpl.
        split; [lia|]. intros [v Hv]. discriminate.
      * rewrite lookup_insert_ne, lookup_delete_ne by exact Hne.
        split; assumption.
    + unfold acknowledge_all, mbind, Prog_bind, get, modify, state. simpl.
      destruct s as [ob ac hi la es pe cbs pa pu at_ lr no].
      unfold escalation_count in *. simpl in *.
      rewrite lookup_fmap, lookup_empty.
      split.
      * destruct (es !! ty); simpl; lia.
      * intros [v Hv]. discriminate.
    + destruct s; split; assumption.
    + destruct s; split; assumption.
    + destruct s; split; assumption.
Qed.

End EngineCap.

(** ** The monitor: the snapshot of a tick with a face *)

Section PresentTick.
Import HealthAggregator.

Lemma yields_bind {A} (P : HealthState -> HealthMonitor -> Prop)
    (p : Prog HealthMonitor A) (f : A -> Prog HealthMonitor (option HealthState)) :
  (forall a, yields P (f a)) -> yields P (p ≫= f).
Proof.
  intros Hf c m. unfold mbind, Prog_bind.
  destruct (p c m) as [[a s'] c']. apply Hf.
Qed.

Lemma overall_score_clamped (e : EyeHealthMetrics) (p : PostureMetrics) :
  0 <= _calculate_overall_score e p /\ _calculate_overall_score e p <= 100.
Proof.
  unfold _calculate_overall_score. cbv zeta.
  split; [apply Q.le_max_l|].
  apply Q.max_lub; [discriminate | apply Q.le_min_l].
Qed.

(** X24. On a tick of a running monitor with a frame and a face, the
    snapshot reports the user present, carries eye and posture metrics, has
    an overall score between 0 and 100, and its [is_calibrating] is true
    exactly when the eye tracker or the posture analyzer, as this tick
    leaves them, is still calibrating. *)
Theorem present_tick_snapshot
    (m : HealthMonitor) (c : Clock) (frame : Frame) (lm : FaceLandmarks) :
  is_running m = true ->
  let r := process_frame (mkCapture (Some frame) (Some lm)) c m in
  exists hs, result r = Some hs /\ present_snapshot hs (state r).
Proof.
  intros Hrun r. subst r.
  assert (E : exists p,
            process_frame (mkCapture (Some frame) (Some lm)) c m = p c m
            /\ yields present_snapshot p).
  { eexists. split.
    - unfold process_frame. unfold mbind at 1. unfold Prog_bind at 1.
      unfold get at 1. rewrite Hrun.
      cbn [negb capture_frame capture_landmarks]. reflexivity.
    - do 10 (apply yields_bind; intros ?).
      intros c1 s1.
      unfold on_alerts, zoom, AlertEngine.get_active_alerts, mbind, Prog_bind,
        mret, Prog_ret, get, result, state. simpl.
      eexists. split; [reflexivity|].
      unfold present_snapshot. simpl.
      split; [reflexivity|]. split; [destruct s1; reflexivity|].
      split; [apply overall_score_clamped|].
      split; [apply overall_score_clamped|]. split; eauto. }
  destruct E as (p & -> & Hp). apply Hp.
Qed.

Lemma present_tick_snapshot_witness :
  is_running monitor0 = true
  /\ exists hs,
       result (process_frame (mkCapture (Some frame0) (Some face0))
                 (const_clock 1001 5) monitor0) = Some hs
       /\ is_calibrating hs = true.
Proof.
  assert (Hrun : is_running monitor0 = true) by (vm_compute; reflexivity).
  split; [exact Hrun|].
  destruct (present_tick_snapshot monitor0 (const_clock 1001 5) frame0 face0 Hrun)
    as (hs & Hres & _ & Hcal & _).
  exists hs. split; [exact Hres|]. rewrite Hcal. vm_compute. reflexivity.
Defined.

End PresentTick.
